(** * SecureIdentityManager: the authentication core, embedded in Rocq

    A shallow embedding of [server/auth.ts], [server/storage.ts],
    [server/routes.ts] and [shared/schema.ts].

    - JavaScript strings are [string]s of 8-bit characters; [toLowerCase]
      acts on the ASCII letters.
    - Buffers are [list byte].
    - An exception is a value of [JsError] carried by [result].
    - [Map<number, User>] is an association list in insertion order, because
      [Array.from(map.values()).find(..)] returns the first match in that
      order.  Every entry of the map holds an object of its own, so the key
      of an entry also stands for the reference to its object.
    - [scrypt], [speakeasy.totp.verify] and [SiweMessage] are external
      libraries: they are Section variables. *)

From Stdlib Require Import ZArith NArith List String Ascii Bool Lia.
From Stdlib.Strings Require Import Byte.
From Stdlib Require Import DecimalString Permutation Sorted.
From Stdlib Require DecimalPos DecimalN.
Import ListNotations.
Local Open Scope string_scope.

(* ================================================================== *)
(** ** JavaScript run-time primitives used by the server               *)
(* ================================================================== *)

Module Js.

(** The exceptions that the modelled code can raise. *)
Inductive JsError : Type :=
| ERR_INVALID_ARG_TYPE                 (* TypeError of node:crypto / Buffer *)
| ERR_CRYPTO_TIMING_SAFE_EQUAL_LENGTH  (* RangeError of timingSafeEqual *)
| UserNotFound (id : Z)                (* new Error(`User with ID ${id} not found`) *)
| SiweError.                           (* anything thrown by the siwe library *)

Inductive result (A : Type) : Type :=
| Ok (a : A)
| Throw (e : JsError).
Arguments Ok {A} a.
Arguments Throw {A} e.

Definition bind {A B} (m : result A) (k : A -> result B) : result B :=
  match m with
  | Ok a => k a
  | Throw e => Throw e
  end.

(** [String.prototype.toLowerCase], on the ASCII letters. *)
Definition lowerChar (c : ascii) : ascii :=
  let n := N_of_ascii c in
  if (65 <=? n)%N && (n <=? 90)%N then ascii_of_N (n + 32) else c.

Fixpoint toLowerCase (s : string) : string :=
  match s with
  | EmptyString => EmptyString
  | String c r => String (lowerChar c) (toLowerCase r)
  end.

(** [s.split(sep)] for a one-character separator: never empty. *)
Fixpoint split (sep : ascii) (s : string) : list string :=
  match s with
  | EmptyString => [EmptyString]
  | String c r =>
      if Ascii.eqb c sep then EmptyString :: split sep r
      else match split sep r with
           | h :: t => String c h :: t
           | [] => [String c EmptyString]
           end
  end.

(** [s.slice(0, n)]. *)
Fixpoint slice0 (n : nat) (s : string) : string :=
  match n, s with
  | S m, String c r => String c (slice0 m r)
  | _, _ => EmptyString
  end.

(** Truthiness of a string and of a nullable string. *)
Definition truthy (s : string) : bool :=
  match s with EmptyString => false | String _ _ => true end.

(** [x || null] on a nullable string: the empty string is falsy. *)
Definition orNull (x : option string) : option string :=
  match x with
  | Some s => if truthy s then Some s else None
  | None => None
  end.

(** [x || d] on a nullable string. *)
Definition orElse (x : option string) (d : string) : string :=
  match orNull x with Some s => s | None => d end.

(** *** Buffers and the "hex" encoding *)

Definition hexDigit (n : N) : ascii :=
  if (n <? 10)%N then ascii_of_N (48 + n) else ascii_of_N (87 + n).

Definition byteToHex (b : byte) : string :=
  let n := Byte.to_N b in
  String (hexDigit (n / 16)) (String (hexDigit (n mod 16)) EmptyString).

(** [buf.toString("hex")] *)
Fixpoint toHex (bs : list byte) : string :=
  match bs with
  | [] => EmptyString
  | b :: r => byteToHex b ++ toHex r
  end.

Definition unhex (c : ascii) : option N :=
  let n := N_of_ascii c in
  if (48 <=? n)%N && (n <=? 57)%N then Some (n - 48)%N
  else if (97 <=? n)%N && (n <=? 102)%N then Some (n - 87)%N
  else if (65 <=? n)%N && (n <=? 70)%N then Some (n - 55)%N
  else None.

(** [Buffer.from(s, "hex")]: decodes pairs of hex digits and stops at the
    first pair that is not hexadecimal; a trailing single character is
    dropped. *)
Fixpoint fromHex (s : string) : list byte :=
  match s with
  | String c1 (String c2 r) =>
      match unhex c1, unhex c2 with
      | Some a, Some b =>
          match Byte.of_N (16 * a + b) with
          | Some x => x :: fromHex r
          | None => []
          end
      | _, _ => []
      end
  | _ => []
  end.

Fixpoint bytes_eqb (a b : list byte) : bool :=
  match a, b with
  | [], [] => true
  | x :: a', y :: b' => Byte.eqb x y && bytes_eqb a' b'
  | _, _ => false
  end.

(** [crypto.timingSafeEqual]: a RangeError when the lengths differ. *)
Definition timingSafeEqual (a b : list byte) : result bool :=
  if Nat.eqb (List.length a) (List.length b) then Ok (bytes_eqb a b)
  else Throw ERR_CRYPTO_TIMING_SAFE_EQUAL_LENGTH.

(** A string has no occurrence of a character. *)
Fixpoint lacks (c : ascii) (s : string) : bool :=
  match s with
  | EmptyString => true
  | String d r => negb (Ascii.eqb d c) && lacks c r
  end.

End Js.
Export Js.

Notation "x <- m ;; k" := (Js.bind m (fun x => k))
  (at level 61, m at next level, right associativity).

(* ================================================================== *)
(** ** Password hashing ([server/auth.ts])                             *)
(* ================================================================== *)

Section Passwords.

(** [scrypt(password, salt, keylen)] of node:crypto, a deterministic
    key-derivation function. *)
Variable scrypt : string -> string -> nat -> list byte.

(** [promisify(scrypt)]: the salt must be a string or a buffer; the
    [undefined] that array destructuring yields is refused. *)
Definition scryptAsync (password : string) (salt : option string)
    (keylen : nat) : result (list byte) :=
  match salt with
  | Some s => Ok (scrypt password s keylen)
  | None => Throw ERR_INVALID_ARG_TYPE
  end.

(** [hashPassword]; [rnd] is the outcome of [randomBytes(16)]. *)
Definition hashPassword (rnd : list byte) (password : string) : result string :=
  let salt := toHex rnd in
  buf <- scryptAsync password (Some salt) 64 ;;
  Ok (toHex buf ++ "." ++ salt).

(** [comparePasswords] *)
Definition comparePasswords (supplied stored : string) : result bool :=
  let parts := split "." stored in
  let hashed := nth_error parts 0 in
  let salt := nth_error parts 1 in
  hashedBuf <- match hashed with
               | Some h => Ok (fromHex h)
               | None => Throw ERR_INVALID_ARG_TYPE
               end ;;
  suppliedBuf <- scryptAsync supplied salt 64 ;;
  timingSafeEqual hashedBuf suppliedBuf.

End Passwords.

(* ================================================================== *)
(** ** The data model ([shared/schema.ts])                             *)
(* ================================================================== *)

(** A row of the [users] table: [typeof users.$inferSelect].  A nullable
    column is an [option]; [lastLogin] is a timestamp. *)
Record User : Type := mkUser {
  id : Z;
  username : string;
  password : string;
  email : string;
  firstName : option string;
  lastName : option string;
  role : string;
  is2FAEnabled : bool;
  twoFactorSecret : option string;
  isPremium : bool;
  stripeCustomerId : option string;
  stripeSubscriptionId : option string;
  lastLogin : option Z;
  language : string;
  walletAddress : option string;
  authType : string
}.

(** [InsertUser], the type that [insertUserSchema] infers. *)
Record InsertUser : Type := mkInsertUser {
  ins_username : string;
  ins_password : string;
  ins_email : string;
  ins_firstName : option string;
  ins_lastName : option string;
  ins_walletAddress : option string;
  ins_authType : option string
}.

(** [Partial<User>]: a field that is [None] is absent from the object. *)
Record PartialUser : Type := mkPartialUser {
  upd_id : option Z;
  upd_username : option string;
  upd_password : option string;
  upd_email : option string;
  upd_firstName : option (option string);
  upd_lastName : option (option string);
  upd_role : option string;
  upd_is2FAEnabled : option bool;
  upd_twoFactorSecret : option (option string);
  upd_isPremium : option bool;
  upd_stripeCustomerId : option (option string);
  upd_stripeSubscriptionId : option (option string);
  upd_lastLogin : option (option Z);
  upd_language : option string;
  upd_walletAddress : option (option string);
  upd_authType : option string
}.

(** The empty object [{}]. *)
Definition noUpdates : PartialUser :=
  mkPartialUser None None None None None None None None
                None None None None None None None None.

Definition over {A} (new : option A) (old : A) : A :=
  match new with Some v => v | None => old end.

(** The object spread [{ ...user, ...updates }]. *)
Definition spread (user : User) (updates : PartialUser) : User :=
  {| id := over (upd_id updates) (id user);
     username := over (upd_username updates) (username user);
     password := over (upd_password updates) (password user);
     email := over (upd_email updates) (email user);
     firstName := over (upd_firstName updates) (firstName user);
     lastName := over (upd_lastName updates) (lastName user);
     role := over (upd_role updates) (role user);
     is2FAEnabled := over (upd_is2FAEnabled updates) (is2FAEnabled user);
     twoFactorSecret := over (upd_twoFactorSecret updates) (twoFactorSecret user);
     isPremium := over (upd_isPremium updates) (isPremium user);
     stripeCustomerId := over (upd_stripeCustomerId updates) (stripeCustomerId user);
     stripeSubscriptionId :=
       over (upd_stripeSubscriptionId updates) (stripeSubscriptionId user);
     lastLogin := over (upd_lastLogin updates) (lastLogin user);
     language := over (upd_language updates) (language user);
     walletAddress := over (upd_walletAddress updates) (walletAddress user);
     authType := over (upd_authType updates) (authType user) |}.

(** The assignment [user.lastLogin = new Date()]. *)
Definition setLastLogin (user : User) (now : Z) : User :=
  spread user
    (mkPartialUser None None None None None None None None
                   None None None None (Some (Some now)) None None None).

(** *** Request bodies and their zod schemas *)

Record LoginUser : Type := mkLoginUser {
  login_username : string;
  login_password : string
}.

(** [loginUserSchema]: both strings have [min(1)]. *)
Definition loginUserSchema (b : LoginUser) : bool :=
  (1 <=? String.length (login_username b))%nat
  && (1 <=? String.length (login_password b))%nat.

Record Web3Login : Type := mkWeb3Login {
  w3_address : string;
  w3_signature : string;
  w3_message : string
}.

(** [web3LoginSchema]: the three strings have [min(1)]. *)
Definition web3LoginSchema (b : Web3Login) : bool :=
  (1 <=? String.length (w3_address b))%nat
  && (1 <=? String.length (w3_signature b))%nat
  && (1 <=? String.length (w3_message b))%nat.

(** The body of POST /api/verify-2fa: [verify2FASchema] knows [token] only
    and lets [userId] through unchecked; an absent [userId] is [None]. *)
Record Verify2FA : Type := mkVerify2FA {
  v_token : string;
  v_userId : option Z
}.

(** [verify2FASchema]: [token] has [length(6)]. *)
Definition verify2FASchema (b : Verify2FA) : bool :=
  (String.length (v_token b) =? 6)%nat.

(** *** JSON values sent back to the client *)

#[local] Set Warnings "-register-all".
Inductive Json : Type :=
| JNull
| JBool (b : bool)
| JNum (z : Z)
| JStr (s : string)
| JZodErrors                          (* [result.error.errors], not modelled *)
| JObj (fields : list (string * Json))
| JArr (items : list Json).

Definition jstr (x : option string) : Json :=
  match x with Some s => JStr s | None => JNull end.

Definition jdate (x : option Z) : Json :=
  match x with Some t => JNum t | None => JNull end.

(** The own properties of a [User] object. *)
Definition userFields (u : User) : list (string * Json) :=
  [ ("id", JNum (id u));
    ("username", JStr (username u));
    ("password", JStr (password u));
    ("email", JStr (email u));
    ("firstName", jstr (firstName u));
    ("lastName", jstr (lastName u));
    ("role", JStr (role u));
    ("is2FAEnabled", JBool (is2FAEnabled u));
    ("twoFactorSecret", jstr (twoFactorSecret u));
    ("isPremium", JBool (isPremium u));
    ("stripeCustomerId", jstr (stripeCustomerId u));
    ("stripeSubscriptionId", jstr (stripeSubscriptionId u));
    ("lastLogin", jdate (lastLogin u));
    ("language", JStr (language u));
    ("walletAddress", jstr (walletAddress u));
    ("authType", JStr (authType u)) ].

(** Object rest: [const { k1, k2, ...rest } = obj]. *)
Definition omit (keys : list string) (fields : list (string * Json))
    : list (string * Json) :=
  filter (fun f => negb (existsb (String.eqb (fst f)) keys)) fields.

(** [const { password, twoFactorSecret, ...userWithoutSensitiveInfo } = user] *)
Definition userWithoutSensitiveInfo (u : User) : Json :=
  JObj (omit ["password"; "twoFactorSecret"] (userFields u)).

(** [const { password, ...userWithoutPassword } = user] *)
Definition userWithoutPassword (u : User) : Json :=
  JObj (omit ["password"] (userFields u)).

Definition message (m : string) : Json := JObj [("message", JStr m)].

(** What a handler does with the request: [res.status(s).json(body)], or
    [next(err)], which hands the error to the framework. *)
Inductive Response : Type :=
| Reply (status : Z) (body : Json)
| Next (err : JsError).

(* ================================================================== *)
(** ** [class MemStorage] ([server/storage.ts])                        *)
(* ================================================================== *)

(** The class as it is in the version of the file that has
    [getUserByWalletAddress]. *)

Module MemStorage.

(** The fields of the class that the user operations touch. *)
Record t : Type := mk {
  userStorage : list (Z * User);
  currentUserId : Z
}.

(** [constructor()] *)
Definition init : t := {| userStorage := []; currentUserId := 1 |}.

(** [Map.prototype.get] *)
Fixpoint map_get (k : Z) (m : list (Z * User)) : option User :=
  match m with
  | [] => None
  | (k', v) :: r => if (k' =? k)%Z then Some v else map_get k r
  end.

(** [Map.prototype.set]: an existing key keeps its place, a new key goes
    to the end. *)
Fixpoint map_set (k : Z) (v : User) (m : list (Z * User)) : list (Z * User) :=
  match m with
  | [] => [(k, v)]
  | (k', v') :: r =>
      if (k' =? k)%Z then (k, v) :: r else (k', v') :: map_set k v r
  end.

Definition getUser (st : t) (id : Z) : option User :=
  map_get id (userStorage st).

(** [Array.from(this.userStorage.values()).find(p)]; the result is the
    entry, that is the object together with its reference. *)
Definition findUser (p : User -> bool) (st : t) : option (Z * User) :=
  find (fun e => p (snd e)) (userStorage st).

Definition getUserByUsername (st : t) (name : string) : option (Z * User) :=
  findUser (fun user =>
    String.eqb (toLowerCase (username user)) (toLowerCase name)) st.

Definition getUserByEmail (st : t) (mail : string) : option (Z * User) :=
  findUser (fun user =>
    String.eqb (toLowerCase (email user)) (toLowerCase mail)) st.

(** [user.walletAddress?.toLowerCase() === walletAddress.toLowerCase()]:
    a null wallet address gives [undefined], equal to no string. *)
Definition getUserByWalletAddress (st : t) (addr : string)
    : option (Z * User) :=
  findUser (fun user =>
    match walletAddress user with
    | Some w => String.eqb (toLowerCase w) (toLowerCase addr)
    | None => false
    end) st.

Definition createUser (st : t) (userData : InsertUser) (now : Z) : t * User :=
  let id := currentUserId st in
  let user :=
    {| id := id;
       username := ins_username userData;
       password := ins_password userData;
       email := ins_email userData;
       firstName := orNull (ins_firstName userData);
       lastName := orNull (ins_lastName userData);
       role := "user";
       is2FAEnabled := false;
       twoFactorSecret := None;
       isPremium := false;
       stripeCustomerId := None;
       stripeSubscriptionId := None;
       lastLogin := Some now;
       language := "en";
       walletAddress := orNull (ins_walletAddress userData);
       authType := orElse (ins_authType userData) "email" |} in
  ({| userStorage := map_set id user (userStorage st);
      currentUserId := (id + 1)%Z |}, user).

Definition updateUser (st : t) (id : Z) (updates : PartialUser)
    : result (t * User) :=
  match getUser st id with
  | None => Throw (UserNotFound id)
  | Some user =>
      let updatedUser := spread user updates in
      Ok ({| userStorage := map_set id updatedUser (userStorage st);
             currentUserId := currentUserId st |}, updatedUser)
  end.

Definition getAllUsers (st : t) : list User := map snd (userStorage st).

(** The object found under [id] is mutated in place. *)
Definition updateLastLogin (st : t) (id : Z) (now : Z) : t :=
  match getUser st id with
  | Some user =>
      {| userStorage := map_set id (setLastLogin user now) (userStorage st);
         currentUserId := currentUserId st |}
  | None => st
  end.

(** The variable [user] holds the object whose reference is [ref]; after
    [updateLastLogin(user.id)] it shows the new [lastLogin] exactly when
    the object under [user.id] is that same object. *)
Definition seenAfterUpdateLastLogin (ref : Z) (user : User) (now : Z) : User :=
  if (ref =? id user)%Z then setLastLogin user now else user.

(** Keys are handed out by [currentUserId++], starting from 1. *)
Definition keys_bounded (st : t) : Prop :=
  (1 <= currentUserId st)%Z
  /\ Forall (fun e => (1 <= fst e < currentUserId st)%Z) (userStorage st).

End MemStorage.

(* ================================================================== *)
(** ** [class DatabaseStorage]: the three indexed look-ups             *)
(* ================================================================== *)

Module DatabaseStorage.

(** The rows of the [users] table. *)
Definition t : Type := list User.

(** [eq(column, value)] of drizzle-orm is SQL [column = value]; on a
    nullable column a NULL is equal to nothing. *)
Definition eq_text (column value : string) : bool := String.eqb column value.

Definition eq_nullable_text (column : option string) (value : string) : bool :=
  match column with
  | Some c => String.eqb c value
  | None => false
  end.

(** [db.select().from(users).where(cond).limit(1)] followed by
    [results[0]]. *)
Definition selectFirst (cond : User -> bool) (rows : t) : option User :=
  nth_error (firstn 1 (filter cond rows)) 0.

Definition getUserByUsername (rows : t) (name : string) : option User :=
  selectFirst (fun row => eq_text (username row) name) rows.

Definition getUserByEmail (rows : t) (mail : string) : option User :=
  selectFirst (fun row => eq_text (email row) mail) rows.

Definition getUserByWalletAddress (rows : t) (addr : string) : option User :=
  selectFirst (fun row => eq_nullable_text (walletAddress row) addr) rows.

End DatabaseStorage.

(* ================================================================== *)
(** ** The routes of [setupAuth] and [registerRoutes]                  *)
(* ================================================================== *)

(** What a request leaves behind: the response, the store, and the user id
    that passport keeps in the caller's session ([None]: no login). *)
Record Outcome : Type := mkOutcome {
  response : Response;
  store : MemStorage.t;
  session : option Z
}.

(** [Extended2FAVerifyOptions] *)
Record Extended2FAVerifyOptions : Type := mkInfo {
  info_message : string;
  requires2FA : bool;
  userId : option Z
}.

(** The three ways in which a passport verify callback calls [done]. *)
Inductive Done : Type :=
| DoneError (err : JsError)
| DoneUser (user : User)
| DoneFalse (info : Extended2FAVerifyOptions).

Section Auth.

Import MemStorage.

Variable scrypt : string -> string -> nat -> list byte.

(** [speakeasy.totp.verify({ secret, encoding: "base32", token,
    window: 1 })] at the time of the request. *)
Variable totp_verify : string -> string -> bool.

(** The [siwe] library: [new SiweMessage(message)] parses or throws,
    [.address] reads the parsed address, [.verify({ signature })] yields
    [result.success] or throws. *)
Variable SiweMessage : Type.
Variable SiweMessage_new : string -> result SiweMessage.
Variable SiweMessage_address : SiweMessage -> string.
Variable SiweMessage_verify : SiweMessage -> string -> result bool.

(** [passport.deserializeUser]: [req.user], if any. *)
Definition reqUser (st : t) (sess : option Z) : option User :=
  match sess with
  | Some k => getUser st k
  | None => None
  end.

Definition isAuthenticated (st : t) (sess : option Z) : bool :=
  match reqUser st sess with Some _ => true | None => false end.

Definition invalidInput (m : string) : Response :=
  Reply 400 (JObj [("message", JStr m); ("errors", JZodErrors)]).

(** *** The local strategy and POST /api/login *)

Definition incorrect : Extended2FAVerifyOptions :=
  mkInfo "Incorrect username or password" false None.

Definition localStrategy (st : t) (name pass : string) (now : Z) : Done * t :=
  match getUserByUsername st name with
  | None => (DoneFalse incorrect, st)
  | Some (ref, user) =>
      match comparePasswords scrypt pass (password user) with
      | Throw err => (DoneError err, st)
      | Ok false => (DoneFalse incorrect, st)
      | Ok true =>
          if is2FAEnabled user then
            (DoneFalse (mkInfo "2FA verification required" true (Some (id user))), st)
          else
            let st' := updateLastLogin st (id user) now in
            (DoneUser (seenAfterUpdateLastLogin ref user now), st')
      end
  end.

Definition login (st : t) (sess : option Z) (body : LoginUser) (now : Z)
    : Outcome :=
  if negb (loginUserSchema body) then
    mkOutcome (invalidInput "Invalid input data") st sess
  else
    match localStrategy st (login_username body) (login_password body) now with
    | (DoneError err, st') => mkOutcome (Next err) st' sess
    | (DoneFalse info, st') =>
        if requires2FA info then
          mkOutcome
            (Reply 200 (JObj [("requires2FA", JBool true);
                              ("userId", match userId info with
                                         | Some i => JNum i
                                         | None => JNull
                                         end);
                              ("message", JStr "2FA verification required")]))
            st' sess
        else
          mkOutcome
            (Reply 401 (message (orElse (Some (info_message info))
                                        "Authentication failed")))
            st' sess
    | (DoneUser user, st') =>
        mkOutcome (Reply 200 (userWithoutSensitiveInfo user)) st' (Some (id user))
    end.

(** *** POST /api/register

    [body] is [result.data]: [insertUserSchema] checks the types of the
    fields and nothing else, so a body of type [InsertUser] parses. *)

Definition register (st : t) (sess : option Z) (body : InsertUser)
    (now : Z) (saltBytes : list byte) : Outcome :=
  match getUserByUsername st (ins_username body) with
  | Some _ => mkOutcome (Reply 400 (message "Username already exists")) st sess
  | None =>
      match getUserByEmail st (ins_email body) with
      | Some _ => mkOutcome (Reply 400 (message "Email already in use")) st sess
      | None =>
          match hashPassword scrypt saltBytes (ins_password body) with
          | Throw err => mkOutcome (Next err) st sess
          | Ok hashedPassword =>
              let (st', user) :=
                createUser st
                  (mkInsertUser (ins_username body) hashedPassword
                     (ins_email body) (ins_firstName body) (ins_lastName body)
                     (ins_walletAddress body) (ins_authType body)) now in
              mkOutcome (Reply 201 (userWithoutPassword user)) st' (Some (id user))
          end
      end
  end.

(** *** POST /api/web3-login *)

Definition invalidSignature : Response :=
  Reply 401 (message "Invalid signature").

(** The user to log in, with the reference of its object: the registered
    one, or a user created on the spot. *)
Definition walletUser (st : t) (address : string) (now : Z)
    (passwordBytes saltBytes : list byte) : result (t * Z * User) :=
  match getUserByWalletAddress st address with
  | Some (ref, user) => Ok (st, ref, user)
  | None =>
      hashed <- hashPassword scrypt saltBytes (toHex passwordBytes) ;;
      let (st', user) :=
        createUser st
          (mkInsertUser ("wallet_" ++ slice0 8 address) hashed
             (slice0 10 address ++ "@wallet.eth") None None
             (Some address) (Some "web3")) now in
      Ok (st', id user, user)
  end.

Definition web3Login (st : t) (sess : option Z) (body : Web3Login)
    (now : Z) (passwordBytes saltBytes : list byte) : Outcome :=
  if negb (web3LoginSchema body) then
    mkOutcome (invalidInput "Invalid input data") st sess
  else
    let address := w3_address body in
    match SiweMessage_new (w3_message body) with
    | Throw _ => mkOutcome invalidSignature st sess
    | Ok siweMessage =>
        match SiweMessage_verify siweMessage (w3_signature body) with
        | Throw _ => mkOutcome invalidSignature st sess
        | Ok false => mkOutcome invalidSignature st sess
        | Ok true =>
            match SiweMessage_new (w3_message body) with
            | Throw _ => mkOutcome invalidSignature st sess
            | Ok parsedMessage =>
                if negb (String.eqb
                           (toLowerCase (SiweMessage_address parsedMessage))
                           (toLowerCase address))
                then mkOutcome (Reply 401 (message "Address mismatch")) st sess
                else
                  match walletUser st address now passwordBytes saltBytes with
                  | Throw _ => mkOutcome invalidSignature st sess
                  | Ok (st1, ref, user) =>
                      let st2 := updateLastLogin st1 (id user) now in
                      let user' := seenAfterUpdateLastLogin ref user now in
                      mkOutcome (Reply 200 (userWithoutSensitiveInfo user'))
                                st2 (Some (id user'))
                  end
            end
        end
    end.

(** *** POST /api/verify-2fa *)

Definition verify2fa (st : t) (sess : option Z) (body : Verify2FA) (now : Z)
    : Outcome :=
  if negb (verify2FASchema body) then
    mkOutcome (invalidInput "Invalid verification code") st sess
  else
    match v_userId body with
    | None => mkOutcome (Reply 400 (message "User ID is required")) st sess
    | Some uid =>
        if (uid =? 0)%Z then
          mkOutcome (Reply 400 (message "User ID is required")) st sess
        else
          match getUser st uid with
          | None =>
              mkOutcome (Reply 400 (message "Invalid user or 2FA not setup"))
                        st sess
          | Some user =>
              match orNull (twoFactorSecret user) with
              | None =>
                  mkOutcome
                    (Reply 400 (message "Invalid user or 2FA not setup"))
                    st sess
              | Some secret =>
                  if negb (totp_verify secret (v_token body)) then
                    mkOutcome (Reply 401 (message "Invalid verification code"))
                              st sess
                  else
                    let st' := updateLastLogin st (id user) now in
                    let user' := seenAfterUpdateLastLogin uid user now in
                    mkOutcome (Reply 200 (userWithoutSensitiveInfo user'))
                              st' (Some (id user'))
              end
          end
    end.

(** *** POST /api/user/disable-2fa *)

Definition disable2faUpdates : PartialUser :=
  mkPartialUser None None None None None None None (Some false)
                (Some None) None None None None None None None.

Definition disable2fa (st : t) (sess : option Z) : Outcome :=
  match reqUser st sess with
  | None => mkOutcome (Reply 401 (message "Not authenticated")) st sess
  | Some user =>
      match updateUser st (id user) disable2faUpdates with
      | Throw err => mkOutcome (Next err) st sess
      | Ok (st', _) =>
          mkOutcome (Reply 200 (message "2FA disabled successfully")) st' sess
      end
  end.

(** *** PATCH /api/user

    [req.body] goes to [updateUser] as it is; it is read as a
    [Partial<User>], the type of the parameter. *)

Definition patchUser (st : t) (sess : option Z) (body : PartialUser)
    : Outcome :=
  match reqUser st sess with
  | None => mkOutcome (Reply 401 (message "Not authenticated")) st sess
  | Some user =>
      match updateUser st (id user) body with
      | Throw err => mkOutcome (Next err) st sess
      | Ok (st', updatedUser) =>
          mkOutcome (Reply 200 (userWithoutSensitiveInfo updatedUser)) st' sess
      end
  end.

(** *** GET /api/admin/users ([server/routes.ts]) *)

Definition adminGuard (st : t) (sess : option Z) : bool :=
  match reqUser st sess with
  | Some user => String.eqb (role user) "admin"
  | None => false
  end.

Definition adminUsers (st : t) (sess : option Z) : Outcome :=
  if negb (adminGuard st sess) then
    mkOutcome (Reply 403 (message "Forbidden: Admin access required")) st sess
  else
    mkOutcome (Reply 200 (JArr (map userWithoutSensitiveInfo (getAllUsers st))))
              st sess.

End Auth.

(* ================================================================== *)
(** ** Notions used in the statements                                  *)
(* ================================================================== *)

(** The records on which [comparePasswords] gets as far as comparing:
    there is a separator and the text before the first one decodes, as
    [Buffer.from(.., "hex")] decodes it, to 64 bytes.  This is weaker than
    the form [digest.salt]: text after the 128 digits of the digest, an
    empty salt and further segments pass. *)
Definition wellFormedRecord (stored : string) : bool :=
  match split "." stored with
  | digest :: _ :: _ => Nat.eqb (List.length (fromHex digest)) 64
  | _ => false
  end.

(** Two characters that differ at most in letter case. *)
Definition upperLetter (c : ascii) : bool :=
  (65 <=? N_of_ascii c)%N && (N_of_ascii c <=? 90)%N.

Definition sameCharUpToCase (a b : ascii) : bool :=
  Ascii.eqb a b
  || (upperLetter a && Ascii.eqb b (ascii_of_N (N_of_ascii a + 32)))
  || (upperLetter b && Ascii.eqb a (ascii_of_N (N_of_ascii b + 32))).

(** Two strings that differ only in letter case. *)
Fixpoint sameUpToCase (s q : string) : bool :=
  match s, q with
  | EmptyString, EmptyString => true
  | String a s', String b q' => sameCharUpToCase a b && sameUpToCase s' q'
  | _, _ => false
  end.

(** No two users of the store have the same username up to case. *)
Definition usernamesUnique (st : MemStorage.t) : Prop :=
  forall k1 u1 k2 u2,
    In (k1, u1) (MemStorage.userStorage st) ->
    In (k2, u2) (MemStorage.userStorage st) ->
    toLowerCase (username u1) = toLowerCase (username u2) ->
    (k1, u1) = (k2, u2).

(** The outcome of a failed credential login. *)
Definition invalidCredentials (st : MemStorage.t) (sess : option Z) : Outcome :=
  mkOutcome (Reply 401 (message "Incorrect username or password")) st sess.

Section WalletNotions.

Import MemStorage.

Variable scrypt : string -> string -> nat -> list byte.
Variable SiweMessage : Type.
Variable SiweMessage_new : string -> result SiweMessage.
Variable SiweMessage_address : SiweMessage -> string.
Variable SiweMessage_verify : SiweMessage -> string -> result bool.

(** The record that a first wallet login creates. *)
Definition walletRecord (st : t) (address : string) (now : Z)
    (passwordBytes saltBytes : list byte) : User :=
  {| id := currentUserId st;
     username := ("wallet_" ++ slice0 8 address)%string;
     password :=
       (toHex (scrypt (toHex passwordBytes) (toHex saltBytes) 64)
        ++ "." ++ toHex saltBytes)%string;
     email := (slice0 10 address ++ "@wallet.eth")%string;
     firstName := None;
     lastName := None;
     role := "user";
     is2FAEnabled := false;
     twoFactorSecret := None;
     isPremium := false;
     stripeCustomerId := None;
     stripeSubscriptionId := None;
     lastLogin := Some now;
     language := "en";
     walletAddress := Some address;
     authType := "web3" |}.

(** A verified request: the schema holds, the message parses, the
    signature verifies and the message carries the claimed address up to
    letter case. *)
Definition verified (body : Web3Login) : Prop :=
  web3LoginSchema body = true
  /\ exists m,
       SiweMessage_new (w3_message body) = Ok m
       /\ SiweMessage_verify m (w3_signature body) = Ok true
       /\ toLowerCase (SiweMessage_address m) = toLowerCase (w3_address body).

End WalletNotions.

(** The record that POST /api/user/disable-2fa leaves for [user]. *)
Definition secondFactorCleared (user : User) : User :=
  {| id := id user;
     username := username user;
     password := password user;
     email := email user;
     firstName := firstName user;
     lastName := lastName user;
     role := role user;
     is2FAEnabled := false;
     twoFactorSecret := None;
     isPremium := isPremium user;
     stripeCustomerId := stripeCustomerId user;
     stripeSubscriptionId := stripeSubscriptionId user;
     lastLogin := lastLogin user;
     language := language user;
     walletAddress := walletAddress user;
     authType := authType user |}.

(* ================================================================== *)
(** ** Stand-ins for the external libraries, and sample data           *)
(* ================================================================== *)

Module Sample.

(** A key derivation of the right shape: deterministic, [keylen] bytes. *)
Definition scrypt (pass salt : string) (keylen : nat) : list byte :=
  firstn keylen (list_byte_of_string (pass ++ salt) ++ repeat x00 keylen).

(** One code per secret: its first six characters. *)
Definition totp_verify (secret token : string) : bool :=
  String.eqb token (slice0 6 (secret ++ "000000")).

(** A message is the signer's address; it is signed by prefixing it. *)
Definition SiweMessage : Type := string.
Definition SiweMessage_new (m : string) : result SiweMessage := Ok m.
Definition SiweMessage_address (m : SiweMessage) : string := m.
Definition SiweMessage_verify (m : SiweMessage) (signature : string)
    : result bool :=
  Ok (String.eqb signature ("signed:" ++ m)).

Definition salt : list byte := [x01; x02; x03; x04].

Definition secret1 : string :=
  match hashPassword scrypt salt "secret1" with
  | Ok h => h
  | Throw _ => EmptyString
  end.

(** alice: registered by password, second factor enabled. *)
Definition alice : User :=
  {| id := 1; username := "Alice"; password := secret1;
     email := "Alice@X.com"; firstName := None; lastName := None;
     role := "user"; is2FAEnabled := true;
     twoFactorSecret := Some "JBSWY3DPEHPK3PXP"; isPremium := false;
     stripeCustomerId := None; stripeSubscriptionId := None;
     lastLogin := Some 100%Z; language := "en";
     walletAddress := Some "0xABCdef"; authType := "email" |}.

(** bob: a secret is stored, the second factor is not enabled. *)
Definition bob : User :=
  {| id := 2; username := "bob"; password := secret1;
     email := "bob@x.com"; firstName := Some "Bob"; lastName := None;
     role := "user"; is2FAEnabled := false;
     twoFactorSecret := Some "KRUGKIDROVUWG2ZA"; isPremium := false;
     stripeCustomerId := None; stripeSubscriptionId := None;
     lastLogin := None; language := "en";
     walletAddress := None; authType := "email" |}.

Definition st : MemStorage.t :=
  {| MemStorage.userStorage := [(1%Z, alice); (2%Z, bob)];
     MemStorage.currentUserId := 3 |}.

Definition rows : DatabaseStorage.t := [alice; bob].

Definition makeAdmin : PartialUser :=
  mkPartialUser None None None None None None (Some "admin") None
                None (Some true) None None None None None None.

Definition walletBody : Web3Login :=
  mkWeb3Login "0x1234567890abcdef" "signed:0x1234567890ABCDEF"
              "0x1234567890ABCDEF".

End Sample.

(* ================================================================== *)
(** ** More of [class MemStorage]: the Stripe fields                   *)
(* ================================================================== *)

Module MemStorageStripe.

Import MemStorage.

Definition updateStripeCustomerId (st : t) (userId : Z) (customerId : string)
    : result (t * User) :=
  updateUser st userId
    (mkPartialUser None None None None None None None None
                   None None (Some (Some customerId)) None None None None None).

Definition updateStripeSubscriptionId (st : t) (userId : Z)
    (subscriptionId : string) : result (t * User) :=
  updateUser st userId
    (mkPartialUser None None None None None None None None
                   None None None (Some (Some subscriptionId)) None None None
                   None).

Definition updateUserStripeInfo (st : t) (userId : Z)
    (customerId subscriptionId : string) : result (t * User) :=
  updateUser st userId
    (mkPartialUser None None None None None None None None
                   None None (Some (Some customerId))
                   (Some (Some subscriptionId)) None None None None).

Definition updatePremiumStatus (st : t) (userId : Z) (isPremium : bool)
    : result (t * User) :=
  updateUser st userId
    (mkPartialUser None None None None None None None None
                   None (Some isPremium) None None None None None None).

End MemStorageStripe.

(* ================================================================== *)
(** ** More of [class MemStorage]: the payments                        *)
(* ================================================================== *)

(** A row of the [payments] table; [date] is a timestamp. *)
Record Payment : Type := mkPayment {
  pay_id : Z;
  pay_userId : Z;
  pay_amount : Z;
  pay_date : Z;
  pay_status : string;
  pay_plan : string;
  pay_method : string
}.

(** [Omit<Payment, 'id'>] *)
Record InsertPayment : Type := mkInsertPayment {
  ip_userId : Z;
  ip_amount : Z;
  ip_date : Z;
  ip_status : string;
  ip_plan : string;
  ip_method : string
}.

Module MemPayments.

Local Open Scope list_scope.

(** The two fields of [MemStorage] that the payment operations touch. *)
Record t : Type := mk {
  paymentStorage : list (Z * Payment);
  currentPaymentId : Z
}.

Definition init : t := {| paymentStorage := []; currentPaymentId := 1 |}.

(** [Map.prototype.set] on the payment map. *)
Fixpoint map_set (k : Z) (v : Payment) (m : list (Z * Payment))
    : list (Z * Payment) :=
  match m with
  | [] => [(k, v)]
  | (k', v') :: r =>
      if (k' =? k)%Z then (k, v) :: r else (k', v') :: map_set k v r
  end.

Definition createPayment (st : t) (paymentData : InsertPayment) : t * Payment :=
  let id := currentPaymentId st in
  let payment :=
    {| pay_id := id;
       pay_userId := ip_userId paymentData;
       pay_amount := ip_amount paymentData;
       pay_date := ip_date paymentData;
       pay_status := ip_status paymentData;
       pay_plan := ip_plan paymentData;
       pay_method := ip_method paymentData |} in
  ({| paymentStorage := map_set id payment (paymentStorage st);
      currentPaymentId := (id + 1)%Z |}, payment).

(** The comparator [(a, b) => new Date(b.date).getTime() - new
    Date(a.date).getTime()]. *)
Definition newestFirst (a b : Payment) : Z := (pay_date b - pay_date a)%Z.

(** [Array.prototype.sort(compare)] is a stable sort; for a comparator that
    orders by a key its result is the one that insertion from the right end
    computes: an element goes in front of the first element that it need not
    follow. *)
Fixpoint insertSorted {A} (compare : A -> A -> Z) (x : A) (l : list A)
    : list A :=
  match l with
  | [] => [x]
  | y :: r =>
      if (compare x y <=? 0)%Z then x :: y :: r
      else y :: insertSorted compare x r
  end.

Definition sort {A} (compare : A -> A -> Z) (l : list A) : list A :=
  fold_right (insertSorted compare) [] l.

(** [Array.prototype.slice(0, end)]: a negative [end] counts from the end
    of the array. *)
Definition slice {A} (l : list A) (stop : Z) : list A :=
  let len := Z.of_nat (List.length l) in
  let k := if (stop <? 0)%Z then Z.max (len + stop) 0 else Z.min stop len in
  firstn (Z.to_nat k) l.

Definition getUserPayments (st : t) (userId : Z) : list Payment :=
  sort newestFirst
    (filter (fun payment => (pay_userId payment =? userId)%Z)
            (map snd (paymentStorage st))).

(** [limit] has the default 5. *)
Definition getUserRecentPayments (st : t) (userId : Z) (limit : option Z)
    : list Payment :=
  slice (getUserPayments st userId)
        (match limit with Some n => n | None => 5%Z end).

Definition getAllPayments (st : t) : list Payment :=
  sort newestFirst (map snd (paymentStorage st)).

(** Keys are handed out by [currentPaymentId++], starting from 1. *)
Definition keys_bounded (st : t) : Prop :=
  (1 <= currentPaymentId st)%Z
  /\ Forall (fun e => (1 <= fst e < currentPaymentId st)%Z) (paymentStorage st).

End MemPayments.

(** The JSON form of a payment. *)
Definition paymentJson (p : Payment) : Json :=
  JObj [ ("id", JNum (pay_id p));
         ("userId", JNum (pay_userId p));
         ("amount", JNum (pay_amount p));
         ("date", JNum (pay_date p));
         ("status", JStr (pay_status p));
         ("plan", JStr (pay_plan p));
         ("method", JStr (pay_method p)) ].

(* ================================================================== *)
(** ** [parseInt], as the routes use it on [req.params.id]             *)
(* ================================================================== *)

Module ParseInt.

(** The white space and line terminators of the ASCII range. *)
Definition isWhiteSpace (c : ascii) : bool :=
  let n := N_of_ascii c in
  ((9 <=? n)%N && (n <=? 13)%N) || (n =? 32)%N.

Fixpoint trimStart (s : string) : string :=
  match s with
  | String c r => if isWhiteSpace c then trimStart r else s
  | EmptyString => EmptyString
  end.

Definition digit (radix : N) (c : ascii) : option N :=
  match unhex c with
  | Some d => if (d <? radix)%N then Some d else None
  | None => None
  end.

(** The value of the longest prefix of digits; [None] when there is none.
    [acc] is the value read so far, [seen] whether a digit was read. *)
Fixpoint digits (radix : N) (s : string) (acc : N) (seen : bool) : option N :=
  match s with
  | String c r =>
      match digit radix c with
      | Some d => digits radix r (acc * radix + d)%N true
      | None => if seen then Some acc else None
      end
  | EmptyString => if seen then Some acc else None
  end.

(** An optional sign, then an optional [0x] or [0X], then the digits. *)
Definition unsigned (s : string) : option N :=
  match s with
  | String "0" (String "x" r) => digits 16 r 0 false
  | String "0" (String "X" r) => digits 16 r 0 false
  | _ => digits 10 s 0 false
  end.

(** [parseInt(s)] without a radix; [None] is NaN.  The result is the exact
    integer: a double represents it exactly below 2^53. *)
Definition parseInt (s : string) : option Z :=
  match trimStart s with
  | String "-" r =>
      match unsigned r with Some n => Some (- Z.of_N n)%Z | None => None end
  | String "+" r =>
      match unsigned r with Some n => Some (Z.of_N n) | None => None end
  | t => match unsigned t with Some n => Some (Z.of_N n) | None => None end
  end.

End ParseInt.

(* ================================================================== *)
(** ** The other routes of [setupAuth]                                 *)
(* ================================================================== *)

(** What [speakeasy.generateSecret] returns, as far as the route reads it. *)
Record GeneratedSecret : Type := mkGeneratedSecret {
  base32 : string;
  otpauth_url : string
}.

(** The body of POST /api/user/change-password; an absent field is
    [undefined]. *)
Record ChangePassword : Type := mkChangePassword {
  currentPassword : option string;
  newPassword : option string
}.

Section AuthMore.

Import MemStorage.

Variable scrypt : string -> string -> nat -> list byte.
Variable totp_verify : string -> string -> bool.

(** [toDataURL] of the qrcode library: a data URL, or an exception. *)
Variable toDataURL : string -> result string.

Definition notAuthenticated : Response :=
  Reply 401 (message "Not authenticated").

(** *** POST /api/user/setup-2fa; [secret] is what [generateSecret] drew. *)

Definition setup2faUpdates (secret : GeneratedSecret) : PartialUser :=
  mkPartialUser None None None None None None None None
                (Some (Some (base32 secret))) None None None None None None
                None.

Definition setup2fa (st : t) (sess : option Z) (secret : GeneratedSecret)
    : Outcome :=
  match reqUser st sess with
  | None => mkOutcome notAuthenticated st sess
  | Some requester =>
      match getUser st (id requester) with
      | None => mkOutcome (Reply 404 (message "User not found")) st sess
      | Some user =>
          match updateUser st (id user) (setup2faUpdates secret) with
          | Throw err => mkOutcome (Next err) st sess
          | Ok (st', _) =>
              match toDataURL (otpauth_url secret) with
              | Throw err => mkOutcome (Next err) st' sess
              | Ok qrCodeUrl =>
                  mkOutcome (Reply 200 (JObj [("qrCodeUrl", JStr qrCodeUrl)]))
                            st' sess
              end
          end
      end
  end.

(** *** POST /api/user/enable-2fa *)

Definition enable2faUpdates : PartialUser :=
  mkPartialUser None None None None None None None (Some true)
                None None None None None None None None.

Definition enable2fa (st : t) (sess : option Z) (body : Verify2FA) : Outcome :=
  match reqUser st sess with
  | None => mkOutcome notAuthenticated st sess
  | Some requester =>
      if negb (verify2FASchema body) then
        mkOutcome (invalidInput "Invalid verification code") st sess
      else
        match getUser st (id requester) with
        | None => mkOutcome (Reply 400 (message "2FA not set up yet")) st sess
        | Some user =>
            match orNull (twoFactorSecret user) with
            | None =>
                mkOutcome (Reply 400 (message "2FA not set up yet")) st sess
            | Some secret =>
                if negb (totp_verify secret (v_token body)) then
                  mkOutcome (Reply 401 (message "Invalid verification code"))
                            st sess
                else
                  match updateUser st (id user) enable2faUpdates with
                  | Throw err => mkOutcome (Next err) st sess
                  | Ok (st', _) =>
                      mkOutcome (Reply 200 (message "2FA enabled successfully"))
                                st' sess
                  end
            end
        end
  end.

(** *** POST /api/logout *)

Definition logout (st : t) (sess : option Z) : Outcome :=
  mkOutcome (Reply 200 (message "Logged out successfully")) st None.

(** *** GET /api/user *)

Definition currentUser (st : t) (sess : option Z) : Outcome :=
  match reqUser st sess with
  | None => mkOutcome notAuthenticated st sess
  | Some user => mkOutcome (Reply 200 (userWithoutSensitiveInfo user)) st sess
  end.

(** *** POST /api/user/change-password; [saltBytes] is the outcome of
    [randomBytes(16)].  An [undefined] password is refused by scrypt. *)

Definition passwordUpdates (hashedPassword : string) : PartialUser :=
  mkPartialUser None None (Some hashedPassword) None None None None None
                None None None None None None None None.

Definition comparePasswordsArg (supplied : option string) (stored : string)
    : result bool :=
  match supplied with
  | Some s => comparePasswords scrypt s stored
  | None => Throw ERR_INVALID_ARG_TYPE
  end.

Definition hashPasswordArg (saltBytes : list byte) (pass : option string)
    : result string :=
  match pass with
  | Some s => hashPassword scrypt saltBytes s
  | None => Throw ERR_INVALID_ARG_TYPE
  end.

Definition changePassword (st : t) (sess : option Z) (body : ChangePassword)
    (saltBytes : list byte) : Outcome :=
  match reqUser st sess with
  | None => mkOutcome notAuthenticated st sess
  | Some requester =>
      match getUser st (id requester) with
      | None => mkOutcome (Reply 404 (message "User not found")) st sess
      | Some user =>
          match comparePasswordsArg (currentPassword body) (password user) with
          | Throw err => mkOutcome (Next err) st sess
          | Ok false =>
              mkOutcome (Reply 401 (message "Current password is incorrect"))
                        st sess
          | Ok true =>
              match hashPasswordArg saltBytes (newPassword body) with
              | Throw err => mkOutcome (Next err) st sess
              | Ok hashedPassword =>
                  match updateUser st (id user)
                          (passwordUpdates hashedPassword) with
                  | Throw err => mkOutcome (Next err) st sess
                  | Ok (st', _) =>
                      mkOutcome
                        (Reply 200 (message "Password updated successfully"))
                        st' sess
                  end
              end
          end
      end
  end.

End AuthMore.

(* ================================================================== *)
(** ** The other routes of [registerRoutes] ([server/routes.ts])       *)
(* ================================================================== *)

Section Routes.

Import MemStorage.

Definition forbiddenAdmin : Response :=
  Reply 403 (message "Forbidden: Admin access required").

Definition invalidUserId : Response :=
  Reply 400 (message "Invalid user ID").

(** *** PATCH /api/admin/users/:id; [idParam] is [req.params.id]. *)

Definition adminPatchUser (st : t) (sess : option Z) (idParam : string)
    (body : PartialUser) : Outcome :=
  if negb (adminGuard st sess) then mkOutcome forbiddenAdmin st sess
  else
    match ParseInt.parseInt idParam with
    | None => mkOutcome invalidUserId st sess
    | Some userId =>
        match updateUser st userId body with
        | Throw _ =>
            mkOutcome (Reply 500 (message "Failed to update user")) st sess
        | Ok (st', updatedUser) =>
            mkOutcome (Reply 200 (userWithoutSensitiveInfo updatedUser)) st' sess
        end
    end.

(** The payment routes read both stores and write neither: they are given
    by their response. *)

(** *** GET /api/admin/payments *)

Definition adminPayments (st : t) (pst : MemPayments.t) (sess : option Z)
    : Response :=
  if negb (adminGuard st sess) then forbiddenAdmin
  else Reply 200 (JArr (map paymentJson (MemPayments.getAllPayments pst))).

(** [req.user.id !== userId && req.user.role !== "admin"] *)
Definition mayReadPayments (user : User) (userId : Z) : bool :=
  negb (negb (id user =? userId)%Z && negb (String.eqb (role user) "admin")).

Definition forbiddenPayments : Response :=
  Reply 403 (message "Forbidden: You can only access your own payments").

(** *** GET /api/payments/user/:id *)

Definition userPayments (st : t) (pst : MemPayments.t) (sess : option Z)
    (idParam : string) : Response :=
  match reqUser st sess with
  | None => Reply 401 (message "Not authenticated")
  | Some user =>
      match ParseInt.parseInt idParam with
      | None => invalidUserId
      | Some userId =>
          if negb (mayReadPayments user userId) then forbiddenPayments
          else Reply 200 (JArr (map paymentJson
                                    (MemPayments.getUserPayments pst userId)))
      end
  end.

(** *** GET /api/payments/user/:id/recent *)

Definition userRecentPayments (st : t) (pst : MemPayments.t) (sess : option Z)
    (idParam : string) : Response :=
  match reqUser st sess with
  | None => Reply 401 (message "Not authenticated")
  | Some user =>
      match ParseInt.parseInt idParam with
      | None => invalidUserId
      | Some userId =>
          if negb (mayReadPayments user userId) then forbiddenPayments
          else Reply 200
                 (JArr (map paymentJson
                            (MemPayments.getUserRecentPayments pst userId None)))
      end
  end.

End Routes.

(* ================================================================== *)
(** ** The Google and GitHub strategies of [setupAuth]                 *)
(* ================================================================== *)

Record OAuthName : Type := mkOAuthName {
  givenName : option string;
  familyName : option string
}.

(** [interface OAuthProfile]; [emails] lists the [value]s. *)
Record OAuthProfile : Type := mkOAuthProfile {
  profile_id : string;
  displayName : string;
  profile_username : option string;
  emails : option (list string);
  name : option OAuthName
}.

(** How an OAuth verify callback calls [done]. *)
Inductive OAuthDone : Type :=
| OAuthError (msg : string)          (* done(new Error(msg)) *)
| OAuthThrown (err : JsError)        (* done(err) from the catch *)
| OAuthUser (user : User).           (* done(null, user) *)

(** What the callback route does: redirect, or [next(err)]. *)
Inductive OAuthResponse : Type :=
| Redirect (target : string)
| OAuthNext (done : OAuthDone).

Section OAuth.

Import MemStorage.
Local Open Scope list_scope.

Variable scrypt : string -> string -> nat -> list byte.

(** [s.replace(/\s+/g, '')]: every run of white space is removed. *)
Fixpoint removeWhiteSpace (s : string) : string :=
  match s with
  | String c r =>
      if ParseInt.isWhiteSpace c then removeWhiteSpace r
      else String c (removeWhiteSpace r)
  | EmptyString => EmptyString
  end.

(** The decimal form of a natural number, as string concatenation
    produces it. *)
Definition numberToString (n : N) : string :=
  DecimalString.NilZero.string_of_uint (N.to_uint n).

(** [parts.join(" ")] *)
Fixpoint join (sep : string) (parts : list string) : string :=
  match parts with
  | [] => EmptyString
  | [p] => p
  | p :: r => (p ++ sep ++ join sep r)%string
  end.

(** The falsy empty string replaced: [x || d] on a string. *)
Definition strOr (x d : string) : string := if truthy x then x else d.

(** The end of both strategies: the user found by email, or else the one
    created from [userData] (an exception while it is built goes to
    [done]), has its [lastLogin] updated and is handed to [done]. *)
Definition findOrCreate (st : t) (mail : string)
    (userData : result InsertUser) (now : Z) : OAuthDone * t :=
  match getUserByEmail st mail with
  | Some (ref, user) =>
      (OAuthUser (seenAfterUpdateLastLogin ref user now),
       updateLastLogin st (id user) now)
  | None =>
      match userData with
      | Throw err => (OAuthThrown err, st)
      | Ok data =>
          let (st', user) := createUser st data now in
          (OAuthUser (seenAfterUpdateLastLogin (id user) user now),
           updateLastLogin st' (id user) now)
      end
  end.

(** The verify callback of the Google strategy; [random] is
    [Math.floor(Math.random() * 1000)], [passwordBytes] and [saltBytes] are
    the two outcomes of [randomBytes(16)]. *)
Definition googleStrategy (st : t) (profile : OAuthProfile) (now : Z)
    (random : N) (passwordBytes saltBytes : list byte) : OAuthDone * t :=
  match emails profile with
  | None | Some [] => (OAuthError "Email access is required", st)
  | Some (mail :: _) =>
      findOrCreate st mail
        (hashed <- hashPassword scrypt saltBytes (toHex passwordBytes) ;;
         Ok (mkInsertUser
               (removeWhiteSpace (displayName profile) ++ numberToString random)
               hashed mail
               (Some (orElse (match name profile with
                              | Some n => givenName n
                              | None => None
                              end) EmptyString))
               (Some (orElse (match name profile with
                              | Some n => familyName n
                              | None => None
                              end) EmptyString))
               None None))
        now
  end.

(** The verify callback of the GitHub strategy. *)
Definition githubStrategy (st : t) (profile : OAuthProfile) (now : Z)
    (random : N) (passwordBytes saltBytes : list byte) : OAuthDone * t :=
  match orNull (match emails profile with
                | Some (mail :: _) => Some mail
                | _ => None
                end) with
  | None => (OAuthError "Email access is required", st)
  | Some mail =>
      let nameParts :=
        if truthy (displayName profile)
        then split " " (displayName profile)
        else [orElse (profile_username profile) EmptyString] in
      findOrCreate st mail
        (hashed <- hashPassword scrypt saltBytes (toHex passwordBytes) ;;
         Ok (mkInsertUser
               (orElse (profile_username profile)
                       ("github" ++ numberToString random))
               hashed mail
               (Some (strOr (nth 0 nameParts EmptyString) EmptyString))
               (Some (strOr (join " " (tl nameParts)) EmptyString))
               None None))
        now
  end.

(** The callback route: passport logs the user in and the route redirects
    to ["/"]; an error goes to [next]. *)
Definition oauthCallback (sess : option Z) (outcome : OAuthDone * MemStorage.t)
    : OAuthResponse * MemStorage.t * option Z :=
  match outcome with
  | (OAuthUser user, st) => (Redirect "/", st, Some (id user))
  | (done, st) => (OAuthNext done, st, sess)
  end.

End OAuth.

(* ================================================================== *)
(** ** The Stripe webhook ([server/stripe.ts])                         *)
(* ================================================================== *)

(** The fields of [Stripe.Subscription] and [Stripe.Invoice] that the
    webhook reads. *)
Record Subscription : Type := mkSubscription {
  sub_customer : string;
  sub_status : string;
  latest_invoice : option string
}.

Record Invoice : Type := mkInvoice {
  inv_customer : string;
  paid : bool;
  amount_paid : Z;
  amount_due : Z;
  created : Z
}.

(** An event by its [type], with [data.object] at the type that the event
    type announces. *)
Inductive StripeEvent : Type :=
| CustomerSubscriptionCreated (subscription : Subscription)
| CustomerSubscriptionUpdated (subscription : Subscription)
| CustomerSubscriptionDeleted (subscription : Subscription)
| InvoicePaymentSucceeded (invoice : Invoice)
| InvoicePaymentFailed (invoice : Invoice)
| UnhandledEvent (type : string).

Section Stripe.

Import MemStorage MemStorageStripe.

(** [stripe.invoices.retrieve]: the invoice, or an exception. *)
Variable invoices_retrieve : string -> result Invoice.

(** The raw request body; [stripe.webhooks.constructEvent] verifies the
    signature and parses it, or throws an error with a message; without a
    webhook secret the parsed body itself is the event. *)
Variable RawBody : Type.
Variable constructEvent : RawBody -> string -> string -> StripeEvent + string.
Variable bodyAsEvent : RawBody -> StripeEvent.

(** [users.find(u => u.stripeCustomerId === customerId)] over
    [getAllUsers()]. *)
Definition findByCustomer (st : t) (customerId : string) : option User :=
  find (fun u => match stripeCustomerId u with
                 | Some c => String.eqb c customerId
                 | None => false
                 end)
       (getAllUsers st).

Definition premiumMonthly (userId amount date : Z) (status : string)
    : InsertPayment :=
  mkInsertPayment userId amount date status "premium-monthly" "card".

(** [await storage.updatePremiumStatus(..)]: the store afterwards, and the
    exception if the user is not stored. *)
Definition setPremium (st : t) (userId : Z) (isPremium : bool)
    : option JsError * t :=
  match updatePremiumStatus st userId isPremium with
  | Ok (st', _) => (None, st')
  | Throw err => (Some err, st)
  end.

(** The [switch] on the event type: the two stores afterwards, and the
    exception, if any, with which the promise of the handler is rejected;
    what was written before the exception stays written. *)
Definition handleEvent (st : t) (pst : MemPayments.t) (event : StripeEvent)
    : option JsError * t * MemPayments.t :=
  match event with
  | CustomerSubscriptionCreated subscription
  | CustomerSubscriptionUpdated subscription =>
      match findByCustomer st (sub_customer subscription) with
      | None => (None, st, pst)
      | Some user =>
          let isActive := String.eqb (sub_status subscription) "active" in
          match setPremium st (id user) isActive with
          | (Some err, st') => (Some err, st', pst)
          | (None, st') =>
              match (if isActive then orNull (latest_invoice subscription)
                     else None) with
              | None => (None, st', pst)
              | Some invoiceId =>
                  match invoices_retrieve invoiceId with
                  | Throw _ => (None, st', pst)
                  | Ok invoice =>
                      if paid invoice then
                        (None, st',
                         fst (MemPayments.createPayment pst
                                (premiumMonthly (id user) (amount_paid invoice)
                                   (created invoice * 1000) "completed")))
                      else (None, st', pst)
                  end
              end
          end
      end
  | CustomerSubscriptionDeleted subscription =>
      match findByCustomer st (sub_customer subscription) with
      | None => (None, st, pst)
      | Some user =>
          let (err, st') := setPremium st (id user) false in (err, st', pst)
      end
  | InvoicePaymentSucceeded invoice =>
      match findByCustomer st (inv_customer invoice) with
      | None => (None, st, pst)
      | Some user =>
          let pst' :=
            fst (MemPayments.createPayment pst
                   (premiumMonthly (id user) (amount_paid invoice)
                      (created invoice * 1000) "completed")) in
          let (err, st') := setPremium st (id user) true in (err, st', pst')
      end
  | InvoicePaymentFailed invoice =>
      match findByCustomer st (inv_customer invoice) with
      | None => (None, st, pst)
      | Some user =>
          (None, st,
           fst (MemPayments.createPayment pst
                  (premiumMonthly (id user) (amount_due invoice)
                     (created invoice * 1000) "failed")))
      end
  | UnhandledEvent _ => (None, st, pst)
  end.

(** POST /api/webhook; [endpointSecret] is [STRIPE_WEBHOOK_SECRET],
    [signature] the [stripe-signature] header.  The result is the response,
    or the exception after which none is sent, and the two stores. *)
Definition webhook (st : t) (pst : MemPayments.t)
    (endpointSecret : option string) (signature : string) (body : RawBody)
    : result Response * t * MemPayments.t :=
  match (match orNull endpointSecret with
         | Some secret => constructEvent body signature secret
         | None => inl (bodyAsEvent body)
         end) with
  | inr errMessage =>
      (Ok (Reply 400 (JStr ("Webhook Error: " ++ errMessage))), st, pst)
  | inl event =>
      match handleEvent st pst event with
      | (Some err, st', pst') => (Throw err, st', pst')
      | (None, st', pst') =>
          (Ok (Reply 200 (JObj [("received", JBool true)])), st', pst')
      end
  end.

End Stripe.

(* ================================================================== *)
(** ** More notions used in the statements                             *)
(* ================================================================== *)

(** A JSON object has a property of the given name. *)
Definition hasKey (key : string) (j : Json) : bool :=
  match j with
  | JObj fields => existsb (fun f => String.eqb (fst f) key) fields
  | _ => false
  end.

(** A response none of whose objects has a property of the given name:
    the body itself, or every element when the body is an array. *)
Definition lacksKey (key : string) (r : Response) : bool :=
  match r with
  | Reply _ (JArr items) => forallb (fun item => negb (hasKey key item)) items
  | Reply _ body => negb (hasKey key body)
  | Next _ => true
  end.

(** A response that shows neither a password hash nor a TOTP secret. *)
Definition withoutSecrets (r : Response) : bool :=
  lacksKey "password" r && lacksKey "twoFactorSecret" r.

(** The later store has every user id of the earlier one, keeps its keys
    below its id counter, and the counter has not gone back. *)
Definition grows (st st' : MemStorage.t) : Prop :=
  MemStorage.keys_bounded st'
  /\ (MemStorage.currentUserId st <= MemStorage.currentUserId st')%Z
  /\ forall k, MemStorage.getUser st k <> None ->
               MemStorage.getUser st' k <> None.

(** [a] may stand before [b] in a list of payments, newest first. *)
Definition notOlder (a b : Payment) : Prop := (pay_date b <= pay_date a)%Z.

(** The value of a decimal numeral read after [acc]. *)
Fixpoint valueAfter (d : Decimal.uint) (acc : N) : N :=
  match d with
  | Decimal.Nil => acc
  | Decimal.D0 l => valueAfter l (acc * 10 + 0)
  | Decimal.D1 l => valueAfter l (acc * 10 + 1)
  | Decimal.D2 l => valueAfter l (acc * 10 + 2)
  | Decimal.D3 l => valueAfter l (acc * 10 + 3)
  | Decimal.D4 l => valueAfter l (acc * 10 + 4)
  | Decimal.D5 l => valueAfter l (acc * 10 + 5)
  | Decimal.D6 l => valueAfter l (acc * 10 + 6)
  | Decimal.D7 l => valueAfter l (acc * 10 + 7)
  | Decimal.D8 l => valueAfter l (acc * 10 + 8)
  | Decimal.D9 l => valueAfter l (acc * 10 + 9)
  end.

Module Sample3.

Definition payment (i u amount date : Z) (status : string) : Payment :=
  mkPayment i u amount date status "premium-monthly" "card".

(** Four payments, in the order in which they were recorded. *)
Definition pst : MemPayments.t :=
  {| MemPayments.paymentStorage :=
       [(1%Z, payment 1 2 999 1000 "completed");
        (2%Z, payment 2 1 999 3000 "completed");
        (3%Z, payment 3 2 999 3000 "failed");
        (4%Z, payment 4 2 999 3000 "completed")];
     MemPayments.currentPaymentId := 5 |}.

End Sample3.

(** The customer that a webhook event is about, if it is of a handled
    type. *)
Definition eventCustomer (event : StripeEvent) : option string :=
  match event with
  | CustomerSubscriptionCreated s
  | CustomerSubscriptionUpdated s
  | CustomerSubscriptionDeleted s => Some (sub_customer s)
  | InvoicePaymentSucceeded i
  | InvoicePaymentFailed i => Some (inv_customer i)
  | UnhandledEvent _ => None
  end.

(** [updatePremiumStatus]'s argument to [updateUser]. *)
Definition premiumUpdates (isPremium : bool) : PartialUser :=
  mkPartialUser None None None None None None None None
                None (Some isPremium) None None None None None None.

(** The answer of the webhook to an event that it went through. *)
Definition received : Response :=
  Reply 200 (JObj [("received", JBool true)]).

(** The payment that the webhook records next in [pst]. *)
Definition recorded (pst : MemPayments.t) (userId amount date : Z)
    (status : string) : Payment :=
  mkPayment (MemPayments.currentPaymentId pst) userId amount date status
            "premium-monthly" "card".

Section Delivery.

Variable RawBody : Type.
Variable constructEvent : RawBody -> string -> string -> StripeEvent + string.
Variable bodyAsEvent : RawBody -> StripeEvent.

(** The event that the webhook goes on with: the verified one when a
    webhook secret is configured, the body as it came otherwise. *)
Definition delivers (endpointSecret : option string) (signature : string)
    (body : RawBody) (event : StripeEvent) : Prop :=
  match orNull endpointSecret with
  | Some secret => constructEvent body signature secret = inl event
  | None => bodyAsEvent body = event
  end.

End Delivery.

Module Sample4.

(** Stripe as far as the webhook needs it: one paid invoice, and a
    signature check that accepts the signature ["good"]. *)
Definition invoice : Invoice := mkInvoice "cus_root" true 999 999 1700000000.

Definition invoices_retrieve (invoiceId : string) : result Invoice :=
  if String.eqb invoiceId "in_1" then Ok invoice else Throw SiweError.

Definition RawBody : Type := StripeEvent.

Definition constructEvent (body : RawBody) (signature secret : string)
    : StripeEvent + string :=
  if String.eqb signature "good" then inl body
  else inr "No signatures found matching the expected signature".

Definition bodyAsEvent (body : RawBody) : StripeEvent := body.

End Sample4.

(** A string without white space. *)
Fixpoint noWhiteSpace (s : string) : bool :=
  match s with
  | String c r => negb (ParseInt.isWhiteSpace c) && noWhiteSpace r
  | EmptyString => true
  end.

Module Sample5.

Definition profile : OAuthProfile :=
  mkOAuthProfile "g-1" "Ada  Lovelace" (Some "ada") (Some ["ada@x.com"])
                 (Some (mkOAuthName (Some "Ada") (Some "Lovelace"))).

(** A profile with the email of alice, in another letter case. *)
Definition aliceProfile : OAuthProfile :=
  mkOAuthProfile "g-2" "Alice" None (Some ["ALICE@x.com"]) None.

End Sample5.

(* ================================================================== *)
(** ** More stand-ins and sample data                                  *)
(* ================================================================== *)

Module Sample2.

(** A QR code library that works, and one that fails. *)
Definition toDataURL (url : string) : result string :=
  Ok ("data:image/png;base64," ++ url).

Definition toDataURL_failing (url : string) : result string :=
  Throw ERR_INVALID_ARG_TYPE.

Definition secret : GeneratedSecret :=
  mkGeneratedSecret "MFRGGZDFMZTWQ2LK"
    "otpauth://totp/SecureAuth?secret=MFRGGZDFMZTWQ2LK".

(** An administrator next to alice and bob. *)
Definition root : User :=
  {| id := 3; username := "root"; password := Sample.secret1;
     email := "root@x.com"; firstName := None; lastName := None;
     role := "admin"; is2FAEnabled := false;
     twoFactorSecret := None; isPremium := true;
     stripeCustomerId := Some "cus_root"; stripeSubscriptionId := None;
     lastLogin := None; language := "en";
     walletAddress := None; authType := "email" |}.

Definition st : MemStorage.t :=
  {| MemStorage.userStorage :=
       [(1%Z, Sample.alice); (2%Z, Sample.bob); (3%Z, root)];
     MemStorage.currentUserId := 4 |}.

End Sample2.

(* ================================================================== *)
(** ** The record form of a stored hash; stores that PATCH leaves      *)
(* ================================================================== *)

(** A run of hexadecimal digits, in either letter case. *)
Fixpoint allHex (s : string) : bool :=
  match s with
  | EmptyString => true
  | String c r =>
      match unhex c with Some _ => true | None => false end && allHex r
  end.

(** The form [hex-digest "." salt] of a stored record: exactly two
    segments, the first made of 128 hexadecimal digits, which are the 64
    bytes of a digest, the second a non-empty run of hexadecimal digits,
    as [hashPassword] writes the salt. *)
Definition recordForm (stored : string) : bool :=
  match split "." stored with
  | [digest; salt] =>
      allHex digest && Nat.eqb (String.length digest) 128
      && allHex salt && truthy salt
  | _ => false
  end.

(** A malformed stored record: any string that is not of that form. *)
Definition malformed (stored : string) : Prop := recordForm stored = false.

(** A string of ASCII characters.  On such strings [toLowerCase] above is
    [String.prototype.toLowerCase]. *)
Fixpoint isAscii (s : string) : bool :=
  match s with
  | EmptyString => true
  | String c r => (N_of_ascii c <? 128)%N && isAscii r
  end.

Module Sample6.

(** The body [{ id: 2 }]. *)
Definition changeId : PartialUser :=
  mkPartialUser (Some 2%Z) None None None None None None None
                None None None None None None None None.

(** The store after alice, logged in under key 1, has sent PATCH /api/user
    with that body: the record under key 1 carries the id 2 from then on,
    and the session of alice still holds 1. *)
Definition st : MemStorage.t :=
  store (patchUser Sample.st (Some 1%Z) changeId).

(** What [req.user] is for alice in that store. *)
Definition alice2 : User := spread Sample.alice changeId.

(** Her next requests: PATCH /api/user with [{ role: "admin", isPremium:
    true }], and POST /api/user/disable-2fa. *)
Definition afterPatch : Outcome := patchUser st (Some 1%Z) Sample.makeAdmin.

Definition afterDisable : Outcome := disable2fa st (Some 1%Z).

(** The body [{ password: "hunter2" }]. *)
Definition plainPassword : PartialUser :=
  mkPartialUser None None (Some "hunter2") None None None None None
                None None None None None None None None.

(** The store after bob, logged in under key 2, has sent PATCH /api/user
    with that body: his stored hash is the text "hunter2". *)
Definition stPlain : MemStorage.t :=
  store (patchUser Sample.st (Some 2%Z) plainPassword).

(** The digest of "secret1" under the salt "01020304", followed by text
    that is not hexadecimal, and a record with a third segment. *)
Definition padded : string :=
  toHex (Sample.scrypt "secret1" "01020304" 64) ++ "zz9." ++ "01020304"
  ++ ".extra".

End Sample6.

(* ================================================================== *)
(** ** Facts about the run-time primitives                             *)
(* ================================================================== *)

Lemma byte_eqb_refl (b : byte) : Byte.eqb b b = true.
Proof. destruct b; reflexivity. Qed.

Lemma bytes_eqb_refl (bs : list byte) : bytes_eqb bs bs = true.
Proof.
  induction bs as [|b r IH]; simpl; [reflexivity|].
  now rewrite byte_eqb_refl, IH.
Qed.

Lemma timingSafeEqual_refl (bs : list byte) : timingSafeEqual bs bs = Ok true.
Proof.
  unfold timingSafeEqual. now rewrite Nat.eqb_refl, bytes_eqb_refl.
Qed.

(** Decoding undoes encoding, one byte at a time. *)
Lemma fromHex_byteToHex (b : byte) (rest : string) :
  fromHex (byteToHex b ++ rest) = b :: fromHex rest.
Proof. destruct b; reflexivity. Qed.

Lemma fromHex_toHex (bs : list byte) : fromHex (toHex bs) = bs.
Proof.
  induction bs as [|b r IH]; [reflexivity|].
  cbn [toHex]. now rewrite fromHex_byteToHex, IH.
Qed.

Lemma lacks_app (c : ascii) (a b : string) :
  lacks c (a ++ b) = lacks c a && lacks c b.
Proof.
  induction a as [|d r IH]; simpl; [reflexivity|].
  now rewrite IH, andb_assoc.
Qed.

Lemma lacks_dot_byteToHex (b : byte) : lacks "." (byteToHex b) = true.
Proof. destruct b; reflexivity. Qed.

(** The hex encoding never contains the separator of the stored record. *)
Lemma lacks_dot_toHex (bs : list byte) : lacks "." (toHex bs) = true.
Proof.
  induction bs as [|b r IH]; [reflexivity|].
  cbn [toHex]. now rewrite lacks_app, lacks_dot_byteToHex, IH.
Qed.

Lemma split_lacks (sep : ascii) (s : string) :
  lacks sep s = true -> split sep s = [s].
Proof.
  induction s as [|c r IH]; simpl; [reflexivity|].
  intros H. apply andb_true_iff in H as [Hc Hr].
  apply negb_true_iff in Hc. rewrite Hc, (IH Hr). reflexivity.
Qed.

Lemma split_app_sep (sep : ascii) (a b : string) :
  lacks sep a = true ->
  split sep (a ++ String sep b) = a :: split sep b.
Proof.
  induction a as [|c r IH]; simpl.
  - intros _. now rewrite Ascii.eqb_refl.
  - intros H. apply andb_true_iff in H as [Hc Hr].
    apply negb_true_iff in Hc. rewrite Hc, (IH Hr). reflexivity.
Qed.

Lemma split_nonempty (sep : ascii) (s : string) : split sep s <> [].
Proof.
  destruct s as [|c r]; simpl; [discriminate|].
  destruct (Ascii.eqb c sep); [discriminate|].
  destruct (split sep r); discriminate.
Qed.

(** A record without separator has one segment only. *)
Lemma split_single_lacks (sep : ascii) (s h : string) :
  split sep s = [h] -> lacks sep s = true.
Proof.
  revert h. induction s as [|c r IH]; simpl; intros h H; [reflexivity|].
  destruct (Ascii.eqb c sep) eqn:E.
  - inversion H as [[H1 H2]]. now apply split_nonempty in H2.
  - simpl. destruct (split sep r) as [|h' t] eqn:Er.
    + now apply split_nonempty in Er.
    + inversion H; subst. now apply (IH h').
Qed.

Lemma length_append (a b : string) :
  String.length (a ++ b) = (String.length a + String.length b)%nat.
Proof. induction a as [|c r IH]; simpl; [reflexivity|]. now rewrite IH. Qed.

(** Two hexadecimal digits per byte. *)
Lemma length_toHex (bs : list byte) :
  String.length (toHex bs) = (2 * List.length bs)%nat.
Proof.
  induction bs as [|b r IH]; [reflexivity|].
  cbn [toHex]. rewrite length_append, IH.
  replace (String.length (byteToHex b)) with 2%nat by reflexivity.
  cbn [List.length]. lia.
Qed.

Lemma allHex_app (a b : string) : allHex (a ++ b) = allHex a && allHex b.
Proof.
  induction a as [|c r IH]; simpl; [reflexivity|].
  now rewrite IH, andb_assoc.
Qed.

Lemma allHex_byteToHex (b : byte) : allHex (byteToHex b) = true.
Proof. destruct b; reflexivity. Qed.

Lemma allHex_toHex (bs : list byte) : allHex (toHex bs) = true.
Proof.
  induction bs as [|b r IH]; [reflexivity|].
  cbn [toHex]. now rewrite allHex_app, allHex_byteToHex, IH.
Qed.

(* ================================================================== *)
(** ** Password hashing                                                *)
(* ================================================================== *)

Section PasswordFacts.

Variable scrypt : string -> string -> nat -> list byte.

Lemma hashPassword_eq (rnd : list byte) (P : string) :
  hashPassword scrypt rnd P
  = Ok (toHex (scrypt P (toHex rnd) 64) ++ "." ++ toHex rnd).
Proof. reflexivity. Qed.

(** What [comparePasswords] computes on a record with its two segments. *)
Lemma comparePasswords_two_segments (P digest salt : string) :
  lacks "." digest = true ->
  lacks "." salt = true ->
  comparePasswords scrypt P (digest ++ "." ++ salt)
  = timingSafeEqual (fromHex digest) (scrypt P salt 64).
Proof.
  intros Hd Hs. unfold comparePasswords.
  change (digest ++ "." ++ salt) with (digest ++ String "." salt).
  rewrite (split_app_sep "." digest salt Hd), (split_lacks "." salt Hs).
  reflexivity.
Qed.

(** What [comparePasswords] computes once the record has its first two
    segments, whatever follows them. *)
Lemma comparePasswords_segments (P S digest salt : string) (rest : list string) :
  split "." S = digest :: salt :: rest ->
  comparePasswords scrypt P S
  = timingSafeEqual (fromHex digest) (scrypt P salt 64).
Proof. intros E. unfold comparePasswords. now rewrite E. Qed.

(** C7. For every password P and every outcome of [randomBytes(16)],
    [hashPassword] returns the record [hex(digest).hex(salt)]: its two
    segments are the hex text of the scrypt derivation of P with key
    length 64 under the hex salt, and the hex salt, two digits per random
    byte.  [comparePasswords] on that record, for any supplied password,
    is the comparison by [timingSafeEqual] of the stored digest with the
    derivation of the supplied password under the stored salt; for P
    itself it returns true. *)
Theorem comparePasswords_hashPassword (rnd : list byte) (P : string) :
  exists stored,
    hashPassword scrypt rnd P = Ok stored
    /\ stored = toHex (scrypt P (toHex rnd) 64) ++ "." ++ toHex rnd
    /\ split "." stored = [toHex (scrypt P (toHex rnd) 64); toHex rnd]
    /\ fromHex (toHex (scrypt P (toHex rnd) 64)) = scrypt P (toHex rnd) 64
    /\ String.length (toHex rnd) = (2 * List.length rnd)%nat
    /\ (forall supplied,
          comparePasswords scrypt supplied stored
          = timingSafeEqual (scrypt P (toHex rnd) 64)
                            (scrypt supplied (toHex rnd) 64))
    /\ comparePasswords scrypt P stored = Ok true.
Proof.
  eexists. split; [apply hashPassword_eq|]. split; [reflexivity|].
  assert (Hsplit : split "." (toHex (scrypt P (toHex rnd) 64) ++ "." ++ toHex rnd)
                   = [toHex (scrypt P (toHex rnd) 64); toHex rnd]).
  { change (toHex (scrypt P (toHex rnd) 64) ++ "." ++ toHex rnd)
      with (toHex (scrypt P (toHex rnd) 64) ++ String "." (toHex rnd)).
    rewrite split_app_sep by apply lacks_dot_toHex.
    now rewrite split_lacks by apply lacks_dot_toHex. }
  split; [exact Hsplit|].
  split; [apply fromHex_toHex|].
  split; [apply length_toHex|].
  assert (Hcmp : forall supplied,
            comparePasswords scrypt supplied
              (toHex (scrypt P (toHex rnd) 64) ++ "." ++ toHex rnd)
            = timingSafeEqual (scrypt P (toHex rnd) 64)
                              (scrypt supplied (toHex rnd) 64)).
  { intros supplied.
    rewrite (comparePasswords_segments supplied _ _ _ _ Hsplit).
    now rewrite fromHex_toHex. }
  split; [exact Hcmp|].
  rewrite Hcmp. apply timingSafeEqual_refl.
Qed.

(** A record without separator: the salt is [undefined] and scrypt
    refuses it. *)
Lemma comparePasswords_no_separator (P stored : string) :
  lacks "." stored = true ->
  comparePasswords scrypt P stored = Throw ERR_INVALID_ARG_TYPE.
Proof.
  intros H. unfold comparePasswords. now rewrite (split_lacks _ _ H).
Qed.

Hypothesis scrypt_length :
  forall pass salt keylen, List.length (scrypt pass salt keylen) = keylen.

(** With two segments the outcome depends on the length of the decoded
    first one. *)
Lemma comparePasswords_segments_length (P S digest salt : string)
    (rest : list string) :
  split "." S = digest :: salt :: rest ->
  comparePasswords scrypt P S
  = if Nat.eqb (List.length (fromHex digest)) 64
    then Ok (bytes_eqb (fromHex digest) (scrypt P salt 64))
    else Throw ERR_CRYPTO_TIMING_SAFE_EQUAL_LENGTH.
Proof.
  intros E. rewrite (comparePasswords_segments P S digest salt rest E).
  unfold timingSafeEqual. now rewrite scrypt_length.
Qed.

(** C8, as the code has it. [comparePasswords] does not look at the form
    of the stored record, so on a malformed record S, that is any string
    not of the form hex-digest "." salt, it does not fail closed.  What it
    does is decided by the first two segments of S.  Without a separator
    it raises the TypeError of scrypt for the undefined salt.  With a
    separator, when the text before the first one does not decode, as
    [Buffer.from(.., "hex")] decodes it, to 64 bytes, it raises the
    RangeError of [timingSafeEqual].  In every other case it returns
    whether the 64 decoded bytes are the derivation of P under the second
    segment, which is true for a matching digest.  It returns false in the
    last case only, for a digest that does not match. *)
Theorem comparePasswords_on_malformed_record (P S : string) :
  malformed S ->
  (lacks "." S = true
   \/ exists digest salt rest, split "." S = digest :: salt :: rest)
  /\ (lacks "." S = true ->
      comparePasswords scrypt P S = Throw ERR_INVALID_ARG_TYPE)
  /\ (forall digest salt rest,
        split "." S = digest :: salt :: rest ->
        List.length (fromHex digest) <> 64%nat ->
        comparePasswords scrypt P S = Throw ERR_CRYPTO_TIMING_SAFE_EQUAL_LENGTH)
  /\ (forall digest salt rest,
        split "." S = digest :: salt :: rest ->
        List.length (fromHex digest) = 64%nat ->
        comparePasswords scrypt P S
        = Ok (bytes_eqb (fromHex digest) (scrypt P salt 64)))
  /\ (comparePasswords scrypt P S = Ok false <->
      exists digest salt rest,
        split "." S = digest :: salt :: rest
        /\ List.length (fromHex digest) = 64%nat
        /\ bytes_eqb (fromHex digest) (scrypt P salt 64) = false).
Proof.
  intros _.
  assert (Hlong : forall digest salt rest,
            split "." S = digest :: salt :: rest ->
            List.length (fromHex digest) = 64%nat ->
            comparePasswords scrypt P S
            = Ok (bytes_eqb (fromHex digest) (scrypt P salt 64))).
  { intros digest salt rest E Hlen.
    rewrite (comparePasswords_segments_length P S digest salt rest E).
    now rewrite Hlen. }
  assert (Hshort : forall digest salt rest,
            split "." S = digest :: salt :: rest ->
            List.length (fromHex digest) <> 64%nat ->
            comparePasswords scrypt P S
            = Throw ERR_CRYPTO_TIMING_SAFE_EQUAL_LENGTH).
  { intros digest salt rest E Hlen.
    rewrite (comparePasswords_segments_length P S digest salt rest E).
    apply Nat.eqb_neq in Hlen. now rewrite Hlen. }
  split; [|split; [apply comparePasswords_no_separator|]].
  - destruct (split "." S) as [|digest [|salt rest]] eqn:E.
    + now apply split_nonempty in E.
    + left. now apply split_single_lacks in E.
    + right. eauto.
  - split; [exact Hshort|]. split; [exact Hlong|].
    split.
    + intros Hfalse.
      destruct (split "." S) as [|digest [|salt rest]] eqn:E.
      * now apply split_nonempty in E.
      * apply split_single_lacks in E.
        rewrite (comparePasswords_no_separator P S E) in Hfalse. discriminate.
      * exists digest, salt, rest.
        destruct (Nat.eq_dec (List.length (fromHex digest)) 64) as [Hlen|Hlen].
        -- rewrite (Hlong _ _ _ eq_refl Hlen) in Hfalse.
           injection Hfalse as Hfalse. auto.
        -- rewrite (Hshort _ _ _ eq_refl Hlen) in Hfalse. discriminate.
    + intros (digest & salt & rest & E & Hlen & Hneq).
      rewrite (Hlong _ _ _ E Hlen). now rewrite Hneq.
Qed.

(** The comparison throws on a record without separator or with a first
    segment that does not decode to 64 bytes. *)
Lemma comparePasswords_malformed_error (P S : string) :
  wellFormedRecord S = false ->
  exists err, comparePasswords scrypt P S = Throw err.
Proof.
  unfold wellFormedRecord, comparePasswords. intros H.
  destruct (split "." S) as [|digest [|salt more]] eqn:E.
  - now apply split_nonempty in E.
  - eexists. reflexivity.
  - cbn. unfold timingSafeEqual. rewrite scrypt_length, H. eexists. reflexivity.
Qed.

(** On every other record the comparison returns a boolean. *)
Lemma comparePasswords_wellFormed_returns (P S : string) :
  wellFormedRecord S = true ->
  exists b, comparePasswords scrypt P S = Ok b.
Proof.
  unfold wellFormedRecord, comparePasswords. intros H.
  destruct (split "." S) as [|digest [|salt more]] eqn:E; try discriminate.
  cbn. unfold timingSafeEqual. rewrite scrypt_length, H. eauto.
Qed.

(** No record that [hashPassword] writes with a non-empty salt is
    malformed. *)
Lemma hashPassword_recordForm (rnd : list byte) (P stored : string) :
  rnd <> [] ->
  hashPassword scrypt rnd P = Ok stored ->
  recordForm stored = true.
Proof.
  intros Hrnd H. rewrite hashPassword_eq in H. injection H as <-.
  unfold recordForm.
  change (toHex (scrypt P (toHex rnd) 64) ++ "." ++ toHex rnd)
    with (toHex (scrypt P (toHex rnd) 64) ++ String "." (toHex rnd)).
  rewrite split_app_sep by apply lacks_dot_toHex.
  rewrite split_lacks by apply lacks_dot_toHex.
  rewrite !allHex_toHex, length_toHex, scrypt_length.
  destruct rnd as [|b r]; [contradiction|].
  cbn [toHex]. now destruct b.
Qed.

End PasswordFacts.

Lemma Sample_scrypt_length (pass salt : string) (keylen : nat) :
  List.length (Sample.scrypt pass salt keylen) = keylen.
Proof.
  unfold Sample.scrypt. rewrite length_firstn, length_app, repeat_length. lia.
Qed.

Lemma comparePasswords_on_malformed_record_witness :
  malformed "c0ffee.0102"
  /\ comparePasswords Sample.scrypt "secret1" "c0ffee.0102"
     = Throw ERR_CRYPTO_TIMING_SAFE_EQUAL_LENGTH.
Proof.
  split; [reflexivity|].
  refine (proj1 (proj2 (proj2
    (comparePasswords_on_malformed_record Sample.scrypt Sample_scrypt_length
       "secret1" "c0ffee.0102" _))) "c0ffee" "0102" [] _ _).
  - reflexivity.
  - reflexivity.
  - vm_compute. discriminate.
Defined.

(** C8, as the specification has it, fails in both directions.  The
    record ["not-a-hash"] is malformed and the comparison raises the
    TypeError; the record [Sample6.padded], the digest of "secret1"
    followed by "zz9", the salt and a third segment, is malformed and the
    comparison returns true for "secret1". *)
Lemma comparePasswords_malformed_counterexample :
  malformed "not-a-hash"
  /\ comparePasswords Sample.scrypt "secret1" "not-a-hash"
     = Throw ERR_INVALID_ARG_TYPE
  /\ malformed Sample6.padded
  /\ comparePasswords Sample.scrypt "secret1" Sample6.padded = Ok true.
Proof. repeat split. Qed.

(* ================================================================== *)
(** ** The in-memory store                                             *)
(* ================================================================== *)

Module MemStorageFacts.

Import MemStorage.
Local Open Scope list_scope.

Lemma map_get_set_same k v m : map_get k (map_set k v m) = Some v.
Proof.
  induction m as [|[k' v'] r IH]; simpl.
  - now rewrite Z.eqb_refl.
  - destruct (k' =? k)%Z eqn:E; simpl.
    + now rewrite Z.eqb_refl.
    + now rewrite E.
Qed.

Lemma map_get_set_other k k' v m :
  k' <> k -> map_get k' (map_set k v m) = map_get k' m.
Proof.
  intros Hne. induction m as [|[k0 v0] r IH]; simpl.
  - destruct (k =? k')%Z eqn:E; [apply Z.eqb_eq in E; congruence|reflexivity].
  - destruct (k0 =? k)%Z eqn:E; simpl.
    + apply Z.eqb_eq in E. subst k0.
      destruct (k =? k')%Z eqn:E'; [apply Z.eqb_eq in E'; congruence|].
      reflexivity.
    + now rewrite IH.
Qed.

(** Overwriting an existing key keeps the order of the entries. *)
Lemma map_set_keys k v v0 m :
  map_get k m = Some v0 -> map fst (map_set k v m) = map fst m.
Proof.
  induction m as [|[k' v'] r IH]; simpl; [discriminate|].
  destruct (k' =? k)%Z eqn:E; simpl.
  - apply Z.eqb_eq in E. now subst.
  - intros H. now rewrite IH.
Qed.

Lemma map_set_length k v v0 m :
  map_get k m = Some v0 ->
  List.length (map_set k v m) = List.length m.
Proof.
  intros H. rewrite <- (length_map fst), (map_set_keys _ _ _ _ H).
  apply length_map.
Qed.

Lemma map_get_In k v m : map_get k m = Some v -> In (k, v) m.
Proof.
  induction m as [|[k' v'] r IH]; simpl; [discriminate|].
  destruct (k' =? k)%Z eqn:E.
  - apply Z.eqb_eq in E. intros [= ->]. subst. now left.
  - intros H. right. now apply IH.
Qed.

Lemma map_get_fresh k m :
  Forall (fun e => fst e <> k) m -> map_get k m = None.
Proof.
  induction 1 as [|[k' v'] r Hk _ IH]; simpl; [reflexivity|].
  simpl in Hk. destruct (k' =? k)%Z eqn:E; [apply Z.eqb_eq in E; congruence|].
  exact IH.
Qed.

(** A new key goes to the end. *)
Lemma map_set_fresh k v m :
  Forall (fun e => fst e <> k) m -> map_set k v m = m ++ [(k, v)].
Proof.
  induction 1 as [|[k' v'] r Hk _ IH]; simpl; [reflexivity|].
  simpl in Hk. destruct (k' =? k)%Z eqn:E; [apply Z.eqb_eq in E; congruence|].
  now rewrite IH.
Qed.

Lemma map_set_last k v v' m :
  Forall (fun e => fst e <> k) m ->
  map_set k v' (m ++ [(k, v)]) = m ++ [(k, v')].
Proof.
  induction 1 as [|[k' v0] r Hk _ IH]; simpl.
  - now rewrite Z.eqb_refl.
  - simpl in Hk.
    destruct (k' =? k)%Z eqn:E; [apply Z.eqb_eq in E; congruence|].
    now rewrite IH.
Qed.

Lemma map_get_last k v m :
  Forall (fun e => fst e <> k) m -> map_get k (m ++ [(k, v)]) = Some v.
Proof.
  intros H. rewrite <- (map_set_fresh k v m H). apply map_get_set_same.
Qed.

Lemma keys_bounded_fresh st :
  keys_bounded st ->
  Forall (fun e => fst e <> currentUserId st) (userStorage st).
Proof.
  intros [_ H].
  eapply Forall_impl; [|exact H]. simpl. intros e He. lia.
Qed.

Lemma keys_bounded_getUser st k user :
  keys_bounded st -> getUser st k = Some user -> (1 <= k < currentUserId st)%Z.
Proof.
  unfold getUser. intros [_ Hb] Hg.
  apply map_get_In in Hg.
  rewrite Forall_forall in Hb. exact (Hb _ Hg).
Qed.

Lemma bounded_map_set (k bound : Z) v m :
  (1 <= k < bound)%Z ->
  Forall (fun e => (1 <= fst e < bound)%Z) m ->
  Forall (fun e => (1 <= fst e < bound)%Z) (map_set k v m).
Proof.
  intros Hk. induction 1 as [|[k' v'] r Hh Hr IH]; simpl.
  - constructor; [exact Hk|constructor].
  - destruct (k' =? k)%Z; constructor; simpl; auto.
Qed.

(** The store starts within bounds and every operation keeps it so. *)
Lemma keys_bounded_init : keys_bounded init.
Proof. split; [simpl; lia|constructor]. Qed.

Lemma keys_bounded_createUser st userData now :
  keys_bounded st -> keys_bounded (fst (createUser st userData now)).
Proof.
  intros [Hpos H]. split; simpl; [lia|].
  apply bounded_map_set; [lia|].
  eapply Forall_impl; [|exact H]. simpl. intros e He. lia.
Qed.

Lemma keys_bounded_updateUser st k updates st' user' :
  keys_bounded st ->
  updateUser st k updates = Ok (st', user') ->
  keys_bounded st'.
Proof.
  intros Hb. unfold updateUser.
  destruct (getUser st k) as [user|] eqn:E; [|discriminate].
  intros [= <- <-]. pose proof (keys_bounded_getUser _ _ _ Hb E) as Hk.
  destruct Hb as [Hpos H]. split; simpl; [exact Hpos|].
  now apply bounded_map_set.
Qed.

Lemma keys_bounded_updateLastLogin st k now :
  keys_bounded st -> keys_bounded (updateLastLogin st k now).
Proof.
  intros Hb. unfold updateLastLogin.
  destruct (getUser st k) as [user|] eqn:E; [|exact Hb].
  pose proof (keys_bounded_getUser _ _ _ Hb E) as Hk.
  destruct Hb as [Hpos H]. split; simpl; [exact Hpos|].
  now apply bounded_map_set.
Qed.

End MemStorageFacts.

(* ================================================================== *)
(** ** Credential login, registration and the second factor            *)
(* ================================================================== *)

(** Closes a goal whose premise says that an unchanged session changed. *)
Ltac same_session :=
  let H := fresh "H" in intros H; exfalso; apply H; reflexivity.

Section LoginFacts.

Import MemStorage.

Variable scrypt : string -> string -> nat -> list byte.

(** C1. A credential login whose password verifies against the stored
    hash, for a user whose [is2FAEnabled] flag is set, answers with the
    requires-second-factor outcome that carries the user's id; the
    session of the caller and the store are left as they were, so no
    session is established by that request. *)
Theorem login_requires_second_factor
    (st : t) (sess : option Z) (body : LoginUser) (now : Z)
    (ref : Z) (user : User) :
  loginUserSchema body = true ->
  getUserByUsername st (login_username body) = Some (ref, user) ->
  comparePasswords scrypt (login_password body) (password user) = Ok true ->
  is2FAEnabled user = true ->
  login scrypt st sess body now
  = mkOutcome
      (Reply 200 (JObj [("requires2FA", JBool true);
                        ("userId", JNum (id user));
                        ("message", JStr "2FA verification required")]))
      st sess.
Proof.
  intros Hschema Hfound Hpass H2fa.
  unfold login, localStrategy.
  now rewrite Hschema, Hfound, Hpass, H2fa.
Qed.

Lemma login_unknown_user st sess body now :
  loginUserSchema body = true ->
  getUserByUsername st (login_username body) = None ->
  login scrypt st sess body now = invalidCredentials st sess.
Proof.
  intros Hschema Hnone. unfold login, localStrategy.
  now rewrite Hschema, Hnone.
Qed.

Lemma login_wrong_password st sess body now ref user :
  loginUserSchema body = true ->
  getUserByUsername st (login_username body) = Some (ref, user) ->
  comparePasswords scrypt (login_password body) (password user) = Ok false ->
  login scrypt st sess body now = invalidCredentials st sess.
Proof.
  intros Hschema Hfound Hpass. unfold login, localStrategy.
  now rewrite Hschema, Hfound, Hpass.
Qed.

(** C9, as the code has it. Take two failed credential logins, one with
    a username that the store does not know and one with a known username
    and a password that does not verify.  The first gets 401 with the
    message "Incorrect username or password".  The second gets the very
    same outcome exactly when the comparison with the stored hash can be
    carried out, which is so for every hash that [hashPassword] wrote.
    When the stored hash has no separator, or its first segment does not
    decode to 64 bytes, the comparison throws, the route hands the error
    to the framework, and the two outcomes differ.  Store and session are
    untouched in every case. *)
Theorem login_failures_by_stored_hash
    (st : t) (sess : option Z) (unknown wrong : LoginUser) (now1 now2 : Z)
    (ref : Z) (user : User) :
  (forall pass salt keylen, List.length (scrypt pass salt keylen) = keylen) ->
  loginUserSchema unknown = true ->
  loginUserSchema wrong = true ->
  getUserByUsername st (login_username unknown) = None ->
  getUserByUsername st (login_username wrong) = Some (ref, user) ->
  comparePasswords scrypt (login_password wrong) (password user) <> Ok true ->
  login scrypt st sess unknown now1 = invalidCredentials st sess
  /\ (wellFormedRecord (password user) = true ->
      login scrypt st sess wrong now2 = login scrypt st sess unknown now1)
  /\ ((exists rnd P0, hashPassword scrypt rnd P0 = Ok (password user)) ->
      login scrypt st sess wrong now2 = login scrypt st sess unknown now1)
  /\ (wellFormedRecord (password user) = false ->
      exists err,
        comparePasswords scrypt (login_password wrong) (password user)
        = Throw err
        /\ login scrypt st sess wrong now2 = mkOutcome (Next err) st sess
        /\ login scrypt st sess wrong now2 <> login scrypt st sess unknown now1)
  /\ store (login scrypt st sess wrong now2) = st
  /\ session (login scrypt st sess wrong now2) = sess.
Proof.
  intros Hlen Hs1 Hs2 Hnone Hfound Hwrong.
  rewrite (login_unknown_user _ _ _ _ Hs1 Hnone).
  assert (Hgood : wellFormedRecord (password user) = true ->
                  login scrypt st sess wrong now2 = invalidCredentials st sess).
  { intros Hform.
    destruct (comparePasswords_wellFormed_returns scrypt Hlen
                (login_password wrong) _ Hform) as [[|] Hcmp];
      [contradiction|].
    exact (login_wrong_password _ _ _ _ _ _ Hs2 Hfound Hcmp). }
  split; [reflexivity|]. split; [exact Hgood|]. split.
  - intros (rnd & P0 & Hhash). apply Hgood.
    rewrite hashPassword_eq in Hhash. injection Hhash as <-.
    unfold wellFormedRecord.
    change (toHex (scrypt P0 (toHex rnd) 64) ++ "." ++ toHex rnd)
      with (toHex (scrypt P0 (toHex rnd) 64) ++ String "." (toHex rnd)).
    rewrite split_app_sep by apply lacks_dot_toHex.
    rewrite split_lacks by apply lacks_dot_toHex.
    now rewrite fromHex_toHex, Hlen.
  - unfold login, localStrategy. rewrite Hs2, Hfound. cbn [negb].
    split.
    + intros Hbad.
      destruct (comparePasswords_malformed_error scrypt Hlen
                  (login_password wrong) _ Hbad) as [err Herr].
      exists err. rewrite Herr. split; [reflexivity|].
      split; [reflexivity|]. discriminate.
    + destruct (comparePasswords scrypt (login_password wrong) (password user))
        as [[|]|err]; [contradiction|now split|now split].
Qed.

(** C5. A registration whose username or whose email is found in the
    store is refused with status 400 and the message "Username already
    exists" or "Email already in use"; both look-ups come before the
    write, and store and session are unchanged. *)
Theorem register_already_exists
    (st : t) (sess : option Z) (body : InsertUser) (now : Z)
    (saltBytes : list byte) :
  getUserByUsername st (ins_username body) <> None
  \/ getUserByEmail st (ins_email body) <> None ->
  (response (register scrypt st sess body now saltBytes)
     = Reply 400 (message "Username already exists")
   \/ response (register scrypt st sess body now saltBytes)
     = Reply 400 (message "Email already in use"))
  /\ store (register scrypt st sess body now saltBytes) = st
  /\ session (register scrypt st sess body now saltBytes) = sess.
Proof.
  intros H. unfold register.
  destruct (getUserByUsername st (ins_username body)) as [e|] eqn:Eu.
  - simpl. auto.
  - destruct (getUserByEmail st (ins_email body)) as [e|] eqn:Ee.
    + simpl. auto.
    + destruct H as [H|H]; now contradiction H.
Qed.


(** X7. The login route binds a session only when the password verifies
    and the second factor is not enabled. *)
Lemma login_session_bound st sess body now :
  session (login scrypt st sess body now) <> sess ->
  exists ref user,
    getUserByUsername st (login_username body) = Some (ref, user)
    /\ comparePasswords scrypt (login_password body) (password user) = Ok true
    /\ is2FAEnabled user = false
    /\ session (login scrypt st sess body now) = Some (id user).
Proof.
  unfold login, localStrategy.
  destruct (negb (loginUserSchema body)); [same_session|].
  destruct (getUserByUsername st (login_username body)) as [[ref user]|];
    [|same_session].
  destruct (comparePasswords scrypt (login_password body) (password user))
    as [[|]|err] eqn:Hpass; try same_session.
  destruct (is2FAEnabled user) eqn:E; [same_session|].
  intros _. exists ref, user.
  split; [reflexivity|]. split; [exact Hpass|]. split; [exact E|].
  cbn. unfold seenAfterUpdateLastLogin. now destruct (ref =? id user)%Z.
Qed.

(** A malformed stored hash ends the login with an error handed to the
    framework; nobody is logged in. *)
Lemma login_malformed_record st sess body now ref user :
  (forall pass salt keylen, List.length (scrypt pass salt keylen) = keylen) ->
  loginUserSchema body = true ->
  getUserByUsername st (login_username body) = Some (ref, user) ->
  wellFormedRecord (password user) = false ->
  exists err, login scrypt st sess body now = mkOutcome (Next err) st sess.
Proof.
  intros Hlen Hschema Hfound Hbad.
  destruct (comparePasswords_malformed_error scrypt Hlen
              (login_password body) _ Hbad) as [err Herr].
  exists err. unfold login, localStrategy.
  now rewrite Hschema, Hfound, Herr.
Qed.

End LoginFacts.

Lemma login_requires_second_factor_witness :
  login Sample.scrypt Sample.st None (mkLoginUser "alice" "secret1") 500
  = mkOutcome
      (Reply 200 (JObj [("requires2FA", JBool true);
                        ("userId", JNum 1);
                        ("message", JStr "2FA verification required")]))
      Sample.st None.
Proof.
  apply (login_requires_second_factor Sample.scrypt Sample.st None
           (mkLoginUser "alice" "secret1") 500 1 Sample.alice);
    vm_compute; reflexivity.
Defined.

Lemma login_failures_by_stored_hash_witness :
  login Sample.scrypt Sample.st None (mkLoginUser "ALICE" "secret2") 501
  = login Sample.scrypt Sample.st None (mkLoginUser "carol" "secret1") 500.
Proof.
  refine (proj1 (proj2
    (login_failures_by_stored_hash Sample.scrypt Sample.st None
       (mkLoginUser "carol" "secret1") (mkLoginUser "ALICE" "secret2")
       500 501 1 Sample.alice Sample_scrypt_length _ _ _ _ _)) _).
  - reflexivity.
  - reflexivity.
  - reflexivity.
  - reflexivity.
  - vm_compute. discriminate.
  - reflexivity.
Defined.

(** C9, as the specification has it, fails.  In the store that bob's
    PATCH /api/user with [{ password: "hunter2" }] leaves, "carol" is
    unknown and "bob" is known; "secret1" does not verify for bob.  The
    login as carol is answered with the 401, the login as bob ends with
    an error handed to the framework. *)
Lemma login_failures_distinguishable :
  MemStorage.getUserByUsername Sample6.stPlain "carol" = None
  /\ MemStorage.getUserByUsername Sample6.stPlain "bob"
     = Some (2%Z, spread Sample.bob Sample6.plainPassword)
  /\ password (spread Sample.bob Sample6.plainPassword) = "hunter2"
  /\ comparePasswords Sample.scrypt "secret1" "hunter2" <> Ok true
  /\ login Sample.scrypt Sample6.stPlain None (mkLoginUser "carol" "secret1") 500
     = invalidCredentials Sample6.stPlain None
  /\ login Sample.scrypt Sample6.stPlain None (mkLoginUser "bob" "secret1") 501
     = mkOutcome (Next ERR_INVALID_ARG_TYPE) Sample6.stPlain None.
Proof.
  repeat match goal with |- _ /\ _ => split end;
    first [reflexivity | (vm_compute; discriminate)].
Qed.

Lemma register_already_exists_witness :
  (response
     (register Sample.scrypt Sample.st None
        (mkInsertUser "dave" "pw" "BOB@x.com" None None None None) 500
        Sample.salt)
   = Reply 400 (message "Username already exists")
   \/ response
        (register Sample.scrypt Sample.st None
           (mkInsertUser "dave" "pw" "BOB@x.com" None None None None) 500
           Sample.salt)
      = Reply 400 (message "Email already in use"))
  /\ store
       (register Sample.scrypt Sample.st None
          (mkInsertUser "dave" "pw" "BOB@x.com" None None None None) 500
          Sample.salt)
     = Sample.st
  /\ session
       (register Sample.scrypt Sample.st None
          (mkInsertUser "dave" "pw" "BOB@x.com" None None None None) 500
          Sample.salt)
     = None.
Proof.
  apply (register_already_exists Sample.scrypt Sample.st None
           (mkInsertUser "dave" "pw" "BOB@x.com" None None None None) 500
           Sample.salt).
  right. vm_compute. discriminate.
Defined.

Section SecondFactorFacts.

Import MemStorage MemStorageFacts.

Variable totp_verify : string -> string -> bool.


(** Without a code that verifies there is no login. *)
Lemma verify2fa_wrong_code st sess token uid now user secret :
  getUser st uid = Some user ->
  twoFactorSecret user = Some secret ->
  totp_verify secret token = false ->
  store (verify2fa totp_verify st sess (mkVerify2FA token (Some uid)) now) = st
  /\ session (verify2fa totp_verify st sess (mkVerify2FA token (Some uid)) now)
     = sess.
Proof.
  intros Hget Hsecret Hcode. unfold verify2fa.
  destruct (negb (verify2FASchema _)); [now split|]. cbn [v_token v_userId].
  destruct (uid =? 0)%Z; [now split|].
  rewrite Hget, Hsecret. unfold orNull.
  destruct (truthy secret); [|now split].
  rewrite Hcode. now split.
Qed.

End SecondFactorFacts.

(** The two steps of a login with a second factor: the password step binds
    no session, the code step binds it. *)
Example second_factor_scenario :
  let step1 :=
    login Sample.scrypt Sample.st None (mkLoginUser "alice" "secret1") 500 in
  let step2 :=
    verify2fa Sample.totp_verify (store step1) (session step1)
      (mkVerify2FA "JBSWY3" (Some 1%Z)) 501 in
  session step1 = None
  /\ session step2 = Some 1%Z
  /\ MemStorage.getUser (store step2) 1
     = Some (setLastLogin Sample.alice 501).
Proof. vm_compute. repeat split. Qed.


(* ================================================================== *)
(** ** Updates of the caller's own record                              *)
(* ================================================================== *)

Section ProfileFacts.

Import MemStorage MemStorageFacts.

(** [updateUser] on a key that is present: the record under that key
    becomes the spread, every other entry stays, and so does the order. *)
Lemma updateUser_present st k user updates :
  getUser st k = Some user ->
  exists st',
    updateUser st k updates = Ok (st', spread user updates)
    /\ getUser st' k = Some (spread user updates)
    /\ (forall k', k' <> k -> getUser st' k' = getUser st k')
    /\ map fst (userStorage st') = map fst (userStorage st)
    /\ currentUserId st' = currentUserId st.
Proof.
  intros Hget. unfold updateUser. rewrite Hget.
  eexists. split; [reflexivity|]. unfold getUser in *. cbn.
  repeat split.
  - apply map_get_set_same.
  - intros k' Hne. now apply map_get_set_other.
  - now apply map_set_keys with (v0 := user).
Qed.

(** An administrator check on a session whose record has the role. *)
Lemma adminGuard_role st k user :
  getUser st k = Some user ->
  adminGuard st (Some k) = String.eqb (role user) "admin".
Proof. intros H. unfold adminGuard, reqUser. now rewrite H. Qed.

(** [updateUser] on a key that is absent. *)
Lemma updateUser_absent st k updates :
  getUser st k = None -> updateUser st k updates = Throw (UserNotFound k).
Proof. intros Hget. unfold updateUser. now rewrite Hget. Qed.

(** C3, as the code has it. PATCH /api/user hands the body to the store
    as it is, under the id that the caller's record carries.  For a
    logged-in caller and for every choice of fields in the body: when a
    record is stored under [req.user.id], the request succeeds, that
    record becomes itself overwritten by exactly the supplied fields, and
    the other records and the session stay; when none is, the error of
    [updateUser] is handed on and nothing changes.  For a caller stored
    under its own id, as [createUser] stores it, the record written is the
    caller's own; when the body sets [role] to "admin" that caller passes
    the role check of GET /api/admin/users from then on, and did not pass
    it before unless it was an administrator. *)
Theorem patchUser_forwards_body_for_req_user_id
    (st : t) (k : Z) (user : User) (body : PartialUser) :
  getUser st k = Some user ->
  let out := patchUser st (Some k) body in
  (forall target,
     getUser st (id user) = Some target ->
     response out = Reply 200 (userWithoutSensitiveInfo (spread target body))
     /\ getUser (store out) (id user) = Some (spread target body)
     /\ (forall k', k' <> id user -> getUser (store out) k' = getUser st k')
     /\ session out = Some k)
  /\ (getUser st (id user) = None ->
      out = mkOutcome (Next (UserNotFound (id user))) st (Some k))
  /\ (id user = k ->
      response out = Reply 200 (userWithoutSensitiveInfo (spread user body))
      /\ getUser (store out) k = Some (spread user body)
      /\ (forall k', k' <> k -> getUser (store out) k' = getUser st k')
      /\ (role user <> "admin" -> adminGuard st (Some k) = false)
      /\ (upd_role body = Some "admin" ->
          adminGuard (store out) (session out) = true
          /\ exists users,
               response (adminUsers (store out) (session out))
               = Reply 200 (JArr users))).
Proof.
  intros Hget out.
  assert (Hany : forall target,
            getUser st (id user) = Some target ->
            response out = Reply 200 (userWithoutSensitiveInfo (spread target body))
            /\ getUser (store out) (id user) = Some (spread target body)
            /\ (forall k', k' <> id user ->
                  getUser (store out) k' = getUser st k')
            /\ session out = Some k).
  { intros target Htarget.
    destruct (updateUser_present st (id user) target body Htarget)
      as (st' & Hupd & Hsame & Hother & _ & _).
    subst out. unfold patchUser, reqUser. rewrite Hget, Hupd. cbn.
    repeat match goal with |- _ /\ _ => split end;
      try reflexivity; assumption. }
  split; [exact Hany|]. split.
  - intros Hnone. subst out. unfold patchUser, reqUser.
    now rewrite Hget, (updateUser_absent _ _ _ Hnone).
  - intros Hid. rewrite <- Hid in Hget.
    destruct (Hany user Hget) as (Hresp & Hsame & Hother & Hsess).
    rewrite Hid in Hget, Hsame, Hother.
    split; [exact Hresp|]. split; [exact Hsame|]. split; [exact Hother|].
    split.
    + intros Hrole. rewrite (adminGuard_role _ _ _ Hget).
      now apply String.eqb_neq.
    + intros Hadmin. rewrite Hsess.
      assert (Hguard : adminGuard (store out) (Some k) = true).
      { rewrite (adminGuard_role _ _ _ Hsame). cbn. now rewrite Hadmin. }
      split; [exact Hguard|].
      unfold adminUsers. rewrite Hguard. cbn. eauto.
Qed.

(** C10, as the code has it. POST /api/user/disable-2fa asks for nothing
    but the session and writes under the id that the caller's record
    carries.  For a logged-in caller: when a record is stored under
    [req.user.id], the request answers 200, sets [is2FAEnabled] to false
    and [twoFactorSecret] to null in that record and changes no other
    field of it, no other record, nor the order of the records, the id
    counter or the session; when none is, the error of [updateUser] is
    handed on and nothing changes.  For a caller stored under its own id,
    as [createUser] stores it, the record written is the caller's own. *)
Theorem disable2fa_clears_second_factor_for_req_user_id
    (st : t) (k : Z) (user : User) :
  getUser st k = Some user ->
  let out := disable2fa st (Some k) in
  (forall target,
     getUser st (id user) = Some target ->
     response out = Reply 200 (message "2FA disabled successfully")
     /\ getUser (store out) (id user) = Some (secondFactorCleared target)
     /\ (forall k', k' <> id user -> getUser (store out) k' = getUser st k')
     /\ map fst (userStorage (store out)) = map fst (userStorage st)
     /\ currentUserId (store out) = currentUserId st
     /\ session out = Some k)
  /\ (getUser st (id user) = None ->
      out = mkOutcome (Next (UserNotFound (id user))) st (Some k))
  /\ (id user = k ->
      response out = Reply 200 (message "2FA disabled successfully")
      /\ getUser (store out) k = Some (secondFactorCleared user)
      /\ (forall k', k' <> k -> getUser (store out) k' = getUser st k')).
Proof.
  intros Hget out.
  assert (Hany : forall target,
            getUser st (id user) = Some target ->
            response out = Reply 200 (message "2FA disabled successfully")
            /\ getUser (store out) (id user) = Some (secondFactorCleared target)
            /\ (forall k', k' <> id user ->
                  getUser (store out) k' = getUser st k')
            /\ map fst (userStorage (store out)) = map fst (userStorage st)
            /\ currentUserId (store out) = currentUserId st
            /\ session out = Some k).
  { intros target Htarget.
    destruct (updateUser_present st (id user) target disable2faUpdates Htarget)
      as (st' & Hupd & Hsame & Hother & Hkeys & Hnext).
    subst out. unfold disable2fa, reqUser. rewrite Hget, Hupd. cbn.
    repeat match goal with |- _ /\ _ => split end;
      try reflexivity; assumption. }
  split; [exact Hany|]. split.
  - intros Hnone. subst out. unfold disable2fa, reqUser.
    now rewrite Hget, (updateUser_absent _ _ _ Hnone).
  - intros Hid. rewrite <- Hid in Hget.
    destruct (Hany user Hget) as (Hresp & Hsame & Hother & _).
    rewrite Hid in Hsame, Hother. auto.
Qed.

End ProfileFacts.

Lemma patchUser_forwards_body_for_req_user_id_witness :
  MemStorage.getUser (store (patchUser Sample.st (Some 2%Z) Sample.makeAdmin)) 2
  = Some (spread Sample.bob Sample.makeAdmin)
  /\ adminGuard Sample.st (Some 2%Z) = false
  /\ adminGuard (store (patchUser Sample.st (Some 2%Z) Sample.makeAdmin))
                (session (patchUser Sample.st (Some 2%Z) Sample.makeAdmin))
     = true.
Proof.
  destruct (proj2 (proj2
    (patchUser_forwards_body_for_req_user_id Sample.st 2 Sample.bob
       Sample.makeAdmin eq_refl)) eq_refl)
    as (_ & Hsame & _ & Hbefore & Hafter).
  split; [exact Hsame|]. split.
  - apply Hbefore. discriminate.
  - apply Hafter. reflexivity.
Defined.

(** C3, as the specification has it, fails.  In the store that alice's
    PATCH /api/user with [{ id: 2 }] leaves, alice is logged in under key 1
    and her record carries the id 2.  Her next PATCH, with [{ role:
    "admin", isPremium: true }], is answered with the record of bob: her
    own stored record is not overwritten, bob's is, and it is bob, not the
    caller, who passes the role check afterwards. *)
Lemma patchUser_rewrites_another_record :
  reqUser Sample6.st (Some 1%Z) = Some Sample6.alice2
  /\ id Sample6.alice2 = 2%Z
  /\ response Sample6.afterPatch
     = Reply 200 (userWithoutSensitiveInfo (spread Sample.bob Sample.makeAdmin))
  /\ session Sample6.afterPatch = Some 1%Z
  /\ MemStorage.getUser (store Sample6.afterPatch) 1 = Some Sample6.alice2
  /\ Sample6.alice2 <> spread Sample6.alice2 Sample.makeAdmin
  /\ MemStorage.getUser Sample6.st 2 = Some Sample.bob
  /\ MemStorage.getUser (store Sample6.afterPatch) 2
     = Some (spread Sample.bob Sample.makeAdmin)
  /\ Sample.bob <> spread Sample.bob Sample.makeAdmin
  /\ adminGuard (store Sample6.afterPatch) (session Sample6.afterPatch) = false
  /\ adminGuard (store Sample6.afterPatch) (Some 2%Z) = true.
Proof.
  repeat match goal with |- _ /\ _ => split end;
    first [reflexivity | (vm_compute; discriminate)].
Qed.

Lemma disable2fa_clears_second_factor_for_req_user_id_witness :
  response (disable2fa Sample.st (Some 1%Z))
  = Reply 200 (message "2FA disabled successfully")
  /\ MemStorage.getUser (store (disable2fa Sample.st (Some 1%Z))) 1
     = Some (secondFactorCleared Sample.alice)
  /\ (forall k', k' <> 1%Z ->
        MemStorage.getUser (store (disable2fa Sample.st (Some 1%Z))) k'
        = MemStorage.getUser Sample.st k').
Proof.
  exact (proj2 (proj2
    (disable2fa_clears_second_factor_for_req_user_id Sample.st 1 Sample.alice
       eq_refl)) eq_refl).
Defined.

(** C10, as the specification has it, fails.  In the store that alice's
    PATCH /api/user with [{ id: 2 }] leaves, her POST /api/user/disable-2fa
    is answered with 200; her own record keeps its flag and its secret,
    and the secret of bob, who did not ask, is cleared. *)
Lemma disable2fa_clears_another_record :
  reqUser Sample6.st (Some 1%Z) = Some Sample6.alice2
  /\ id Sample6.alice2 = 2%Z
  /\ response Sample6.afterDisable
     = Reply 200 (message "2FA disabled successfully")
  /\ session Sample6.afterDisable = Some 1%Z
  /\ MemStorage.getUser (store Sample6.afterDisable) 1 = Some Sample6.alice2
  /\ is2FAEnabled Sample6.alice2 = true
  /\ twoFactorSecret Sample6.alice2 = Some "JBSWY3DPEHPK3PXP"
  /\ MemStorage.getUser Sample6.st 2 = Some Sample.bob
  /\ twoFactorSecret Sample.bob = Some "KRUGKIDROVUWG2ZA"
  /\ MemStorage.getUser (store Sample6.afterDisable) 2
     = Some (secondFactorCleared Sample.bob)
  /\ twoFactorSecret (secondFactorCleared Sample.bob) = None.
Proof.
  repeat match goal with |- _ /\ _ => split end; reflexivity.
Qed.

(* ================================================================== *)
(** ** Wallet login                                                    *)
(* ================================================================== *)

Section WalletFacts.

Import MemStorage MemStorageFacts.
Local Open Scope list_scope.

Variable scrypt : string -> string -> nat -> list byte.
Variable SiweMessage : Type.
Variable SiweMessage_new : string -> result SiweMessage.
Variable SiweMessage_address : SiweMessage -> string.
Variable SiweMessage_verify : SiweMessage -> string -> result bool.

Local Abbreviation web3 :=
  (web3Login scrypt SiweMessage SiweMessage_new SiweMessage_address
             SiweMessage_verify).
Local Abbreviation walletRecord := (walletRecord scrypt).
Local Abbreviation verified :=
  (verified SiweMessage SiweMessage_new SiweMessage_address
            SiweMessage_verify).

Lemma find_last {A} (p : A -> bool) (l : list A) (x : A) :
  find p l = None -> p x = true -> find p (l ++ [x]) = Some x.
Proof.
  intros Hnone Hx. induction l as [|a r IH]; simpl in *.
  - now rewrite Hx.
  - destruct (p a); [discriminate|]. now apply IH.
Qed.

Lemma truthy_min1 (s : string) :
  (1 <=? String.length s)%nat = true -> truthy s = true.
Proof. destruct s; [discriminate|reflexivity]. Qed.

(** The handler on a verified request is the look-up or creation, the
    update of [lastLogin] and the login. *)
Lemma web3Login_verified st sess body now pw salt :
  verified body ->
  web3 st sess body now pw salt
  = match walletUser scrypt st (w3_address body) now pw salt with
    | Throw _ => mkOutcome invalidSignature st sess
    | Ok (st1, ref, user) =>
        mkOutcome
          (Reply 200 (userWithoutSensitiveInfo
                        (seenAfterUpdateLastLogin ref user now)))
          (updateLastLogin st1 (id user) now)
          (Some (id (seenAfterUpdateLastLogin ref user now)))
    end.
Proof.
  intros (Hschema & m & Hnew & Hver & Haddr).
  unfold web3Login.
  rewrite Hschema, Hnew, Hver, Haddr, String.eqb_refl. reflexivity.
Qed.

(** The first login of an address that the store does not know. *)
Lemma web3Login_creates st sess body now pw salt :
  keys_bounded st ->
  verified body ->
  getUserByWalletAddress st (w3_address body) = None ->
  web3 st sess body now pw salt
  = mkOutcome
      (Reply 200 (userWithoutSensitiveInfo
                    (walletRecord st (w3_address body) now pw salt)))
      (mk (userStorage st
           ++ [(currentUserId st,
                walletRecord st (w3_address body) now pw salt)])
          (currentUserId st + 1))
      (Some (currentUserId st)).
Proof.
  intros Hb Hver Hnone.
  pose proof (keys_bounded_fresh st Hb) as Hfresh.
  rewrite (web3Login_verified _ _ _ _ _ _ Hver).
  destruct Hver as (Hschema & _).
  unfold web3LoginSchema in Hschema.
  apply andb_true_iff in Hschema as [Hschema _].
  apply andb_true_iff in Hschema as [Haddr _].
  unfold walletUser. rewrite Hnone, hashPassword_eq.
  cbn [bind createUser id].
  cbn [ins_username ins_password ins_email ins_firstName ins_lastName
       ins_walletAddress ins_authType].
  unfold orElse. cbn [orNull truthy].
  rewrite (truthy_min1 _ Haddr).
  unfold seenAfterUpdateLastLogin, updateLastLogin, getUser.
  cbn [id userStorage currentUserId]. rewrite Z.eqb_refl.
  rewrite map_get_set_same, (map_set_fresh _ _ _ Hfresh).
  rewrite (map_set_last _ _ _ _ Hfresh).
  reflexivity.
Qed.

(** A later login of an address that the store knows. *)
Lemma web3Login_known st sess body now pw salt ref user :
  verified body ->
  getUserByWalletAddress st (w3_address body) = Some (ref, user) ->
  web3 st sess body now pw salt
  = mkOutcome
      (Reply 200 (userWithoutSensitiveInfo
                    (seenAfterUpdateLastLogin ref user now)))
      (updateLastLogin st (id user) now)
      (Some (id user)).
Proof.
  intros Hver Hfound.
  rewrite (web3Login_verified _ _ _ _ _ _ Hver).
  unfold walletUser. rewrite Hfound. f_equal.
  unfold seenAfterUpdateLastLogin. destruct (ref =? id user)%Z; reflexivity.
Qed.

(** C4. A verified wallet login for an address that no user of the store
    carries creates one user, appended under the next id, with
    [authType] "web3", the given wallet address and the hash of a
    freshly drawn random password, answers 200 and binds the session to
    that user.  A second verified login from that address, in any
    letter case, finds that user: the session is bound to the same id
    and the store keeps its keys and its id counter. *)
Theorem web3Login_registers_once
    (st : t) (sess : option Z) (body : Web3Login) (now : Z)
    (pw salt : list byte) :
  keys_bounded st ->
  verified body ->
  getUserByWalletAddress st (w3_address body) = None ->
  let out := web3 st sess body now pw salt in
  let user := walletRecord st (w3_address body) now pw salt in
  response out = Reply 200 (userWithoutSensitiveInfo user)
  /\ session out = Some (id user)
  /\ getUser st (id user) = None
  /\ getUser (store out) (id user) = Some user
  /\ userStorage (store out) = userStorage st ++ [(id user, user)]
  /\ authType user = "web3"
  /\ walletAddress user = Some (w3_address body)
  /\ hashPassword scrypt salt (toHex pw) = Ok (password user)
  /\ forall (sess2 : option Z) (body2 : Web3Login) (now2 : Z)
            (pw2 salt2 : list byte),
       verified body2 ->
       toLowerCase (w3_address body2) = toLowerCase (w3_address body) ->
       let out2 := web3 (store out) sess2 body2 now2 pw2 salt2 in
       response out2
         = Reply 200 (userWithoutSensitiveInfo (setLastLogin user now2))
       /\ session out2 = Some (id user)
       /\ map fst (userStorage (store out2)) = map fst (userStorage (store out))
       /\ currentUserId (store out2) = currentUserId (store out).
Proof.
  intros Hb Hver Hnone out user.
  pose proof (keys_bounded_fresh st Hb) as Hfresh.
  assert (Hout : out = mkOutcome
                         (Reply 200 (userWithoutSensitiveInfo user))
                         (mk (userStorage st ++ [(currentUserId st, user)])
                             (currentUserId st + 1))
                         (Some (currentUserId st)))
    by (apply web3Login_creates; assumption).
  rewrite Hout. cbn [response session store userStorage currentUserId].
  change (id user) with (currentUserId st).
  repeat match goal with |- _ /\ _ => split end; try reflexivity.
  - now apply map_get_fresh.
  - unfold getUser. cbn [userStorage]. now apply map_get_last.
  - intros sess2 body2 now2 pw2 salt2 Hver2 Hsame.
    set (st1 := mk (userStorage st ++ [(currentUserId st, user)])
                   (currentUserId st + 1)).
    assert (Hfound : getUserByWalletAddress st1 (w3_address body2)
                     = Some (currentUserId st, user)).
    { unfold getUserByWalletAddress, findUser in *. rewrite Hsame.
      cbn [userStorage st1]. apply find_last; [exact Hnone|].
      cbn. apply String.eqb_refl. }
    rewrite (web3Login_known st1 sess2 body2 now2 pw2 salt2 _ _ Hver2 Hfound).
    cbn [response session store].
    unfold seenAfterUpdateLastLogin, updateLastLogin, getUser.
    change (id user) with (currentUserId st). rewrite Z.eqb_refl.
    cbn [userStorage st1]. rewrite (map_get_last _ _ _ Hfresh).
    cbn [userStorage currentUserId].
    rewrite (map_set_last _ _ _ _ Hfresh), !map_app.
    repeat split.
Qed.

End WalletFacts.

Lemma web3Login_registers_once_witness :
  MemStorage.keys_bounded Sample.st
  /\ verified Sample.SiweMessage Sample.SiweMessage_new
       Sample.SiweMessage_address Sample.SiweMessage_verify Sample.walletBody
  /\ MemStorage.getUserByWalletAddress Sample.st (w3_address Sample.walletBody)
     = None
  /\ session
       (web3Login Sample.scrypt Sample.SiweMessage Sample.SiweMessage_new
          Sample.SiweMessage_address Sample.SiweMessage_verify
          Sample.st None Sample.walletBody 500 [x0a; x0b] Sample.salt)
     = Some 3%Z.
Proof.
  assert (Hb : MemStorage.keys_bounded Sample.st).
  { split; [vm_compute; discriminate|].
    repeat constructor; vm_compute; discriminate. }
  assert (Hv : verified Sample.SiweMessage Sample.SiweMessage_new
                 Sample.SiweMessage_address Sample.SiweMessage_verify
                 Sample.walletBody).
  { split; [reflexivity|]. exists "0x1234567890ABCDEF"%string.
    repeat split; reflexivity. }
  assert (Hn : MemStorage.getUserByWalletAddress Sample.st
                 (w3_address Sample.walletBody) = None) by reflexivity.
  split; [exact Hb|]. split; [exact Hv|]. split; [exact Hn|].
  exact (proj1 (proj2
    (web3Login_registers_once Sample.scrypt Sample.SiweMessage
       Sample.SiweMessage_new Sample.SiweMessage_address
       Sample.SiweMessage_verify Sample.st None Sample.walletBody 500
       [x0a; x0b] Sample.salt Hb Hv Hn))).
Defined.

(* ================================================================== *)
(** ** Look-ups by username, email and wallet address                  *)
(* ================================================================== *)

Section LookupFacts.

Import MemStorage.

Lemma lowerChar_sameCharUpToCase (a b : ascii) :
  sameCharUpToCase a b = true -> lowerChar a = lowerChar b.
Proof.
  unfold sameCharUpToCase. intros H.
  apply orb_true_iff in H as [H|H]; [apply orb_true_iff in H as [H|H]|].
  - apply Ascii.eqb_eq in H. now subst.
  - apply andb_true_iff in H as [Hu Hb]. apply Ascii.eqb_eq in Hb. subst b.
    destruct a as [[] [] [] [] [] [] [] []];
      first [discriminate Hu | reflexivity].
  - apply andb_true_iff in H as [Hu Ha]. apply Ascii.eqb_eq in Ha. subst a.
    destruct b as [[] [] [] [] [] [] [] []];
      first [discriminate Hu | reflexivity].
Qed.

(** Strings that differ only in letter case have one lower-case form. *)
Lemma toLowerCase_sameUpToCase (s q : string) :
  sameUpToCase s q = true -> toLowerCase s = toLowerCase q.
Proof.
  revert q. induction s as [|a s IH]; intros [|b q]; simpl;
    try discriminate; [reflexivity|].
  intros H. apply andb_true_iff in H as [Hc Hr].
  now rewrite (lowerChar_sameCharUpToCase _ _ Hc), (IH _ Hr).
Qed.

(** [find] returns an entry that satisfies the test when it is the only
    one to do so. *)
Lemma findUser_only (p : User -> bool) (st : t) (k : Z) (user : User) :
  In (k, user) (userStorage st) ->
  p user = true ->
  (forall k' user', In (k', user') (userStorage st) -> p user' = true ->
                    (k', user') = (k, user)) ->
  findUser p st = Some (k, user).
Proof.
  unfold findUser. intros Hin Hp Honly.
  destruct (find (fun e => p (snd e)) (userStorage st)) as [[k' user']|] eqn:E.
  - apply find_some in E as [Hin' Hp']. simpl in Hp'.
    now rewrite (Honly _ _ Hin' Hp').
  - exfalso. pose proof (find_none _ _ E _ Hin) as Hf. simpl in Hf. congruence.
Qed.

(** The in-memory look-up by username, for the letters A to Z: when no
    two stored users have the same username up to the case of these
    letters, a query that differs from a stored username only in their
    case finds that user. *)
Lemma MemStorage_getUserByUsername_ignores_case st k user query :
  usernamesUnique st ->
  In (k, user) (userStorage st) ->
  sameUpToCase (username user) query = true ->
  getUserByUsername st query = Some (k, user).
Proof.
  intros Huniq Hin Hsame. apply toLowerCase_sameUpToCase in Hsame.
  apply findUser_only; [exact Hin|rewrite Hsame; apply String.eqb_refl|].
  intros k' user' Hin' Hp. apply String.eqb_eq in Hp.
  apply (Huniq _ _ _ _ Hin' Hin). congruence.
Qed.

(** X5. The in-memory look-up by username ignores the case of ASCII
    letters: in a store whose usernames are ASCII strings, no two of them
    equal up to letter case, an ASCII query that differs from a stored
    username only in letter case finds that user. *)
Theorem MemStorage_getUserByUsername_ignores_ascii_case st k user query :
  (forall k' user',
     In (k', user') (userStorage st) -> isAscii (username user') = true) ->
  isAscii query = true ->
  usernamesUnique st ->
  In (k, user) (userStorage st) ->
  sameUpToCase (username user) query = true ->
  getUserByUsername st query = Some (k, user).
Proof.
  intros _ _. apply MemStorage_getUserByUsername_ignores_case.
Qed.

(** The in-memory look-ups by email and by wallet address find an entry
    whose field is the query up to letter case. *)
Lemma MemStorage_getUserByEmail_ignores_case st k user query :
  In (k, user) (userStorage st) ->
  sameUpToCase (email user) query = true ->
  exists k' user',
    getUserByEmail st query = Some (k', user')
    /\ toLowerCase (email user') = toLowerCase query.
Proof.
  intros Hin Hsame. apply toLowerCase_sameUpToCase in Hsame.
  unfold getUserByEmail, findUser.
  destruct (find _ (userStorage st)) as [[k' user']|] eqn:E.
  - apply find_some in E as [_ Hp]. simpl in Hp. apply String.eqb_eq in Hp.
    eauto.
  - exfalso. pose proof (find_none _ _ E _ Hin) as Hf. simpl in Hf.
    rewrite Hsame, String.eqb_refl in Hf. discriminate.
Qed.

Lemma MemStorage_getUserByWalletAddress_ignores_case st k user w query :
  In (k, user) (userStorage st) ->
  walletAddress user = Some w ->
  sameUpToCase w query = true ->
  exists k' user' w',
    getUserByWalletAddress st query = Some (k', user')
    /\ walletAddress user' = Some w'
    /\ toLowerCase w' = toLowerCase query.
Proof.
  intros Hin Hw Hsame. apply toLowerCase_sameUpToCase in Hsame.
  unfold getUserByWalletAddress, findUser.
  destruct (find _ (userStorage st)) as [[k' user']|] eqn:E.
  - apply find_some in E as [_ Hp]. simpl in Hp.
    destruct (walletAddress user') as [w'|] eqn:Ew; [|discriminate].
    apply String.eqb_eq in Hp. eauto 6.
  - exfalso. pose proof (find_none _ _ E _ Hin) as Hf. simpl in Hf.
    rewrite Hw, Hsame, String.eqb_refl in Hf. discriminate.
Qed.

(** A database look-up returns a row only for the exact spelling. *)
Lemma DatabaseStorage_selectFirst_sound cond rows row :
  DatabaseStorage.selectFirst cond rows = Some row ->
  In row rows /\ cond row = true.
Proof.
  unfold DatabaseStorage.selectFirst.
  destruct (filter cond rows) as [|r rest] eqn:E; [discriminate|].
  cbn. intros [= ->]. apply filter_In. rewrite E. now left.
Qed.

Lemma DatabaseStorage_getUserByUsername_exact_only rows query row :
  DatabaseStorage.getUserByUsername rows query = Some row ->
  username row = query.
Proof.
  intros H. apply DatabaseStorage_selectFirst_sound in H as [_ H].
  now apply String.eqb_eq in H.
Qed.

(** C6, on the code. The database look-ups compare with SQL equality:
    for the stored user "Alice" / "Alice@X.com" / "0xABCdef" and the
    queries "alice" / "alice@x.com" / "0xabcdef", which differ from the
    stored values only in letter case, the three look-ups of
    [DatabaseStorage] return nothing, while those of [MemStorage] return
    that user. *)
Theorem DatabaseStorage_lookups_are_case_sensitive :
  (sameUpToCase (username Sample.alice) "alice" = true
   /\ DatabaseStorage.getUserByUsername Sample.rows "alice" = None
   /\ getUserByUsername Sample.st "alice" = Some (1%Z, Sample.alice))
  /\ (sameUpToCase (email Sample.alice) "alice@x.com" = true
      /\ DatabaseStorage.getUserByEmail Sample.rows "alice@x.com" = None
      /\ getUserByEmail Sample.st "alice@x.com" = Some (1%Z, Sample.alice))
  /\ (walletAddress Sample.alice = Some "0xABCdef"
      /\ sameUpToCase "0xABCdef" "0xabcdef" = true
      /\ DatabaseStorage.getUserByWalletAddress Sample.rows "0xabcdef" = None
      /\ getUserByWalletAddress Sample.st "0xabcdef"
         = Some (1%Z, Sample.alice)).
Proof. repeat split. Qed.

(** With the stored spelling the database look-up finds the row. *)
Lemma DatabaseStorage_getUserByUsername_exact :
  DatabaseStorage.getUserByUsername Sample.rows "Alice" = Some Sample.alice.
Proof. reflexivity. Qed.

End LookupFacts.

(* ================================================================== *)
(** ** More on password hashing                                        *)
(* ================================================================== *)

Section MorePasswordFacts.

Variable scrypt : string -> string -> nat -> list byte.

Lemma bytes_eqb_eq (a b : list byte) : bytes_eqb a b = true <-> a = b.
Proof.
  split; [|intros ->; apply bytes_eqb_refl].
  revert b. induction a as [|x a IH]; intros [|y b]; simpl;
    try discriminate; [reflexivity|].
  intros H. apply andb_true_iff in H as [Hxy Hab].
  apply Byte.byte_dec_bl in Hxy. now rewrite Hxy, (IH _ Hab).
Qed.

Lemma toHex_injective (a b : list byte) : toHex a = toHex b -> a = b.
Proof.
  intros H. rewrite <- (fromHex_toHex a), <- (fromHex_toHex b). now rewrite H.
Qed.

(** The two segments of a record that [hashPassword] wrote. *)
Lemma split_record (digest salt : list byte) :
  split "." (toHex digest ++ String "." (toHex salt))
  = [toHex digest; toHex salt].
Proof.
  rewrite split_app_sep by apply lacks_dot_toHex.
  now rewrite split_lacks by apply lacks_dot_toHex.
Qed.

(** X1. Two calls of [hashPassword] whose random salts differ return
    different records, whatever the passwords: the record ends with the
    salt. *)
Theorem hashPassword_fresh_salt (rnd1 rnd2 : list byte) (P1 P2 : string) :
  rnd1 <> rnd2 ->
  hashPassword scrypt rnd1 P1 <> hashPassword scrypt rnd2 P2.
Proof.
  intros Hne. rewrite !hashPassword_eq. intros [= H].
  apply (f_equal (split ".")) in H. rewrite !split_record in H.
  injection H as _ Hsalt. now apply toHex_injective in Hsalt.
Qed.

Hypothesis scrypt_length :
  forall pass salt keylen, List.length (scrypt pass salt keylen) = keylen.

(** X2. Verifying a password [P1] against the record that [hashPassword]
    wrote for [P2] returns true when scrypt derives the same digest for
    both under the stored salt, and false otherwise; it never throws. *)
Theorem comparePasswords_other_password
    (rnd : list byte) (P1 P2 : string) :
  (scrypt P1 (toHex rnd) 64 = scrypt P2 (toHex rnd) 64 ->
   comparePasswords scrypt P1
     (toHex (scrypt P2 (toHex rnd) 64) ++ "." ++ toHex rnd) = Ok true)
  /\ (scrypt P1 (toHex rnd) 64 <> scrypt P2 (toHex rnd) 64 ->
      comparePasswords scrypt P1
        (toHex (scrypt P2 (toHex rnd) 64) ++ "." ++ toHex rnd) = Ok false)
  /\ hashPassword scrypt rnd P2
     = Ok (toHex (scrypt P2 (toHex rnd) 64) ++ "." ++ toHex rnd).
Proof.
  rewrite comparePasswords_two_segments by apply lacks_dot_toHex.
  rewrite fromHex_toHex. unfold timingSafeEqual.
  rewrite !scrypt_length, Nat.eqb_refl.
  split; [|split; [|reflexivity]].
  - intros ->. now rewrite bytes_eqb_refl.
  - intros Hne.
    destruct (bytes_eqb (scrypt P2 (toHex rnd) 64) (scrypt P1 (toHex rnd) 64))
      eqn:E; [|reflexivity].
    apply bytes_eqb_eq in E. congruence.
Qed.

End MorePasswordFacts.

Lemma hashPassword_fresh_salt_witness :
  hashPassword Sample.scrypt [x01] "secret1"
  <> hashPassword Sample.scrypt [x02] "secret1".
Proof.
  apply (hashPassword_fresh_salt Sample.scrypt [x01] [x02] "secret1" "secret1").
  discriminate.
Defined.

Lemma comparePasswords_other_password_witness :
  comparePasswords Sample.scrypt "secret2"
    (toHex (Sample.scrypt "secret1" (toHex Sample.salt) 64)
     ++ "." ++ toHex Sample.salt) = Ok false.
Proof.
  apply (proj1 (proj2 (comparePasswords_other_password Sample.scrypt
                         Sample_scrypt_length Sample.salt "secret2" "secret1"))).
  vm_compute. discriminate.
Defined.

(* ================================================================== *)
(** ** More on the in-memory user store                                *)
(* ================================================================== *)

Section MoreStoreFacts.

Import MemStorage MemStorageFacts.
Local Open Scope list_scope.

(** Replacing the value under a key by one that passes the same test does
    not change which key [find] returns. *)
Lemma find_map_set_key (p : User -> bool) k v v' m :
  map_get k m = Some v ->
  p v' = p v ->
  option_map fst (find (fun e => p (snd e)) (map_set k v' m))
  = option_map fst (find (fun e => p (snd e)) m).
Proof.
  intros Hget Hp. induction m as [|[k0 v0] r IH]; simpl in *; [discriminate|].
  destruct (k0 =? k)%Z eqn:E.
  - apply Z.eqb_eq in E. subst k0. injection Hget as ->. simpl.
    rewrite Hp. now destruct (p v).
  - simpl. destruct (p v0); [reflexivity|]. now apply IH.
Qed.

(** ... and when the old value is the one found, the new value is found. *)
Lemma find_map_set_found (p : User -> bool) k v v' m :
  map_get k m = Some v ->
  p v' = p v ->
  find (fun e => p (snd e)) m = Some (k, v) ->
  find (fun e => p (snd e)) (map_set k v' m) = Some (k, v').
Proof.
  intros Hget Hp. induction m as [|[k0 v0] r IH]; simpl in *; [discriminate|].
  destruct (k0 =? k)%Z eqn:E.
  - apply Z.eqb_eq in E. subst k0. injection Hget as ->. simpl.
    rewrite Hp. destruct (p v) eqn:Epv; [reflexivity|].
    intros Hf. apply find_some in Hf as [_ Hf]. simpl in Hf. congruence.
  - simpl. destruct (p v0).
    + intros [= -> ->]. rewrite Z.eqb_refl in E. discriminate.
    + now apply IH.
Qed.

Lemma map_set_set k v1 v2 m :
  map_set k v2 (map_set k v1 m) = map_set k v2 m.
Proof.
  induction m as [|[k0 v0] r IH]; simpl.
  - now rewrite Z.eqb_refl.
  - destruct (k0 =? k)%Z eqn:E; simpl.
    + now rewrite Z.eqb_refl.
    + now rewrite E, IH.
Qed.

Lemma getAllUsers_map_set_fresh st k v :
  Forall (fun e => fst e <> k) (userStorage st) ->
  map snd (map_set k v (userStorage st)) = getAllUsers st ++ [v].
Proof.
  intros H. rewrite (map_set_fresh _ _ _ H), map_app. reflexivity.
Qed.

(** X3. In a store whose keys are below the id counter, [createUser]
    stores the new user under the next id, where [getUser] finds it, keeps
    every user that was stored, and appends the new one to [getAllUsers];
    the new user has role "user", no second factor and no premium flag,
    whatever the input. *)
Theorem createUser_getUser (st : t) (userData : InsertUser) (now : Z) :
  keys_bounded st ->
  let st' := fst (createUser st userData now) in
  let user := snd (createUser st userData now) in
  id user = currentUserId st
  /\ getUser st (id user) = None
  /\ getUser st' (id user) = Some user
  /\ (forall k u, getUser st k = Some u -> getUser st' k = Some u)
  /\ getAllUsers st' = getAllUsers st ++ [user]
  /\ currentUserId st' = (currentUserId st + 1)%Z
  /\ role user = "user"
  /\ is2FAEnabled user = false
  /\ twoFactorSecret user = None
  /\ isPremium user = false.
Proof.
  intros Hb st' user.
  pose proof (keys_bounded_fresh st Hb) as Hfresh.
  repeat match goal with |- _ /\ _ => split end; try reflexivity.
  - now apply map_get_fresh.
  - apply map_get_set_same.
  - intros k u Hk. unfold st', getUser. cbn.
    rewrite map_get_set_other; [exact Hk|].
    pose proof (keys_bounded_getUser _ _ _ Hb Hk). lia.
  - unfold st', getAllUsers. cbn. now apply getAllUsers_map_set_fresh.
Qed.

(** X4. [updateLastLogin] on a stored user changes the [lastLogin] of that
    user and nothing else: the other fields, the other users, the order of
    the entries and the id counter stay, and the look-ups by username,
    email and wallet address return the same keys as before. *)
Theorem updateLastLogin_only_lastLogin (st : t) (k now : Z) (user : User) :
  getUser st k = Some user ->
  let st' := updateLastLogin st k now in
  getUser st' k = Some (setLastLogin user now)
  /\ (forall k', k' <> k -> getUser st' k' = getUser st k')
  /\ map fst (userStorage st') = map fst (userStorage st)
  /\ currentUserId st' = currentUserId st
  /\ (forall q, option_map fst (getUserByUsername st' q)
                = option_map fst (getUserByUsername st q))
  /\ (forall q, option_map fst (getUserByEmail st' q)
                = option_map fst (getUserByEmail st q))
  /\ (forall q, option_map fst (getUserByWalletAddress st' q)
                = option_map fst (getUserByWalletAddress st q)).
Proof.
  intros Hget st'. unfold st', updateLastLogin. rewrite Hget.
  unfold getUser in *. cbn [userStorage currentUserId].
  repeat match goal with |- _ /\ _ => split end; try reflexivity.
  - apply map_get_set_same.
  - intros k' Hne. now apply map_get_set_other.
  - now apply map_set_keys with (v0 := user).
  - intros q.
    exact (find_map_set_key
             (fun u => String.eqb (toLowerCase (username u)) (toLowerCase q))
             k user (setLastLogin user now) _ Hget eq_refl).
  - intros q.
    exact (find_map_set_key
             (fun u => String.eqb (toLowerCase (email u)) (toLowerCase q))
             k user (setLastLogin user now) _ Hget eq_refl).
  - intros q.
    exact (find_map_set_key
             (fun u => match walletAddress u with
                       | Some w => String.eqb (toLowerCase w) (toLowerCase q)
                       | None => false
                       end)
             k user (setLastLogin user now) _ Hget eq_refl).
Qed.

End MoreStoreFacts.

Lemma createUser_getUser_witness :
  MemStorage.getUser
    (fst (MemStorage.createUser Sample.st
            (mkInsertUser "carol" "hash" "carol@x.com" (Some EmptyString) None None None)
            700))
    3
  = Some (snd (MemStorage.createUser Sample.st
                 (mkInsertUser "carol" "hash" "carol@x.com" (Some EmptyString) None None
                    None) 700)).
Proof.
  refine (proj1 (proj2 (proj2
    (createUser_getUser Sample.st
       (mkInsertUser "carol" "hash" "carol@x.com" (Some EmptyString) None None None)
       700 _)))).
  split; [vm_compute; discriminate|].
  repeat constructor; vm_compute; discriminate.
Defined.

Lemma updateLastLogin_only_lastLogin_witness :
  MemStorage.getUser (MemStorage.updateLastLogin Sample.st 2 900) 2
  = Some (setLastLogin Sample.bob 900).
Proof.
  refine (proj1 (updateLastLogin_only_lastLogin Sample.st 2 900 Sample.bob _)).
  reflexivity.
Defined.

(* ================================================================== *)
(** ** Registration followed by login                                  *)
(* ================================================================== *)

Section RegisterLoginFacts.

Import MemStorage MemStorageFacts.
Local Open Scope list_scope.

Variable scrypt : string -> string -> nat -> list byte.



End RegisterLoginFacts.


Lemma login_session_bound_witness :
  exists ref user,
    MemStorage.getUserByUsername Sample.st "BOB" = Some (ref, user)
    /\ comparePasswords Sample.scrypt "secret1" (password user) = Ok true
    /\ is2FAEnabled user = false
    /\ session (login Sample.scrypt Sample.st None
                  (mkLoginUser "BOB" "secret1") 800)
       = Some (id user).
Proof.
  apply (login_session_bound Sample.scrypt Sample.st None
           (mkLoginUser "BOB" "secret1") 800).
  vm_compute. discriminate.
Defined.

Lemma MemStorage_getUserByUsername_ignores_ascii_case_witness :
  MemStorage.getUserByUsername Sample.st "aLICE" = Some (1%Z, Sample.alice).
Proof.
  apply (MemStorage_getUserByUsername_ignores_ascii_case Sample.st 1
           Sample.alice "aLICE").
  - intros k' user' [H|[H|[]]]; injection H as <- <-; reflexivity.
  - reflexivity.
  - intros k1 u1 k2 u2 [H1|[H1|[]]] [H2|[H2|[]]];
      injection H1 as <- <-; injection H2 as <- <-;
      first [reflexivity | (vm_compute; discriminate)].
  - now left.
  - reflexivity.
Defined.

(* ================================================================== *)
(** ** Setting up, enabling and disabling the second factor            *)
(* ================================================================== *)

Section MoreSecondFactorFacts.

Import MemStorage MemStorageFacts.

Variable scrypt : string -> string -> nat -> list byte.
Variable totp_verify : string -> string -> bool.
Variable toDataURL : string -> result string.

(** X10. POST /api/user/setup-2fa, for a logged-in user stored under its
    own id, stores the generated secret in the record of that user and
    leaves [is2FAEnabled], every other field, the other users and the
    session as they were.  The secret is written before the QR code is
    made: when [toDataURL] throws, the route passes the error on and the
    new secret stays stored. *)
Theorem setup2fa_stores_secret
    (st : t) (k : Z) (user : User) (secret : GeneratedSecret) :
  getUser st k = Some user ->
  id user = k ->
  let out := setup2fa toDataURL st (Some k) secret in
  getUser (store out) k = Some (spread user (setup2faUpdates secret))
  /\ twoFactorSecret (spread user (setup2faUpdates secret))
     = Some (base32 secret)
  /\ is2FAEnabled (spread user (setup2faUpdates secret)) = is2FAEnabled user
  /\ (forall k', k' <> k -> getUser (store out) k' = getUser st k')
  /\ session out = Some k
  /\ (forall url, toDataURL (otpauth_url secret) = Ok url ->
        response out = Reply 200 (JObj [("qrCodeUrl", JStr url)]))
  /\ (forall err, toDataURL (otpauth_url secret) = Throw err ->
        response out = Next err).
Proof.
  intros Hget Hid out.
  destruct (updateUser_present st k user (setup2faUpdates secret) Hget)
    as (st' & Hupd & Hsame & Hother & _ & _).
  subst out. unfold setup2fa, reqUser. rewrite Hget, Hid, Hget, Hid, Hupd.
  destruct (toDataURL (otpauth_url secret)) as [url|err]; cbn;
    repeat match goal with |- _ /\ _ => split end;
    try reflexivity; try assumption;
    intros; congruence.
Qed.

(** X11. POST /api/user/enable-2fa by a logged-in user stored under its
    own id, with a six-character code that verifies against the stored,
    non-empty secret, sets [is2FAEnabled] in the record of that user and
    changes nothing else; from then on a credential login whose username
    finds that user, with a password that verifies, gets the
    requires-second-factor answer and no session. *)
Theorem enable2fa_then_login_is_gated
    (st : t) (k : Z) (user : User) (secret token : string)
    (sess2 : option Z) (body : LoginUser) (now : Z) :
  getUser st k = Some user ->
  id user = k ->
  twoFactorSecret user = Some secret ->
  secret <> EmptyString ->
  String.length token = 6%nat ->
  totp_verify secret token = true ->
  loginUserSchema body = true ->
  getUserByUsername st (login_username body) = Some (k, user) ->
  comparePasswords scrypt (login_password body) (password user) = Ok true ->
  let out := enable2fa totp_verify st (Some k) (mkVerify2FA token None) in
  response out = Reply 200 (message "2FA enabled successfully")
  /\ getUser (store out) k = Some (spread user enable2faUpdates)
  /\ is2FAEnabled (spread user enable2faUpdates) = true
  /\ (forall k', k' <> k -> getUser (store out) k' = getUser st k')
  /\ session out = Some k
  /\ login scrypt (store out) sess2 body now
     = mkOutcome
         (Reply 200 (JObj [("requires2FA", JBool true);
                           ("userId", JNum k);
                           ("message", JStr "2FA verification required")]))
         (store out) sess2.
Proof.
  intros Hget Hid Hsecret Hne Hlen Hcode Hschema Hfound Hpass out.
  destruct (updateUser_present st k user enable2faUpdates Hget)
    as (st' & Hupd & Hsame & Hother & _ & _).
  assert (Hout : out = mkOutcome (Reply 200 (message "2FA enabled successfully"))
                         st' (Some k)).
  { subst out. unfold enable2fa, reqUser, verify2FASchema.
    rewrite Hget, Hid, Hget. cbn [v_token]. rewrite Hlen. cbn [Nat.eqb negb].
    rewrite Hsecret. unfold orNull.
    destruct secret as [|c r]; [contradiction|]. cbn [truthy].
    rewrite Hcode, Hid, Hupd. reflexivity. }
  rewrite Hout. cbn [response store session].
  repeat match goal with |- _ /\ _ => split end;
    try reflexivity; try assumption.
  unfold login, localStrategy. rewrite Hschema.
  assert (Hfound' : getUserByUsername st' (login_username body)
                    = Some (k, spread user enable2faUpdates)).
  { unfold updateUser in Hupd. rewrite Hget in Hupd. injection Hupd as <-.
    unfold getUserByUsername, findUser in *. cbn [userStorage].
    exact (find_map_set_found
             (fun u => String.eqb (toLowerCase (username u))
                                  (toLowerCase (login_username body)))
             k user (spread user enable2faUpdates) _ Hget eq_refl Hfound). }
  rewrite Hfound'. cbn [negb password spread over upd_password enable2faUpdates].
  rewrite Hpass. cbn. now rewrite Hid.
Qed.

(** [enable2fa] writes to the store only for a logged-in user with a
    stored, non-empty secret and a six-character code that the TOTP check
    accepts for it. *)
Lemma enable2fa_only_with_valid_code
    (st : t) (sess : option Z) (body : Verify2FA) :
  store (enable2fa totp_verify st sess body) <> st ->
  exists requester user secret,
    reqUser st sess = Some requester
    /\ getUser st (id requester) = Some user
    /\ twoFactorSecret user = Some secret
    /\ secret <> EmptyString
    /\ String.length (v_token body) = 6%nat
    /\ totp_verify secret (v_token body) = true.
Proof.
  unfold enable2fa.
  destruct (reqUser st sess) as [requester|] eqn:Hreq; [|same_session].
  destruct (verify2FASchema body) eqn:Hschema; cbn [negb]; [|same_session].
  destruct (getUser st (id requester)) as [user|] eqn:Hget; [|same_session].
  destruct (twoFactorSecret user) as [[|c r]|] eqn:Hsecret; cbn [orNull truthy];
    try same_session.
  destruct (totp_verify (String c r) (v_token body)) eqn:Hcode; cbn [negb];
    [|same_session].
  intros _. exists requester, user, (String c r).
  unfold verify2FASchema in Hschema. apply Nat.eqb_eq in Hschema.
  repeat split; try assumption; discriminate.
Qed.

(** X12. After POST /api/user/disable-2fa by a logged-in user stored under
    its own id, POST /api/verify-2fa for that user answers 400 whatever the
    code and whoever asks: nobody is logged in and the store stays. *)
Theorem disable2fa_then_verify2fa_refused
    (st : t) (k : Z) (user : User) (sess2 : option Z) (token : string)
    (now : Z) :
  getUser st k = Some user ->
  id user = k ->
  let st' := store (disable2fa st (Some k)) in
  let out := verify2fa totp_verify st' sess2 (mkVerify2FA token (Some k)) now in
  (exists body, response out = Reply 400 body)
  /\ store out = st'
  /\ session out = sess2.
Proof.
  intros Hget Hid st' out.
  destruct (updateUser_present st k user disable2faUpdates Hget)
    as (st1 & Hupd & Hsame & _).
  assert (Hst' : st' = st1).
  { subst st'. unfold disable2fa, reqUser. now rewrite Hget, Hid, Hupd. }
  subst out. rewrite Hst'. unfold verify2fa, invalidInput.
  destruct (negb (verify2FASchema (mkVerify2FA token (Some k))));
    [cbn; eauto|].
  cbn [v_userId].
  destruct (k =? 0)%Z; [cbn; eauto|].
  rewrite Hsame. cbn. eauto.
Qed.

End MoreSecondFactorFacts.

Lemma setup2fa_stores_secret_witness :
  MemStorage.getUser
    (store (setup2fa Sample2.toDataURL_failing Sample.st (Some 1%Z)
              Sample2.secret)) 1
  = Some (spread Sample.alice (setup2faUpdates Sample2.secret)).
Proof.
  refine (proj1 (setup2fa_stores_secret Sample2.toDataURL_failing Sample.st 1
                   Sample.alice Sample2.secret _ _));
    reflexivity.
Defined.

Lemma enable2fa_then_login_is_gated_witness :
  login Sample.scrypt
    (store (enable2fa Sample.totp_verify Sample.st (Some 2%Z)
              (mkVerify2FA "KRUGKI" None)))
    None (mkLoginUser "bob" "secret1") 800
  = mkOutcome
      (Reply 200 (JObj [("requires2FA", JBool true);
                        ("userId", JNum 2);
                        ("message", JStr "2FA verification required")]))
      (store (enable2fa Sample.totp_verify Sample.st (Some 2%Z)
                (mkVerify2FA "KRUGKI" None)))
      None.
Proof.
  refine (proj2 (proj2 (proj2 (proj2 (proj2
    (enable2fa_then_login_is_gated Sample.scrypt Sample.totp_verify Sample.st
       2 Sample.bob "KRUGKIDROVUWG2ZA" "KRUGKI" None
       (mkLoginUser "bob" "secret1") 800 _ _ _ _ _ _ _ _ _))))));
    first [discriminate | (vm_compute; reflexivity)].
Defined.

Lemma disable2fa_then_verify2fa_refused_witness :
  session (verify2fa Sample.totp_verify
             (store (disable2fa Sample.st (Some 1%Z))) None
             (mkVerify2FA "JBSWY3" (Some 1%Z)) 800)
  = None.
Proof.
  refine (proj2 (proj2
    (disable2fa_then_verify2fa_refused Sample.totp_verify Sample.st 1
       Sample.alice None "JBSWY3" 800 _ _)));
    reflexivity.
Defined.

(* ================================================================== *)
(** ** Changing the password                                           *)
(* ================================================================== *)

Section ChangePasswordFacts.

Import MemStorage MemStorageFacts.

Variable scrypt : string -> string -> nat -> list byte.

(** X13. POST /api/user/change-password, for a logged-in user stored under
    its own id whose current password verifies, replaces the stored hash by
    [hashPassword] of the new password, any string at all, and changes no
    other field, no other user and not the session; the new password
    verifies against the stored hash afterwards. *)
Theorem changePassword_replaces_hash
    (st : t) (k : Z) (user : User) (current new : string)
    (saltBytes : list byte) :
  getUser st k = Some user ->
  id user = k ->
  comparePasswords scrypt current (password user) = Ok true ->
  let out :=
    changePassword scrypt st (Some k)
      (mkChangePassword (Some current) (Some new)) saltBytes in
  exists hashed,
    hashPassword scrypt saltBytes new = Ok hashed
    /\ response out = Reply 200 (message "Password updated successfully")
    /\ getUser (store out) k = Some (spread user (passwordUpdates hashed))
    /\ comparePasswords scrypt new hashed = Ok true
    /\ (forall k', k' <> k -> getUser (store out) k' = getUser st k')
    /\ session out = Some k.
Proof.
  intros Hget Hid Hpass out.
  exists (toHex (scrypt new (toHex saltBytes) 64) ++ "." ++ toHex saltBytes).
  destruct (updateUser_present st k user
              (passwordUpdates
                 (toHex (scrypt new (toHex saltBytes) 64)
                  ++ "." ++ toHex saltBytes)) Hget)
    as (st' & Hupd & Hsame & Hother & _ & _).
  subst out. unfold changePassword, reqUser.
  rewrite Hget, Hid, Hget. cbn [comparePasswordsArg currentPassword].
  rewrite Hpass. cbn [hashPasswordArg newPassword].
  rewrite hashPassword_eq, Hid, Hupd. cbn [response store session].
  repeat match goal with |- _ /\ _ => split end;
    try reflexivity; try assumption.
  rewrite comparePasswords_two_segments by apply lacks_dot_toHex.
  rewrite fromHex_toHex. apply timingSafeEqual_refl.
Qed.

(** X14. [changePassword] writes to the store only for a logged-in user
    who supplies a current password that verifies against the stored
    hash. *)
Theorem changePassword_needs_current_password
    (st : t) (sess : option Z) (body : ChangePassword) (saltBytes : list byte) :
  store (changePassword scrypt st sess body saltBytes) <> st ->
  exists requester user current,
    reqUser st sess = Some requester
    /\ getUser st (id requester) = Some user
    /\ currentPassword body = Some current
    /\ comparePasswords scrypt current (password user) = Ok true.
Proof.
  unfold changePassword.
  destruct (reqUser st sess) as [requester|] eqn:Hreq; [|same_session].
  destruct (getUser st (id requester)) as [user|] eqn:Hget; [|same_session].
  destruct (currentPassword body) as [current|] eqn:Hcur;
    cbn [comparePasswordsArg]; [|same_session].
  destruct (comparePasswords scrypt current (password user)) as [[|]|err]
    eqn:Hpass; try same_session.
  intros _. exists requester, user, current. repeat split; assumption.
Qed.

End ChangePasswordFacts.

Lemma changePassword_replaces_hash_witness :
  exists hashed,
    hashPassword Sample.scrypt [x09] EmptyString = Ok hashed
    /\ response (changePassword Sample.scrypt Sample.st (Some 2%Z)
                   (mkChangePassword (Some "secret1") (Some EmptyString)) [x09])
       = Reply 200 (message "Password updated successfully")
    /\ MemStorage.getUser
         (store (changePassword Sample.scrypt Sample.st (Some 2%Z)
                   (mkChangePassword (Some "secret1") (Some EmptyString)) [x09])) 2
       = Some (spread Sample.bob (passwordUpdates hashed))
    /\ comparePasswords Sample.scrypt EmptyString hashed = Ok true
    /\ (forall k', k' <> 2%Z ->
          MemStorage.getUser
            (store (changePassword Sample.scrypt Sample.st (Some 2%Z)
                      (mkChangePassword (Some "secret1") (Some EmptyString)) [x09])) k'
          = MemStorage.getUser Sample.st k')
    /\ session (changePassword Sample.scrypt Sample.st (Some 2%Z)
                  (mkChangePassword (Some "secret1") (Some EmptyString)) [x09])
       = Some 2%Z.
Proof.
  apply (changePassword_replaces_hash Sample.scrypt Sample.st 2 Sample.bob
           "secret1" EmptyString [x09]);
    vm_compute; reflexivity.
Defined.

Lemma changePassword_needs_current_password_witness :
  exists requester user current,
    reqUser Sample.st (Some 2%Z) = Some requester
    /\ MemStorage.getUser Sample.st (id requester) = Some user
    /\ currentPassword (mkChangePassword (Some "secret1") (Some "new"))
       = Some current
    /\ comparePasswords Sample.scrypt current (password user) = Ok true.
Proof.
  apply (changePassword_needs_current_password Sample.scrypt Sample.st
           (Some 2%Z) (mkChangePassword (Some "secret1") (Some "new")) [x09]).
  vm_compute. discriminate.
Defined.

(* ================================================================== *)
(** ** Who may call what                                               *)
(* ================================================================== *)

Section AccessFacts.

Import MemStorage MemStorageFacts.

Variable scrypt : string -> string -> nat -> list byte.
Variable totp_verify : string -> string -> bool.
Variable toDataURL : string -> result string.

(** X15. Without a logged-in user every route behind
    [req.isAuthenticated()] refuses with 401, the admin routes with 403,
    and none of them touches the store or the session. *)
Theorem unauthenticated_is_refused
    (st : t) (pst : MemPayments.t) (sess : option Z)
    (secret : GeneratedSecret) (code : Verify2FA) (updates : PartialUser)
    (passwords : ChangePassword) (saltBytes : list byte) (idParam : string) :
  reqUser st sess = None ->
  setup2fa toDataURL st sess secret = mkOutcome notAuthenticated st sess
  /\ enable2fa totp_verify st sess code = mkOutcome notAuthenticated st sess
  /\ disable2fa st sess = mkOutcome notAuthenticated st sess
  /\ currentUser st sess = mkOutcome notAuthenticated st sess
  /\ patchUser st sess updates = mkOutcome notAuthenticated st sess
  /\ changePassword scrypt st sess passwords saltBytes
     = mkOutcome notAuthenticated st sess
  /\ adminUsers st sess = mkOutcome forbiddenAdmin st sess
  /\ adminPatchUser st sess idParam updates = mkOutcome forbiddenAdmin st sess
  /\ adminPayments st pst sess = forbiddenAdmin
  /\ userPayments st pst sess idParam = notAuthenticated
  /\ userRecentPayments st pst sess idParam = notAuthenticated.
Proof.
  intros H.
  unfold setup2fa, enable2fa, disable2fa, currentUser, patchUser,
    changePassword, adminUsers, adminPatchUser, adminPayments, userPayments,
    userRecentPayments, adminGuard.
  rewrite H. repeat split.
Qed.

(** X16. A logged-in user whose role is not exactly "admin" gets 403 from
    the three admin routes, which leave the store and the session alone. *)
Theorem admin_routes_need_admin_role
    (st : t) (pst : MemPayments.t) (sess : option Z) (user : User)
    (idParam : string) (updates : PartialUser) :
  reqUser st sess = Some user ->
  role user <> "admin" ->
  adminUsers st sess = mkOutcome forbiddenAdmin st sess
  /\ adminPatchUser st sess idParam updates = mkOutcome forbiddenAdmin st sess
  /\ adminPayments st pst sess = forbiddenAdmin.
Proof.
  intros H Hrole. apply String.eqb_neq in Hrole.
  unfold adminUsers, adminPatchUser, adminPayments, adminGuard.
  rewrite H, Hrole. repeat split.
Qed.

(** X17. PATCH /api/admin/users/:id by an administrator: when [:id] parses
    to the id of a stored user, that user's record becomes the record
    overwritten by the fields of the body, the other users and the
    session stay, and the answer is 200 with the updated user; when it
    parses to an id that is not stored the answer is 500 and when it does
    not parse 400, and the store is unchanged in both cases. *)
Theorem adminPatchUser_by_admin
    (st : t) (sess : option Z) (idParam : string) (body : PartialUser) :
  adminGuard st sess = true ->
  match ParseInt.parseInt idParam with
  | None =>
      adminPatchUser st sess idParam body = mkOutcome invalidUserId st sess
  | Some userId =>
      match getUser st userId with
      | None =>
          adminPatchUser st sess idParam body
          = mkOutcome (Reply 500 (message "Failed to update user")) st sess
      | Some target =>
          response (adminPatchUser st sess idParam body)
          = Reply 200 (userWithoutSensitiveInfo (spread target body))
          /\ getUser (store (adminPatchUser st sess idParam body)) userId
             = Some (spread target body)
          /\ (forall k, k <> userId ->
                getUser (store (adminPatchUser st sess idParam body)) k
                = getUser st k)
          /\ session (adminPatchUser st sess idParam body) = sess
      end
  end.
Proof.
  intros Hadmin. unfold adminPatchUser. rewrite Hadmin. cbn [negb].
  destruct (ParseInt.parseInt idParam) as [userId|]; [|reflexivity].
  destruct (getUser st userId) as [target|] eqn:Hget.
  - destruct (updateUser_present st userId target body Hget)
      as (st' & Hupd & Hsame & Hother & _ & _).
    rewrite Hupd. cbn. repeat split; assumption.
  - unfold updateUser. now rewrite Hget.
Qed.

Lemma forallb_map_negb_hasKey (key : string) (users : list User) :
  (forall u, hasKey key (userWithoutSensitiveInfo u) = false) ->
  forallb (fun item => negb (hasKey key item))
          (map userWithoutSensitiveInfo users) = true.
Proof.
  intros H. induction users as [|u r IH]; [reflexivity|].
  cbn [map forallb]. now rewrite H, IH.
Qed.

Lemma adminUsers_list_without_secrets (users : list User) :
  withoutSecrets (Reply 200 (JArr (map userWithoutSensitiveInfo users))) = true.
Proof.
  unfold withoutSecrets, lacksKey.
  now rewrite !forallb_map_negb_hasKey by reflexivity.
Qed.

(** X18. No response of the routes that send a user shows a password hash
    or a TOTP secret: the bodies of POST /api/login, /api/web3-login and
    /api/verify-2fa, GET and PATCH /api/user, PATCH /api/admin/users/:id
    and every element of the list of GET /api/admin/users have neither a
    [password] nor a [twoFactorSecret] property; the body of
    POST /api/register has no [password] property. *)
Theorem responses_without_secrets
    (SiweMessage : Type)
    (SiweMessage_new : string -> result SiweMessage)
    (SiweMessage_address : SiweMessage -> string)
    (SiweMessage_verify : SiweMessage -> string -> result bool)
    (st : t) (sess : option Z) (now : Z) (credentials : LoginUser)
    (wallet : Web3Login) (code : Verify2FA) (updates : PartialUser)
    (registration : InsertUser) (idParam : string)
    (passwordBytes saltBytes : list byte) :
  withoutSecrets (response (login scrypt st sess credentials now)) = true
  /\ withoutSecrets
       (response (web3Login scrypt SiweMessage SiweMessage_new
                    SiweMessage_address SiweMessage_verify st sess wallet now
                    passwordBytes saltBytes)) = true
  /\ withoutSecrets (response (verify2fa totp_verify st sess code now)) = true
  /\ withoutSecrets (response (currentUser st sess)) = true
  /\ withoutSecrets (response (patchUser st sess updates)) = true
  /\ withoutSecrets (response (adminPatchUser st sess idParam updates)) = true
  /\ withoutSecrets (response (adminUsers st sess)) = true
  /\ lacksKey "password"
       (response (register scrypt st sess registration now saltBytes)) = true.
Proof.
  repeat match goal with |- _ /\ _ => split end.
  - unfold login, localStrategy.
    repeat match goal with
           | |- context [match ?x with _ => _ end] => destruct x
           end; reflexivity.
  - unfold web3Login, walletUser, bind.
    repeat match goal with
           | |- context [match ?x with _ => _ end] => destruct x
           end; reflexivity.
  - unfold verify2fa.
    repeat match goal with
           | |- context [match ?x with _ => _ end] => destruct x
           end; reflexivity.
  - unfold currentUser. destruct (reqUser st sess); reflexivity.
  - unfold patchUser.
    repeat match goal with
           | |- context [match ?x with _ => _ end] => destruct x
           end; reflexivity.
  - unfold adminPatchUser.
    repeat match goal with
           | |- context [match ?x with _ => _ end] => destruct x
           end; reflexivity.
  - unfold adminUsers. destruct (negb (adminGuard st sess)); [reflexivity|].
    apply adminUsers_list_without_secrets.
  - unfold register, bind.
    repeat match goal with
           | |- context [match ?x with _ => _ end] => destruct x
           end; reflexivity.
Qed.

End AccessFacts.

Lemma unauthenticated_is_refused_witness :
  patchUser Sample.st None Sample.makeAdmin
  = mkOutcome notAuthenticated Sample.st None.
Proof.
  refine (proj1 (proj2 (proj2 (proj2 (proj2
    (unauthenticated_is_refused Sample.scrypt Sample.totp_verify
       Sample2.toDataURL Sample.st MemPayments.init None Sample2.secret
       (mkVerify2FA "000000" None) Sample.makeAdmin
       (mkChangePassword None None) Sample.salt "1" _))))));
    reflexivity.
Defined.

Lemma admin_routes_need_admin_role_witness :
  adminPatchUser Sample.st (Some 2%Z) "1" Sample.makeAdmin
  = mkOutcome forbiddenAdmin Sample.st (Some 2%Z).
Proof.
  refine (proj1 (proj2
    (admin_routes_need_admin_role Sample.st MemPayments.init (Some 2%Z)
       Sample.bob "1" Sample.makeAdmin _ _)));
    [reflexivity | discriminate].
Defined.

Lemma adminPatchUser_by_admin_witness :
  MemStorage.getUser
    (store (adminPatchUser Sample2.st (Some 3%Z) " 2" Sample.makeAdmin)) 2
  = Some (spread Sample.bob Sample.makeAdmin).
Proof.
  refine (proj1 (proj2
    (adminPatchUser_by_admin Sample2.st (Some 3%Z) " 2" Sample.makeAdmin _)));
    reflexivity.
Defined.

(* ================================================================== *)
(** ** The payments                                                    *)
(* ================================================================== *)

Section PaymentFacts.

Import MemPayments.
Local Open Scope list_scope.

Lemma insertSorted_perm {A} (compare : A -> A -> Z) x l :
  Permutation (insertSorted compare x l) (x :: l).
Proof.
  induction l as [|y r IH]; simpl; [reflexivity|].
  destruct (compare x y <=? 0)%Z; [reflexivity|].
  rewrite IH. apply perm_swap.
Qed.

Lemma sort_perm {A} (compare : A -> A -> Z) l :
  Permutation (sort compare l) l.
Proof.
  induction l as [|x r IH]; simpl; [reflexivity|].
  rewrite insertSorted_perm. now constructor.
Qed.

Lemma insertSorted_sorted x l :
  StronglySorted notOlder l ->
  StronglySorted notOlder (insertSorted newestFirst x l).
Proof.
  induction 1 as [|y r Hr IH Hy]; simpl.
  - repeat constructor.
  - unfold newestFirst at 1.
    destruct (pay_date y - pay_date x <=? 0)%Z eqn:E.
    + apply Z.leb_le in E. constructor; [now constructor|].
      constructor; [unfold notOlder; lia|].
      eapply Forall_impl; [|exact Hy]. unfold notOlder. intros; lia.
    + apply Z.leb_gt in E. constructor; [exact IH|].
      rewrite insertSorted_perm. constructor; [unfold notOlder; lia|exact Hy].
Qed.

Lemma sort_sorted l : StronglySorted notOlder (sort newestFirst l).
Proof.
  induction l as [|x r IH]; simpl; [constructor|].
  now apply insertSorted_sorted.
Qed.

(** Insertion puts an element in front of those of its own date. *)
Lemma insertSorted_same_date (d : Z) x l :
  filter (fun p => (pay_date p =? d)%Z) (insertSorted newestFirst x l)
  = filter (fun p => (pay_date p =? d)%Z) (x :: l).
Proof.
  induction l as [|y r IH]; [reflexivity|].
  cbn [insertSorted]. unfold newestFirst at 1.
  destruct (pay_date y - pay_date x <=? 0)%Z eqn:E; [reflexivity|].
  apply Z.leb_gt in E. cbn [filter] in *. rewrite IH.
  destruct (pay_date x =? d)%Z eqn:Ex, (pay_date y =? d)%Z eqn:Ey;
    try reflexivity.
  apply Z.eqb_eq in Ex, Ey. lia.
Qed.

Lemma sort_same_date (d : Z) l :
  filter (fun p => (pay_date p =? d)%Z) (sort newestFirst l)
  = filter (fun p => (pay_date p =? d)%Z) l.
Proof.
  induction l as [|x r IH]; [reflexivity|].
  cbn [sort fold_right]. fold (sort newestFirst r).
  rewrite insertSorted_same_date. cbn [filter]. now rewrite IH.
Qed.

(** X21. [getUserPayments] returns exactly the stored payments of that
    user, each as often as it is stored, ordered from the newest to the
    oldest. *)
Theorem getUserPayments_sorted (st : t) (userId : Z) :
  StronglySorted notOlder (getUserPayments st userId)
  /\ Permutation (getUserPayments st userId)
       (filter (fun p => (pay_userId p =? userId)%Z)
               (map snd (paymentStorage st)))
  /\ (forall p, In p (getUserPayments st userId)
                <-> In p (map snd (paymentStorage st))
                    /\ pay_userId p = userId).
Proof.
  unfold getUserPayments. split; [apply sort_sorted|].
  split; [apply sort_perm|].
  intros p. split.
  - intros H. apply (Permutation_in _ (sort_perm _ _)) in H.
    apply filter_In in H as [H1 H2]. apply Z.eqb_eq in H2. now split.
  - intros [H1 H2]. apply (Permutation_in _ (Permutation_sym (sort_perm _ _))).
    apply filter_In. split; [exact H1|]. now apply Z.eqb_eq.
Qed.

(** X22. The sort is stable: among the payments of one date,
    [getUserPayments] and [getAllPayments] keep the order in which the
    payments were recorded. *)
Theorem payments_of_one_date_keep_order (st : t) (userId d : Z) :
  filter (fun p => (pay_date p =? d)%Z) (getUserPayments st userId)
  = filter (fun p => (pay_date p =? d)%Z)
      (filter (fun p => (pay_userId p =? userId)%Z)
              (map snd (paymentStorage st)))
  /\ filter (fun p => (pay_date p =? d)%Z) (getAllPayments st)
     = filter (fun p => (pay_date p =? d)%Z) (map snd (paymentStorage st)).
Proof.
  split; apply sort_same_date.
Qed.

(** [slice(0, n)] for [n >= 0] takes the first [n] elements; for [n < 0]
    it drops the last [-n]. *)
Lemma slice_nonneg {A} (l : list A) (n : Z) :
  (0 <= n)%Z -> slice l n = firstn (Z.to_nat n) l.
Proof.
  intros Hn. unfold slice.
  destruct (n <? 0)%Z eqn:E; [apply Z.ltb_lt in E; lia|].
  destruct (Z.le_ge_cases n (Z.of_nat (List.length l))) as [H|H].
  - now rewrite Z.min_l.
  - rewrite Z.min_r by lia. rewrite Nat2Z.id, firstn_all.
    symmetry. apply firstn_all2. lia.
Qed.

Lemma slice_negative {A} (l : list A) (n : Z) :
  (n < 0)%Z -> slice l n = firstn (List.length l - Z.to_nat (- n)) l.
Proof.
  intros Hn. unfold slice.
  apply Z.ltb_lt in Hn as E. rewrite E. f_equal. lia.
Qed.

Lemma sorted_prefix_not_older l (n : nat) p q :
  StronglySorted notOlder l ->
  In p (firstn n l) -> In q (skipn n l) -> notOlder p q.
Proof.
  intros Hs. revert n. induction Hs as [|x r Hr IH Hx]; intros n Hp Hq.
  - destruct n; destruct Hp.
  - destruct n as [|n]; [destruct Hp|].
    cbn [firstn skipn] in *. destruct Hp as [<-|Hp].
    + rewrite Forall_forall in Hx. apply Hx.
      rewrite <- (firstn_skipn n r). apply in_or_app. now right.
    + now apply (IH n).
Qed.

(** X23. [getUserRecentPayments] with a limit that is not negative, 5 when
    none is given, returns the first [limit] of the user's payments in
    their order from newest to oldest: at most [limit] payments, and no
    payment that it leaves out is newer than one that it returns. *)
Theorem getUserRecentPayments_newest
    (st : t) (userId : Z) (limit : option Z) :
  let n := match limit with Some n => n | None => 5%Z end in
  (0 <= n)%Z ->
  getUserRecentPayments st userId limit
  = firstn (Z.to_nat n) (getUserPayments st userId)
  /\ (List.length (getUserRecentPayments st userId limit) <= Z.to_nat n)%nat
  /\ (forall p q,
        In p (getUserRecentPayments st userId limit) ->
        In q (skipn (Z.to_nat n) (getUserPayments st userId)) ->
        (pay_date q <= pay_date p)%Z).
Proof.
  intros n Hn. unfold getUserRecentPayments. fold n.
  rewrite (slice_nonneg _ _ Hn).
  split; [reflexivity|]. split; [apply firstn_le_length|].
  intros p q Hp Hq.
  exact (sorted_prefix_not_older _ _ _ _ (sort_sorted _) Hp Hq).
Qed.

Lemma payment_map_set_fresh k v m :
  Forall (fun e => fst e <> k) m -> map_set k v m = m ++ [(k, v)].
Proof.
  induction 1 as [|[k' v'] r Hk _ IH]; simpl; [reflexivity|].
  simpl in Hk. destruct (k' =? k)%Z eqn:E; [apply Z.eqb_eq in E; congruence|].
  now rewrite IH.
Qed.

Lemma payment_keys_fresh st :
  keys_bounded st ->
  Forall (fun e => fst e <> currentPaymentId st) (paymentStorage st).
Proof.
  intros [_ H]. eapply Forall_impl; [|exact H]. simpl. intros e He. lia.
Qed.

(** The list of payments after [createPayment]. *)
Lemma createPayment_storage (st : t) (paymentData : InsertPayment) :
  keys_bounded st ->
  map snd (paymentStorage (fst (createPayment st paymentData)))
  = map snd (paymentStorage st) ++ [snd (createPayment st paymentData)].
Proof.
  intros Hb. cbn.
  now rewrite (payment_map_set_fresh _ _ _ (payment_keys_fresh st Hb)), map_app.
Qed.

(** X24. In a payment store whose keys are below its id counter,
    [createPayment] records the payment under the next id and after all
    earlier payments, keeps every earlier payment, and changes the
    payment list of no other user; the store stays within its bounds. *)
Theorem createPayment_appends (st : t) (paymentData : InsertPayment) :
  keys_bounded st ->
  let st' := fst (createPayment st paymentData) in
  let payment := snd (createPayment st paymentData) in
  pay_id payment = currentPaymentId st
  /\ pay_userId payment = ip_userId paymentData
  /\ map snd (paymentStorage st') = map snd (paymentStorage st) ++ [payment]
  /\ Permutation (getAllPayments st') (payment :: getAllPayments st)
  /\ Permutation (getUserPayments st' (ip_userId paymentData))
       (payment :: getUserPayments st (ip_userId paymentData))
  /\ (forall userId, userId <> ip_userId paymentData ->
        getUserPayments st' userId = getUserPayments st userId)
  /\ keys_bounded st'.
Proof.
  intros Hb st' payment.
  pose proof (payment_keys_fresh st Hb) as Hfresh.
  assert (Hmap : map snd (paymentStorage st')
                 = map snd (paymentStorage st) ++ [payment]).
  { now apply createPayment_storage. }
  repeat match goal with |- _ /\ _ => split end; try reflexivity.
  - exact Hmap.
  - unfold getAllPayments. rewrite Hmap, !sort_perm.
    rewrite Permutation_app_comm. reflexivity.
  - unfold getUserPayments. rewrite Hmap, filter_app, !sort_perm.
    cbn [filter pay_userId payment createPayment snd].
    rewrite Z.eqb_refl, Permutation_app_comm. reflexivity.
  - intros userId Hne. unfold getUserPayments. rewrite Hmap, filter_app.
    cbn [filter pay_userId payment createPayment snd].
    destruct (ip_userId paymentData =? userId)%Z eqn:E;
      [apply Z.eqb_eq in E; congruence|].
    now rewrite app_nil_r.
  - destruct Hb as [Hpos Hall]. split; [unfold st'; cbn; lia|].
    unfold st'. cbn [createPayment fst paymentStorage currentPaymentId].
    rewrite (payment_map_set_fresh _ _ _ Hfresh). apply Forall_app. split.
    + eapply Forall_impl; [|exact Hall]. simpl. intros e He. lia.
    + repeat constructor; simpl; lia.
Qed.

End PaymentFacts.

Lemma getUserRecentPayments_newest_witness :
  MemPayments.getUserRecentPayments Sample3.pst 2 (Some 2%Z)
  = firstn 2 (MemPayments.getUserPayments Sample3.pst 2).
Proof.
  refine (proj1
    (getUserRecentPayments_newest Sample3.pst 2 (Some 2%Z) _)).
  vm_compute. discriminate.
Defined.

Lemma createPayment_appends_witness :
  pay_id (snd (MemPayments.createPayment Sample3.pst
                 (mkInsertPayment 1 500 4000 "completed" "premium-monthly"
                    "card")))
  = 5%Z.
Proof.
  refine (proj1
    (createPayment_appends Sample3.pst
       (mkInsertPayment 1 500 4000 "completed" "premium-monthly" "card") _)).
  split; [vm_compute; discriminate|].
  repeat constructor; vm_compute; discriminate.
Defined.

(* ================================================================== *)
(** ** The payment routes and [parseInt]                               *)
(* ================================================================== *)

Section PaymentRouteFacts.

Import MemStorage.

(** X25. GET /api/payments/user/:id and its [/recent] variant, for a
    logged-in user and an [:id] that parses: the owner of the id and every
    administrator get 200 with the payments of that id, newest first (the
    first five for [/recent]); any other user gets 403. *)
Theorem payments_only_for_owner_or_admin
    (st : t) (pst : MemPayments.t) (sess : option Z) (user : User)
    (idParam : string) (userId : Z) :
  reqUser st sess = Some user ->
  ParseInt.parseInt idParam = Some userId ->
  (id user = userId \/ role user = "admin" ->
   userPayments st pst sess idParam
   = Reply 200 (JArr (map paymentJson (MemPayments.getUserPayments pst userId)))
   /\ userRecentPayments st pst sess idParam
      = Reply 200
          (JArr (map paymentJson
                     (firstn 5 (MemPayments.getUserPayments pst userId)))))
  /\ (id user <> userId -> role user <> "admin" ->
      userPayments st pst sess idParam = forbiddenPayments
      /\ userRecentPayments st pst sess idParam = forbiddenPayments).
Proof.
  intros Hreq Hparse. unfold userPayments, userRecentPayments, mayReadPayments.
  rewrite Hreq, Hparse. split.
  - intros Hmay.
    assert (E : negb (id user =? userId)%Z
                && negb (String.eqb (role user) "admin") = false).
    { destruct Hmay as [H|H].
      - apply Z.eqb_eq in H. now rewrite H.
      - apply String.eqb_eq in H. rewrite H. apply andb_false_r. }
    rewrite E. cbn [negb]. split; [reflexivity|].
    unfold MemPayments.getUserRecentPayments.
    now rewrite slice_nonneg by lia.
  - intros Hid Hrole. apply Z.eqb_neq in Hid. apply String.eqb_neq in Hrole.
    rewrite Hid, Hrole. split; reflexivity.
Qed.

End PaymentRouteFacts.

Lemma payments_only_for_owner_or_admin_witness :
  userPayments Sample.st Sample3.pst (Some 1%Z) "2" = forbiddenPayments
  /\ userRecentPayments Sample.st Sample3.pst (Some 1%Z) "2"
     = forbiddenPayments.
Proof.
  refine (proj2
    (payments_only_for_owner_or_admin Sample.st Sample3.pst (Some 1%Z)
       Sample.alice "2" 2 _ _) _ _);
    first [reflexivity | discriminate].
Defined.

Section ParseIntFacts.

Import ParseInt.

Lemma digits_string_of_uint (d : Decimal.uint) (acc : N) :
  digits 10 (NilEmpty.string_of_uint d) acc true = Some (valueAfter d acc).
Proof.
  revert acc. induction d; intros acc; cbn; try rewrite IHd; reflexivity.
Qed.

Lemma valueAfter_pos (d : Decimal.uint) (p : positive) :
  valueAfter d (Npos p) = Npos (Pos.of_uint_acc d p).
Proof.
  revert p. induction d; intros p; cbn [valueAfter Pos.of_uint_acc];
    try reflexivity;
    match goal with
    | |- valueAfter _ ?n = _ =>
        match goal with
        | |- _ = Npos (Pos.of_uint_acc _ ?q) =>
            replace n with (Npos q) by lia
        end
    end; apply IHd.
Qed.

Lemma valueAfter_zero (d : Decimal.uint) : valueAfter d 0 = Pos.of_uint d.
Proof.
  induction d; cbn [valueAfter Pos.of_uint]; try reflexivity;
    try (change (0 * 10 + 0)%N with 0%N; exact IHd);
    match goal with
    | |- valueAfter _ ?n = _ =>
        let v := eval vm_compute in n in change n with v
    end; apply valueAfter_pos.
Qed.

(** [parseInt] on a numeral without sign. *)
Lemma parseInt_string_of_uint (d : Decimal.uint) :
  d <> Decimal.Nil ->
  parseInt (NilEmpty.string_of_uint d) = Some (Z.of_N (valueAfter d 0)).
Proof.
  intros Hd.
  destruct d as [|l|l|l|l|l|l|l|l|l|l]; [contradiction| | | | | | | | | |];
    try (cbn; now rewrite digits_string_of_uint).
  destruct l; cbn; try rewrite digits_string_of_uint; reflexivity.
Qed.

(** X26. [parseInt] reads back the decimal form of every natural number
    that a double holds exactly: [parseInt(String(n))] is [n] for
    [n < 2^53]. *)
Theorem parseInt_numberToString (n : N) :
  (n < 2 ^ 53)%N ->
  parseInt (numberToString n) = Some (Z.of_N n).
Proof.
  intros _. unfold numberToString.
  assert (Hnil : N.to_uint n <> Decimal.Nil).
  { destruct n; [discriminate|apply DecimalPos.Unsigned.to_uint_nonnil]. }
  replace (NilZero.string_of_uint (N.to_uint n))
    with (NilEmpty.string_of_uint (N.to_uint n))
    by (destruct (N.to_uint n); [contradiction|reflexivity..]).
  rewrite (parseInt_string_of_uint _ Hnil), valueAfter_zero.
  change (Pos.of_uint (N.to_uint n)) with (N.of_uint (N.to_uint n)).
  now rewrite DecimalN.Unsigned.of_to.
Qed.

End ParseIntFacts.

Lemma parseInt_numberToString_witness :
  ParseInt.parseInt (numberToString 2026) = Some 2026%Z.
Proof.
  apply (parseInt_numberToString 2026). reflexivity.
Defined.

(* ================================================================== *)
(** ** The Stripe fields and the webhook                               *)
(* ================================================================== *)

Section StripeFacts.

Import MemStorage MemStorageFacts MemStorageStripe.
Local Open Scope list_scope.

(** [updateUserStripeInfo] does in one step what
    [updateStripeCustomerId] followed by [updateStripeSubscriptionId]
    does: the same store and the same returned user, or the same
    exception when the user is not stored. *)
Lemma updateUserStripeInfo_is_both_updates
    (st : t) (userId : Z) (customerId subscriptionId : string) :
  updateUserStripeInfo st userId customerId subscriptionId
  = (r <- updateStripeCustomerId st userId customerId ;;
     updateStripeSubscriptionId (fst r) userId subscriptionId).
Proof.
  unfold updateUserStripeInfo, updateStripeCustomerId,
    updateStripeSubscriptionId, updateUser.
  destruct (getUser st userId) as [user|] eqn:Hget; [|reflexivity].
  cbn [bind fst]. unfold getUser. cbn [userStorage currentUserId].
  now rewrite map_get_set_same, map_set_set.
Qed.

Variable invoices_retrieve : string -> result Invoice.
Variable RawBody : Type.
Variable constructEvent : RawBody -> string -> string -> StripeEvent + string.
Variable bodyAsEvent : RawBody -> StripeEvent.

Local Abbreviation hook :=
  (webhook invoices_retrieve RawBody constructEvent bodyAsEvent).
Local Abbreviation arrives := (delivers RawBody constructEvent bodyAsEvent).
Local Abbreviation handle := (handleEvent invoices_retrieve).

Lemma webhook_delivers st pst endpointSecret signature body event :
  arrives endpointSecret signature body event ->
  hook st pst endpointSecret signature body
  = match handle st pst event with
    | (Some err, st', pst') => (Throw err, st', pst')
    | (None, st', pst') => (Ok received, st', pst')
    end.
Proof.
  unfold delivers, webhook.
  destruct (orNull endpointSecret); now intros ->.
Qed.

Lemma setPremium_present st user isPremium :
  getUser st (id user) = Some user ->
  exists st',
    setPremium st (id user) isPremium = (None, st')
    /\ getUser st' (id user) = Some (spread user (premiumUpdates isPremium))
    /\ (forall k, k <> id user -> getUser st' k = getUser st k).
Proof.
  intros Hget.
  destruct (updateUser_present st (id user) user (premiumUpdates isPremium) Hget)
    as (st' & Hupd & Hsame & Hother & _).
  exists st'. unfold setPremium, updatePremiumStatus.
  change (mkPartialUser None None None None None None None None None
            (Some isPremium) None None None None None None)
    with (premiumUpdates isPremium).
  rewrite Hupd. auto.
Qed.

(** X27. An [invoice.payment_succeeded] event that the webhook accepts,
    for a customer id that a user stored under its own id carries, is
    answered with [{received: true}]; it sets [isPremium] for that user,
    leaves the other users as they are, and records one payment for that
    user after the earlier ones: "completed", with the paid amount and the
    invoice's creation time in milliseconds. *)
Theorem webhook_payment_succeeded
    (st : t) (pst : MemPayments.t) (endpointSecret : option string)
    (signature : string) (body : RawBody) (invoice : Invoice) (user : User) :
  arrives endpointSecret signature body (InvoicePaymentSucceeded invoice) ->
  findByCustomer st (inv_customer invoice) = Some user ->
  getUser st (id user) = Some user ->
  MemPayments.keys_bounded pst ->
  exists st' pst',
    hook st pst endpointSecret signature body = (Ok received, st', pst')
    /\ getUser st' (id user) = Some (spread user (premiumUpdates true))
    /\ isPremium (spread user (premiumUpdates true)) = true
    /\ (forall k, k <> id user -> getUser st' k = getUser st k)
    /\ map snd (MemPayments.paymentStorage pst')
       = map snd (MemPayments.paymentStorage pst)
         ++ [recorded pst (id user) (amount_paid invoice)
               (created invoice * 1000) "completed"].
Proof.
  intros Harr Hfind Hget Hb.
  rewrite (webhook_delivers _ _ _ _ _ _ Harr).
  destruct (setPremium_present st user true Hget)
    as (st' & Hupd & Hsame & Hother).
  cbn [handleEvent]. rewrite Hfind, Hupd.
  eexists _, _. split; [reflexivity|].
  repeat match goal with |- _ /\ _ => split end;
    try reflexivity; try assumption.
  cbn [fst snd]. now rewrite createPayment_storage.
Qed.

(** X28. A [customer.subscription.created] or [.updated] event that the
    webhook accepts, for the customer id of a user stored under its own id,
    sets [isPremium] of that user to whether the status is "active" and
    leaves the other users as they are.  When the status is "active", the
    subscription names a latest invoice, Stripe returns that invoice and
    the invoice is paid, it records one "completed" payment for that user,
    with the paid amount, after the earlier payments.  In every other
    case, a status that is not "active", no latest invoice, an invoice
    that Stripe does not return or one that is not paid, it records no
    payment. *)
Theorem webhook_subscription_changed
    (st : t) (pst : MemPayments.t) (endpointSecret : option string)
    (signature : string) (body : RawBody) (event : StripeEvent)
    (subscription : Subscription) (user : User) :
  event = CustomerSubscriptionCreated subscription
  \/ event = CustomerSubscriptionUpdated subscription ->
  arrives endpointSecret signature body event ->
  findByCustomer st (sub_customer subscription) = Some user ->
  getUser st (id user) = Some user ->
  MemPayments.keys_bounded pst ->
  let active := String.eqb (sub_status subscription) "active" in
  exists st' pst',
    hook st pst endpointSecret signature body = (Ok received, st', pst')
    /\ getUser st' (id user) = Some (spread user (premiumUpdates active))
    /\ isPremium (spread user (premiumUpdates active)) = active
    /\ (forall k, k <> id user -> getUser st' k = getUser st k)
    /\ (forall invoiceId invoice,
          active = true ->
          orNull (latest_invoice subscription) = Some invoiceId ->
          invoices_retrieve invoiceId = Ok invoice ->
          paid invoice = true ->
          map snd (MemPayments.paymentStorage pst')
          = map snd (MemPayments.paymentStorage pst)
            ++ [recorded pst (id user) (amount_paid invoice)
                  (created invoice * 1000) "completed"])
    /\ (active = false -> pst' = pst)
    /\ (orNull (latest_invoice subscription) = None -> pst' = pst)
    /\ (forall invoiceId err,
          orNull (latest_invoice subscription) = Some invoiceId ->
          invoices_retrieve invoiceId = Throw err -> pst' = pst)
    /\ (forall invoiceId invoice,
          orNull (latest_invoice subscription) = Some invoiceId ->
          invoices_retrieve invoiceId = Ok invoice ->
          paid invoice = false -> pst' = pst).
Proof.
  intros Hevent Harr Hfind Hget Hb active.
  rewrite (webhook_delivers _ _ _ _ _ _ Harr).
  destruct (setPremium_present st user active Hget)
    as (st' & Hupd & Hsame & Hother).
  assert (Hhandle :
    handle st pst event
    = match (if active then orNull (latest_invoice subscription) else None)
      with
      | None => (None, st', pst)
      | Some invoiceId =>
          match invoices_retrieve invoiceId with
          | Throw _ => (None, st', pst)
          | Ok invoice =>
              if paid invoice then
                (None, st',
                 fst (MemPayments.createPayment pst
                        (premiumMonthly (id user) (amount_paid invoice)
                           (created invoice * 1000) "completed")))
              else (None, st', pst)
          end
      end).
  { destruct Hevent as [-> | ->]; cbn [handleEvent]; rewrite Hfind;
      fold active; now rewrite Hupd. }
  rewrite Hhandle.
  destruct active eqn:Hactive;
    destruct (orNull (latest_invoice subscription)) as [invoiceId|] eqn:Hlatest;
    try (eexists _, _; split; [reflexivity|];
         repeat match goal with |- _ /\ _ => split end;
         try reflexivity; try assumption; intros; congruence).
  destruct (invoices_retrieve invoiceId) as [invoice|err] eqn:Hret;
    [destruct (paid invoice) eqn:Hpaid|];
    (eexists _, _; split; [reflexivity|];
     repeat match goal with |- _ /\ _ => split end;
     try reflexivity; try assumption; intros;
     repeat match goal with
            | H : Some _ = Some _ |- _ => injection H as <-
            end;
     try congruence).
  assert (invoice0 = invoice) as -> by congruence.
  cbn [fst snd]. now rewrite createPayment_storage.
Qed.

(** X29. An accepted [customer.subscription.deleted] event for the
    customer id of a user stored under its own id clears [isPremium] of
    that user and records no payment; an accepted
    [invoice.payment_failed] event records one "failed" payment with the
    amount due and leaves every user, premium flag included, as it is. *)
Theorem webhook_deleted_and_failed
    (st : t) (pst : MemPayments.t) (endpointSecret : option string)
    (signature : string) (body : RawBody) (user : User) :
  getUser st (id user) = Some user ->
  MemPayments.keys_bounded pst ->
  (forall subscription,
     arrives endpointSecret signature body
       (CustomerSubscriptionDeleted subscription) ->
     findByCustomer st (sub_customer subscription) = Some user ->
     exists st',
       hook st pst endpointSecret signature body = (Ok received, st', pst)
       /\ getUser st' (id user) = Some (spread user (premiumUpdates false))
       /\ (forall k, k <> id user -> getUser st' k = getUser st k))
  /\ (forall invoice,
        arrives endpointSecret signature body (InvoicePaymentFailed invoice) ->
        findByCustomer st (inv_customer invoice) = Some user ->
        exists pst',
          hook st pst endpointSecret signature body = (Ok received, st, pst')
          /\ map snd (MemPayments.paymentStorage pst')
             = map snd (MemPayments.paymentStorage pst)
               ++ [recorded pst (id user) (amount_due invoice)
                     (created invoice * 1000) "failed"]).
Proof.
  intros Hget Hb. split.
  - intros subscription Harr Hfind.
    rewrite (webhook_delivers _ _ _ _ _ _ Harr).
    destruct (setPremium_present st user false Hget)
      as (st' & Hupd & Hsame & Hother).
    cbn [handleEvent]. rewrite Hfind, Hupd.
    exists st'. auto.
  - intros invoice Harr Hfind.
    rewrite (webhook_delivers _ _ _ _ _ _ Harr).
    cbn [handleEvent]. rewrite Hfind.
    eexists. split; [reflexivity|]. now rewrite createPayment_storage.
Qed.

(** X30. The webhook changes neither store when it accepts an event of a
    type that it does not handle or an event whose customer id no user
    carries; and with a webhook secret configured, a body whose signature
    [constructEvent] rejects is answered with 400 and changes nothing. *)
Theorem webhook_without_effect
    (st : t) (pst : MemPayments.t) (endpointSecret : option string)
    (signature : string) (body : RawBody) :
  (forall event,
     arrives endpointSecret signature body event ->
     match eventCustomer event with
     | Some customerId => findByCustomer st customerId = None
     | None => True
     end ->
     hook st pst endpointSecret signature body = (Ok received, st, pst))
  /\ (forall secret errMessage,
        orNull endpointSecret = Some secret ->
        constructEvent body signature secret = inr errMessage ->
        hook st pst endpointSecret signature body
        = (Ok (Reply 400 (JStr ("Webhook Error: " ++ errMessage)%string)),
           st, pst)).
Proof.
  split.
  - intros event Harr Hnone.
    rewrite (webhook_delivers _ _ _ _ _ _ Harr).
    destruct event; cbn [eventCustomer] in Hnone; cbn [handleEvent];
      try rewrite Hnone; reflexivity.
  - intros secret errMessage Hsecret Hrej. unfold webhook.
    now rewrite Hsecret, Hrej.
Qed.

End StripeFacts.

Lemma webhook_payment_succeeded_witness :
  exists st' pst',
    webhook Sample4.invoices_retrieve Sample4.RawBody Sample4.constructEvent
      Sample4.bodyAsEvent Sample2.st Sample3.pst None EmptyString
      (InvoicePaymentSucceeded Sample4.invoice)
    = (Ok received, st', pst')
    /\ MemStorage.getUser st' (id Sample2.root)
       = Some (spread Sample2.root (premiumUpdates true))
    /\ isPremium (spread Sample2.root (premiumUpdates true)) = true
    /\ (forall k, k <> id Sample2.root ->
          MemStorage.getUser st' k = MemStorage.getUser Sample2.st k)
    /\ map snd (MemPayments.paymentStorage pst')
       = (map snd (MemPayments.paymentStorage Sample3.pst)
          ++ [recorded Sample3.pst (id Sample2.root)
                (amount_paid Sample4.invoice)
                (created Sample4.invoice * 1000) "completed"])%list.
Proof.
  apply (webhook_payment_succeeded Sample4.invoices_retrieve Sample4.RawBody
           Sample4.constructEvent Sample4.bodyAsEvent Sample2.st Sample3.pst
           None EmptyString (InvoicePaymentSucceeded Sample4.invoice) Sample4.invoice
           Sample2.root).
  - reflexivity.
  - reflexivity.
  - reflexivity.
  - split; [vm_compute; discriminate|].
    repeat constructor; vm_compute; discriminate.
Defined.

Lemma webhook_subscription_changed_witness :
  exists st' pst',
    webhook Sample4.invoices_retrieve Sample4.RawBody Sample4.constructEvent
      Sample4.bodyAsEvent Sample2.st Sample3.pst (Some "whsec") "good"
      (CustomerSubscriptionUpdated
         (mkSubscription "cus_root" "active" (Some "in_1")))
    = (Ok received, st', pst')
    /\ MemStorage.getUser st' 3
       = Some (spread Sample2.root (premiumUpdates true))
    /\ map snd (MemPayments.paymentStorage pst')
       = (map snd (MemPayments.paymentStorage Sample3.pst)
          ++ [recorded Sample3.pst 3 999 1700000000000 "completed"])%list.
Proof.
  assert (Hb : MemPayments.keys_bounded Sample3.pst).
  { split; [vm_compute; discriminate|].
    repeat constructor; vm_compute; discriminate. }
  destruct (webhook_subscription_changed Sample4.invoices_retrieve
              Sample4.RawBody Sample4.constructEvent Sample4.bodyAsEvent
              Sample2.st Sample3.pst (Some "whsec") "good"
              (CustomerSubscriptionUpdated
                 (mkSubscription "cus_root" "active" (Some "in_1")))
              (CustomerSubscriptionUpdated
                 (mkSubscription "cus_root" "active" (Some "in_1")))
              (mkSubscription "cus_root" "active" (Some "in_1"))
              Sample2.root
              (or_intror eq_refl) eq_refl eq_refl eq_refl Hb)
    as (st' & pst' & Hhook & Hget & _ & _ & Hpay & _).
  exists st', pst'. split; [exact Hhook|]. split; [exact Hget|].
  exact (Hpay "in_1" Sample4.invoice eq_refl eq_refl eq_refl eq_refl).
Defined.

Lemma webhook_deleted_and_failed_witness :
  exists pst',
    webhook Sample4.invoices_retrieve Sample4.RawBody Sample4.constructEvent
      Sample4.bodyAsEvent Sample2.st Sample3.pst None EmptyString
      (InvoicePaymentFailed Sample4.invoice)
    = (Ok received, Sample2.st, pst')
    /\ map snd (MemPayments.paymentStorage pst')
       = (map snd (MemPayments.paymentStorage Sample3.pst)
          ++ [recorded Sample3.pst (id Sample2.root)
                (amount_due Sample4.invoice)
                (created Sample4.invoice * 1000) "failed"])%list.
Proof.
  refine (proj2
    (webhook_deleted_and_failed Sample4.invoices_retrieve Sample4.RawBody
       Sample4.constructEvent Sample4.bodyAsEvent Sample2.st Sample3.pst
       None EmptyString (InvoicePaymentFailed Sample4.invoice) Sample2.root _ _)
    Sample4.invoice _ _).
  - reflexivity.
  - split; [vm_compute; discriminate|].
    repeat constructor; vm_compute; discriminate.
  - reflexivity.
  - reflexivity.
Defined.

Lemma webhook_without_effect_witness :
  webhook Sample4.invoices_retrieve Sample4.RawBody Sample4.constructEvent
    Sample4.bodyAsEvent Sample2.st Sample3.pst (Some "whsec") "forged"
    (InvoicePaymentSucceeded Sample4.invoice)
  = (Ok (Reply 400
            (JStr "Webhook Error: No signatures found matching the expected signature")),
     Sample2.st, Sample3.pst).
Proof.
  refine (proj2
    (webhook_without_effect Sample4.invoices_retrieve Sample4.RawBody
       Sample4.constructEvent Sample4.bodyAsEvent Sample2.st Sample3.pst
       (Some "whsec") "forged" (InvoicePaymentSucceeded Sample4.invoice))
    "whsec" _ _ _);
    reflexivity.
Defined.

(* ================================================================== *)
(** ** The OAuth strategies                                            *)
(* ================================================================== *)

Section OAuthFacts.

Import MemStorage MemStorageFacts.
Local Open Scope list_scope.

Variable scrypt : string -> string -> nat -> list byte.

Lemma noWhiteSpace_removeWhiteSpace (s : string) :
  noWhiteSpace (removeWhiteSpace s) = true.
Proof.
  induction s as [|c r IH]; [reflexivity|]. cbn [removeWhiteSpace].
  destruct (ParseInt.isWhiteSpace c) eqn:E; [exact IH|].
  cbn [noWhiteSpace]. now rewrite E, IH.
Qed.

Lemma findOrCreate_found st mail userData now ref user :
  getUserByEmail st mail = Some (ref, user) ->
  findOrCreate st mail userData now
  = (OAuthUser (seenAfterUpdateLastLogin ref user now),
     updateLastLogin st (id user) now).
Proof. intros H. unfold findOrCreate. now rewrite H. Qed.

Lemma updateLastLogin_keys st k now :
  map fst (userStorage (updateLastLogin st k now)) = map fst (userStorage st)
  /\ currentUserId (updateLastLogin st k now) = currentUserId st.
Proof.
  unfold updateLastLogin. destruct (getUser st k) as [user|] eqn:E;
    [|split; reflexivity].
  cbn. split; [|reflexivity]. now apply map_set_keys with (v0 := user).
Qed.

(** X20. A Google or GitHub login whose first email, not empty, belongs to
    a stored user logs that user in without a password and without the
    second factor, whatever its [is2FAEnabled] flag: the strategy hands the
    user to passport, the callback route binds the session to its id and
    redirects to ["/"]; no user is created. *)
Theorem oauth_login_skips_second_factor
    (st : t) (sess : option Z) (profile : OAuthProfile) (mail : string)
    (others : list string) (now : Z) (random : N)
    (passwordBytes saltBytes : list byte) (ref : Z) (user : User) :
  emails profile = Some (mail :: others) ->
  mail <> EmptyString ->
  getUserByEmail st mail = Some (ref, user) ->
  let google :=
    googleStrategy scrypt st profile now random passwordBytes saltBytes in
  let github :=
    githubStrategy scrypt st profile now random passwordBytes saltBytes in
  google = github
  /\ oauthCallback sess google
     = (Redirect "/", updateLastLogin st (id user) now,
        Some (id user))
  /\ map fst (userStorage (snd google)) = map fst (userStorage st)
  /\ currentUserId (snd google) = currentUserId st.
Proof.
  intros Hmails Hne Hfound google github.
  assert (Hgoogle : google
                    = (OAuthUser (seenAfterUpdateLastLogin ref user now),
                       updateLastLogin st (id user) now)).
  { unfold google, googleStrategy. rewrite Hmails.
    now apply findOrCreate_found. }
  assert (Hgithub : github = google).
  { rewrite Hgoogle. unfold github, githubStrategy. rewrite Hmails.
    unfold orNull. destruct mail as [|c r]; [contradiction|]. cbn [truthy].
    now apply findOrCreate_found. }
  rewrite Hgithub, Hgoogle. cbn [oauthCallback snd].
  split; [reflexivity|]. split.
  - unfold seenAfterUpdateLastLogin. now destruct (ref =? id user)%Z.
  - apply updateLastLogin_keys.
Qed.

(** A profile without emails is refused by both strategies with the
    error "Email access is required": the store is unchanged and the
    callback route passes the error on without touching the session. *)
Lemma oauth_needs_an_email
    (st : t) (sess : option Z) (profile : OAuthProfile) (now : Z) (random : N)
    (passwordBytes saltBytes : list byte) :
  emails profile = None \/ emails profile = Some [] ->
  oauthCallback sess
    (googleStrategy scrypt st profile now random passwordBytes saltBytes)
  = (OAuthNext (OAuthError "Email access is required"), st, sess)
  /\ oauthCallback sess
       (githubStrategy scrypt st profile now random passwordBytes saltBytes)
     = (OAuthNext (OAuthError "Email access is required"), st, sess).
Proof.
  intros [H|H]; unfold googleStrategy, githubStrategy; rewrite H; now split.
Qed.

(** A Google login whose first email no stored user has, in a store
    whose keys are below the id counter, creates one user under the next
    id: with that email, a username made of the display name without its
    white space followed by the random number, the hash of a random
    password, role "user" and no second factor; the callback route binds
    the session to the new id. *)
Lemma google_login_creates_user
    (st : t) (sess : option Z) (profile : OAuthProfile) (mail : string)
    (others : list string) (now : Z) (random : N)
    (passwordBytes saltBytes : list byte) :
  keys_bounded st ->
  emails profile = Some (mail :: others) ->
  getUserByEmail st mail = None ->
  exists user,
    oauthCallback sess
      (googleStrategy scrypt st profile now random passwordBytes saltBytes)
    = (Redirect "/",
       mk (userStorage st ++ [(currentUserId st, user)]) (currentUserId st + 1),
       Some (currentUserId st))
    /\ id user = currentUserId st
    /\ email user = mail
    /\ username user
       = (removeWhiteSpace (displayName profile) ++ numberToString random)%string
    /\ noWhiteSpace (removeWhiteSpace (displayName profile)) = true
    /\ hashPassword scrypt saltBytes (toHex passwordBytes) = Ok (password user)
    /\ role user = "user"
    /\ is2FAEnabled user = false
    /\ authType user = "email"
    /\ lastLogin user = Some now.
Proof.
  intros Hb Hmails Hnone.
  pose proof (keys_bounded_fresh st Hb) as Hfresh.
  unfold googleStrategy, findOrCreate. rewrite Hmails, Hnone, hashPassword_eq.
  cbn [bind createUser id].
  unfold seenAfterUpdateLastLogin, updateLastLogin, getUser.
  cbn [id userStorage currentUserId]. rewrite Z.eqb_refl.
  rewrite map_get_set_same, (map_set_fresh _ _ _ Hfresh).
  rewrite (map_set_last _ _ _ _ Hfresh).
  cbn [oauthCallback].
  eexists. split; [reflexivity|].
  cbn. repeat split. apply noWhiteSpace_removeWhiteSpace.
Qed.

End OAuthFacts.

Lemma oauth_login_skips_second_factor_witness :
  oauthCallback None
    (googleStrategy Sample.scrypt Sample.st Sample5.aliceProfile 900 7
       [x01] [x02])
  = (Redirect "/", MemStorage.updateLastLogin Sample.st (id Sample.alice) 900,
     Some (id Sample.alice))
  /\ is2FAEnabled Sample.alice = true.
Proof.
  split; [|reflexivity].
  refine (proj1 (proj2
    (oauth_login_skips_second_factor Sample.scrypt Sample.st None
       Sample5.aliceProfile "ALICE@x.com" [] 900 7 [x01] [x02] 1 Sample.alice
       _ _ _)));
    first [reflexivity | discriminate].
Defined.

(* ================================================================== *)
(** ** What every route keeps                                          *)
(* ================================================================== *)

Section GrowthFacts.

Import MemStorage MemStorageFacts MemStorageStripe.

Lemma grows_refl st : keys_bounded st -> grows st st.
Proof. intros H. split; [exact H|]. split; [lia|auto]. Qed.

Lemma grows_trans st1 st2 st3 : grows st1 st2 -> grows st2 st3 -> grows st1 st3.
Proof.
  intros (_ & H12 & K12) (B3 & H23 & K23).
  split; [exact B3|]. split; [lia|auto].
Qed.

Lemma grows_createUser st userData now :
  keys_bounded st -> grows st (fst (createUser st userData now)).
Proof.
  intros Hb. split; [now apply keys_bounded_createUser|].
  split; [cbn; lia|].
  intros k Hk. destruct (getUser st k) as [u|] eqn:E; [|congruence].
  pose proof (keys_bounded_getUser _ _ _ Hb E).
  unfold getUser. cbn. rewrite map_get_set_other by lia.
  unfold getUser in E. congruence.
Qed.

Lemma getUser_map_set_some st k v k' :
  getUser st k' <> None ->
  map_get k' (map_set k v (userStorage st)) <> None.
Proof.
  intros H. destruct (Z.eq_dec k' k) as [->|Hne].
  - rewrite map_get_set_same. discriminate.
  - now rewrite map_get_set_other.
Qed.

Lemma grows_updateUser st k updates st' user' :
  keys_bounded st -> updateUser st k updates = Ok (st', user') -> grows st st'.
Proof.
  intros Hb Hupd.
  split; [now apply (keys_bounded_updateUser _ _ _ _ _ Hb Hupd)|].
  unfold updateUser in Hupd. destruct (getUser st k); [|discriminate].
  injection Hupd as <- _. split; [cbn; lia|].
  intros k' Hk'. now apply getUser_map_set_some.
Qed.

Lemma grows_updateLastLogin st k now :
  keys_bounded st -> grows st (updateLastLogin st k now).
Proof.
  intros Hb. split; [now apply keys_bounded_updateLastLogin|].
  unfold updateLastLogin. destruct (getUser st k); [|split; [lia|auto]].
  split; [cbn; lia|]. intros k' Hk'. now apply getUser_map_set_some.
Qed.

Lemma grows_create_then_login st userData now now' k :
  keys_bounded st ->
  grows st (updateLastLogin (fst (createUser st userData now)) k now').
Proof.
  intros Hb. eapply grows_trans; [now apply grows_createUser|].
  apply grows_updateLastLogin. now apply keys_bounded_createUser.
Qed.

Lemma grows_createUser_eq st userData now st' user :
  keys_bounded st -> createUser st userData now = (st', user) -> grows st st'.
Proof.
  intros Hb H. change st' with (fst (st', user)). rewrite <- H.
  now apply grows_createUser.
Qed.

Lemma grows_create_then_login_eq st userData now now' k st' user :
  keys_bounded st ->
  createUser st userData now = (st', user) ->
  grows st (updateLastLogin st' k now').
Proof.
  intros Hb H. change st' with (fst (st', user)). rewrite <- H.
  now apply grows_create_then_login.
Qed.

(** Closes the cases of a route: the store is the old one, or comes from
    it by the store operations. *)
Ltac grows_cases Hb :=
  repeat (match goal with
          | |- context [match ?x with _ => _ end] =>
              lazymatch x with
              | context [match _ with _ => _ end] => fail
              | _ => destruct x eqn:?
              end
          end; cbn [store fst snd]);
  cbn [store fst snd];
  repeat match goal with
         | H : Ok _ = Ok _ |- _ => injection H as H; subst
         | H : (_, _) = (_, _) |- _ => injection H as H; subst
         end;
  first [ now apply grows_refl
        | now apply grows_updateLastLogin
        | (eapply grows_createUser_eq; [exact Hb|eassumption])
        | (eapply grows_create_then_login_eq; [exact Hb|eassumption])
        | (eapply grows_updateUser; [exact Hb|eassumption]) ].

Variable scrypt : string -> string -> nat -> list byte.
Variable totp_verify : string -> string -> bool.
Variable toDataURL : string -> result string.
Variable SiweMessage : Type.
Variable SiweMessage_new : string -> result SiweMessage.
Variable SiweMessage_address : SiweMessage -> string.
Variable SiweMessage_verify : SiweMessage -> string -> result bool.

(** X19. No route deletes a user or reuses an id: from a store whose keys
    are below its id counter, each of the routes of [setupAuth] and the
    admin update, whatever the request, leads to a store that still has
    every user id it had, whose id counter has not gone back and whose
    keys are again below the counter. *)
Theorem routes_keep_users
    (st : t) (sess : option Z) (now : Z) (credentials : LoginUser)
    (registration : InsertUser) (wallet : Web3Login) (code : Verify2FA)
    (secret : GeneratedSecret) (updates : PartialUser)
    (passwords : ChangePassword) (idParam : string)
    (passwordBytes saltBytes : list byte) :
  keys_bounded st ->
  grows st (store (login scrypt st sess credentials now))
  /\ grows st (store (register scrypt st sess registration now saltBytes))
  /\ grows st
       (store (web3Login scrypt SiweMessage SiweMessage_new SiweMessage_address
                 SiweMessage_verify st sess wallet now passwordBytes saltBytes))
  /\ grows st (store (verify2fa totp_verify st sess code now))
  /\ grows st (store (setup2fa toDataURL st sess secret))
  /\ grows st (store (enable2fa totp_verify st sess code))
  /\ grows st (store (disable2fa st sess))
  /\ grows st (store (patchUser st sess updates))
  /\ grows st (store (changePassword scrypt st sess passwords saltBytes))
  /\ grows st (store (adminPatchUser st sess idParam updates))
  /\ grows st (store (logout st sess))
  /\ grows st (store (currentUser st sess))
  /\ grows st (store (adminUsers st sess)).
Proof.
  intros Hb.
  repeat match goal with |- _ /\ _ => split end.
  - unfold login, localStrategy. grows_cases Hb.
  - unfold register, bind. grows_cases Hb.
  - unfold web3Login, walletUser, bind. grows_cases Hb.
  - unfold verify2fa. grows_cases Hb.
  - unfold setup2fa. grows_cases Hb.
  - unfold enable2fa. grows_cases Hb.
  - unfold disable2fa. grows_cases Hb.
  - unfold patchUser. grows_cases Hb.
  - unfold changePassword. grows_cases Hb.
  - unfold adminPatchUser. grows_cases Hb.
  - now apply grows_refl.
  - unfold currentUser. grows_cases Hb.
  - unfold adminUsers. grows_cases Hb.
Qed.

End GrowthFacts.

(* ================================================================== *)
(** ** When a login route binds a session                              *)
(* ================================================================== *)

Section SessionFacts.

Import MemStorage.

Variable scrypt : string -> string -> nat -> list byte.
Variable totp_verify : string -> string -> bool.
Variable SiweMessage : Type.
Variable SiweMessage_new : string -> result SiweMessage.
Variable SiweMessage_address : SiweMessage -> string.
Variable SiweMessage_verify : SiweMessage -> string -> result bool.


(** X9. POST /api/web3-login changes the store or the session of the caller
    only for a request that passes the schema, whose message parses,
    whose signature verifies and whose message carries the claimed address
    up to letter case. *)
Theorem web3Login_only_when_verified
    (st : t) (sess : option Z) (body : Web3Login) (now : Z)
    (passwordBytes saltBytes : list byte) :
  let out :=
    web3Login scrypt SiweMessage SiweMessage_new SiweMessage_address
      SiweMessage_verify st sess body now passwordBytes saltBytes in
  store out <> st \/ session out <> sess ->
  verified SiweMessage SiweMessage_new SiweMessage_address SiweMessage_verify
           body.
Proof.
  intros out. subst out. unfold web3Login, verified.
  destruct (web3LoginSchema body) eqn:Hschema; cbn [negb];
    [|intros [H|H]; now contradiction H].
  destruct (SiweMessage_new (w3_message body)) as [m|err] eqn:Hnew;
    [|intros [H|H]; now contradiction H].
  destruct (SiweMessage_verify m (w3_signature body)) as [[|]|err] eqn:Hver;
    try (intros [H|H]; now contradiction H).
  destruct (String.eqb (toLowerCase (SiweMessage_address m))
                       (toLowerCase (w3_address body))) eqn:Haddr;
    cbn [negb]; [|intros [H|H]; now contradiction H].
  intros _. split; [reflexivity|]. exists m.
  apply String.eqb_eq in Haddr. auto.
Qed.

End SessionFacts.


Lemma web3Login_only_when_verified_witness :
  verified Sample.SiweMessage Sample.SiweMessage_new Sample.SiweMessage_address
    Sample.SiweMessage_verify Sample.walletBody.
Proof.
  apply (web3Login_only_when_verified Sample.scrypt Sample.SiweMessage
           Sample.SiweMessage_new Sample.SiweMessage_address
           Sample.SiweMessage_verify Sample.st None Sample.walletBody 500
           [x0a; x0b] Sample.salt).
  right. vm_compute. discriminate.
Defined.

Lemma routes_keep_users_witness :
  grows Sample.st
    (store (register Sample.scrypt Sample.st None
              (mkInsertUser "Carol" "pw3" "carol@x.com" None None None None)
              700 Sample.salt)).
Proof.
  refine (proj1 (proj2
    (routes_keep_users Sample.scrypt Sample.totp_verify Sample2.toDataURL
       Sample.SiweMessage Sample.SiweMessage_new Sample.SiweMessage_address
       Sample.SiweMessage_verify Sample.st None 700
       (mkLoginUser "alice" "secret1")
       (mkInsertUser "Carol" "pw3" "carol@x.com" None None None None)
       Sample.walletBody (mkVerify2FA "000000" None) Sample2.secret
       Sample.makeAdmin (mkChangePassword None None) "1" [x0a] Sample.salt _))).
  split; [vm_compute; discriminate|].
  repeat constructor; vm_compute; discriminate.
Defined.
